(** * NenDB Go driver: retrying request pipeline, error taxonomy, domain types

  A shallow embedding of the packages [pkg/errors], [pkg/types] and
  [pkg/client] of the driver and of the command [cmd/nendb], with the
  properties of the specification, and further properties of the code,
  stated and proved over it.

  Conventions of the embedding:
  - Go's [int] and [time.Duration] are 64-bit two's-complement integers,
    carried as [Z] with the wrap-around of the arithmetic written out
    ([GoInt.wrap64]); a [float64] is carried by its bit pattern;
  - a nil slice, map or pointer is [None], a non-nil one is [Some _];
    an [interface{}] holding nil is [None];
  - a Go result pair [(T, error)] is a pair of options;
  - methods with a pointer receiver thread the receiver explicitly;
  - the wall clock is a virtual clock in nanoseconds, and the network is
    a script indexed by the attempt number; a reply arrives whole, headers
    and body at the same instant;
  - a function that runs the retry loop takes a bound [fuel] on the
    iterations of one run of the loop, and returns [None] when the loop is
    still running after that many: the loop as written need not end;
  - where two structs of a package have a field of the same name, the
    projections of the later one carry a prefix. *)

From Stdlib Require Import ZArith Lia List Ascii String.
From stdpp Require Import base option gmap strings pretty list.

Set Warnings "-register-all".
Local Open Scope Z_scope.

(** ** Machine integers *)

Module GoInt.

Definition min_int64 : Z := - 2 ^ 63.
Definition max_int64 : Z := 2 ^ 63 - 1.

(** Reduction of a mathematical integer to its int64 representative. *)
Definition wrap64 (z : Z) : Z := (z + 2 ^ 63) mod 2 ^ 64 - 2 ^ 63.

Definition in_int64 (z : Z) : Prop := min_int64 <= z <= max_int64.

(** [a * b] on [time.Duration] (an int64). *)
Definition mul64 (a b : Z) : Z := wrap64 (a * b).

(** [i++] on an [int]. *)
Definition incr (i : Z) : Z := wrap64 (i + 1).

End GoInt.

(** ** Dynamic values and [reflect.Kind] *)

Module reflect.

(** The kinds of package [reflect], in declaration order. *)
Inductive Kind : Set :=
| Invalid | Bool
| Int | Int8 | Int16 | Int32 | Int64
| Uint | Uint8 | Uint16 | Uint32 | Uint64 | Uintptr
| Float32 | Float64 | Complex64 | Complex128
| Array | Chan | Func | Interface | Map | Pointer | Slice
| String | Struct | UnsafePointer.

End reflect.

Module Go.

Inductive IntSize : Set := Iword | I8 | I16 | I32 | I64.
Inductive UintSize : Set := Uword | U8 | U16 | U32 | U64 | UPtr.
Inductive FloatSize : Set := F32 | F64.
Inductive ComplexSize : Set := C64 | C128.

(** A non-nil value boxed in an [interface{}]: its dynamic type is always
    concrete, so its kind is never [Invalid] or [Interface]. Floats are
    carried by their IEEE bit pattern; nil slices, maps and pointers are
    values of their kind with no backing store. *)
Inductive Value : Type :=
| VBool (b : bool)
| VInt (sz : IntSize) (n : Z)
| VUint (sz : UintSize) (n : Z)
| VFloat (sz : FloatSize) (bits : Z)
| VComplex (sz : ComplexSize) (re im : Z)
| VString (s : string)
| VSlice (elems : option (list (option Value)))
| VArray (elems : list (option Value))
| VMap (entries : option (list (Value * option Value)))
| VStruct (fields : list (string * option Value))
| VFunc (code : option positive)
| VChan (id : option positive)
| VPointer (addr : option positive)
| VUnsafePointer (addr : Z).

(** [interface{}] *)
Definition iface : Type := option Value.

(** [reflect.TypeOf(v).Kind()] for a non-nil [v]. *)
Definition kind_of (v : Value) : reflect.Kind :=
  match v with
  | VBool _ => reflect.Bool
  | VInt Iword _ => reflect.Int
  | VInt I8 _ => reflect.Int8
  | VInt I16 _ => reflect.Int16
  | VInt I32 _ => reflect.Int32
  | VInt I64 _ => reflect.Int64
  | VUint Uword _ => reflect.Uint
  | VUint U8 _ => reflect.Uint8
  | VUint U16 _ => reflect.Uint16
  | VUint U32 _ => reflect.Uint32
  | VUint U64 _ => reflect.Uint64
  | VUint UPtr _ => reflect.Uintptr
  | VFloat F32 _ => reflect.Float32
  | VFloat F64 _ => reflect.Float64
  | VComplex C64 _ _ => reflect.Complex64
  | VComplex C128 _ _ => reflect.Complex128
  | VString _ => reflect.String
  | VSlice _ => reflect.Slice
  | VArray _ => reflect.Array
  | VMap _ => reflect.Map
  | VStruct _ => reflect.Struct
  | VFunc _ => reflect.Func
  | VChan _ => reflect.Chan
  | VPointer _ => reflect.Pointer
  | VUnsafePointer _ => reflect.UnsafePointer
  end.

(** [map[string]interface{}], non-nil. *)
Abbreviation smap := (gmap string iface).

End Go.

(** ** Package [errors] *)

Module errors.
Import Go.

Record NenDBError : Type := mkNenDBError {
  Message : string;
  Details : smap;
  Time : Z
}.

(** The dynamic types an [error] takes in this code base: the five
    wrappers of [NenDBError], and the unclassified errors made by
    [fmt.Errorf] or handed over by the standard library. *)
Inductive error : Type :=
| PlainError (text : string)
| NenDBConnectionError (e : NenDBError)
| NenDBTimeoutError (e : NenDBError)
| NenDBValidationError (e : NenDBError)
| NenDBAlgorithmError (e : NenDBError)
| NenDBResponseError (e : NenDBError).

Inductive ErrorKind : Set :=
| ConnectionKind | TimeoutKind | ValidationKind | AlgorithmKind | ResponseKind.

(** The kind tag of a classified error; [None] for an unclassified one. *)
Definition kind (err : error) : option ErrorKind :=
  match err with
  | PlainError _ => None
  | NenDBConnectionError _ => Some ConnectionKind
  | NenDBTimeoutError _ => Some TimeoutKind
  | NenDBValidationError _ => Some ValidationKind
  | NenDBAlgorithmError _ => Some AlgorithmKind
  | NenDBResponseError _ => Some ResponseKind
  end.

Definition base (err : error) : option NenDBError :=
  match err with
  | PlainError _ => None
  | NenDBConnectionError e | NenDBTimeoutError e | NenDBValidationError e
  | NenDBAlgorithmError e | NenDBResponseError e => Some e
  end.

(** [New]: a nil detail map is replaced by an empty one; [now] is the
    reading of [time.Now()]. *)
Definition New (now : Z) (message : string) (details : option smap) : NenDBError :=
  {| Message := message; Details := default ∅ details; Time := now |}.

Definition NewConnectionError now message details : error :=
  NenDBConnectionError (New now message details).
Definition NewTimeoutError now message details : error :=
  NenDBTimeoutError (New now message details).
Definition NewValidationError now message details : error :=
  NenDBValidationError (New now message details).
Definition NewAlgorithmError now message details : error :=
  NenDBAlgorithmError (New now message details).
Definition NewResponseError now message details : error :=
  NenDBResponseError (New now message details).

Section Rendering.
(** [fmt.Sprintf("%v", m)] for a detail map. *)
Variable fmt_map : smap -> string.

Definition NenDBError_Error (e : NenDBError) : string :=
  if (0 <? Z.of_nat (size (Details e)))%Z
  then Message e +:+ " - Details: " +:+ fmt_map (Details e)
  else Message e.

(** [err.Error()] *)
Definition Error (err : error) : string :=
  match err with
  | PlainError text => text
  | NenDBConnectionError e | NenDBTimeoutError e | NenDBValidationError e
  | NenDBAlgorithmError e | NenDBResponseError e => NenDBError_Error e
  end.
End Rendering.

End errors.

(** ** Package [types] *)

Module types.
Import Go.
Import errors.

Definition AlgorithmStatus : Type := string.
Definition StatusQueued : AlgorithmStatus := "queued".
Definition StatusRunning : AlgorithmStatus := "running".
Definition StatusCompleted : AlgorithmStatus := "completed".
Definition StatusFailed : AlgorithmStatus := "failed".
Definition StatusCancelled : AlgorithmStatus := "cancelled".

Record GraphNode : Type := mkGraphNode {
  ID : Z;
  Labels : option (list string);
  Properties : option smap
}.

Definition NewGraphNode (id : Z) (labels : option (list string))
    (properties : option smap) : option GraphNode * option error :=
  if id <? 0 then
    (None, Some (PlainError "node ID must be a non-negative integer"))
  else
    let labels := match labels with None => Some [] | Some l => Some l end in
    let properties := match properties with None => Some ∅ | Some p => Some p end in
    (Some {| ID := id; Labels := labels; Properties := properties |}, None).

Definition GraphNode_Validate (n : GraphNode) : option error :=
  if ID n <? 0 then
    Some (PlainError "node ID must be a non-negative integer")
  else if bool_decide (Labels n = None) then
    Some (PlainError "labels cannot be nil")
  else if bool_decide (Properties n = None) then
    Some (PlainError "properties cannot be nil")
  else None.

Record GraphEdge : Type := mkGraphEdge {
  edge_ID : Z;
  Source : Z;
  Target : Z;
  Type_ : string;
  edge_Properties : option smap
}.

Definition NewGraphEdge (id source target : Z) (edgeType : string)
    (properties : option smap) : option GraphEdge * option error :=
  if id <? 0 then
    (None, Some (PlainError "edge ID must be a non-negative integer"))
  else if source <? 0 then
    (None, Some (PlainError "source node ID must be a non-negative integer"))
  else if target <? 0 then
    (None, Some (PlainError "target node ID must be a non-negative integer"))
  else if bool_decide (edgeType = EmptyString) then
    (None, Some (PlainError "edge type cannot be empty"))
  else
    let properties := match properties with None => Some ∅ | Some p => Some p end in
    (Some {| edge_ID := id; Source := source; Target := target;
             Type_ := edgeType; edge_Properties := properties |}, None).

Definition GraphEdge_Validate (e : GraphEdge) : option error :=
  if edge_ID e <? 0 then
    Some (PlainError "edge ID must be a non-negative integer")
  else if Source e <? 0 then
    Some (PlainError "source node ID must be a non-negative integer")
  else if Target e <? 0 then
    Some (PlainError "target node ID must be a non-negative integer")
  else if bool_decide (Type_ e = EmptyString) then
    Some (PlainError "edge type cannot be empty")
  else if bool_decide (edge_Properties e = None) then
    Some (PlainError "properties cannot be nil")
  else None.

Record AlgorithmResult : Type := mkAlgorithmResult {
  Algorithm : string;
  Status : AlgorithmStatus;
  result_Message : string;
  Metadata : option smap
}.

Definition NewAlgorithmResult (algorithm : string) (status : AlgorithmStatus)
    (message : string) (metadata : option smap)
    : option AlgorithmResult * option error :=
  if bool_decide (algorithm = EmptyString) then
    (None, Some (PlainError "algorithm name cannot be empty"))
  else if bool_decide (message = EmptyString) then
    (None, Some (PlainError "message cannot be empty"))
  else
    let metadata := match metadata with None => Some ∅ | Some m => Some m end in
    (Some {| Algorithm := algorithm; Status := status;
             result_Message := message; Metadata := metadata |}, None).

Definition AlgorithmResult_Validate (r : AlgorithmResult) : option error :=
  if bool_decide (Algorithm r = EmptyString) then
    Some (PlainError "algorithm name cannot be empty")
  else if bool_decide (result_Message r = EmptyString) then
    Some (PlainError "message cannot be empty")
  else if bool_decide (Metadata r = None) then
    Some (PlainError "metadata cannot be nil")
  else None.

Record BFSResult : Type := mkBFSResult {
  bfs_AlgorithmResult : option AlgorithmResult;
  VisitedNodes : option (list Z);
  Path : option (list Z);
  Depth : Z
}.

Definition NewBFSResult (base : option AlgorithmResult) (visitedNodes path : option (list Z))
    (depth : Z) : BFSResult :=
  let visitedNodes := match visitedNodes with None => Some [] | Some l => Some l end in
  let path := match path with None => Some [] | Some l => Some l end in
  {| bfs_AlgorithmResult := base; VisitedNodes := visitedNodes;
     Path := path; Depth := depth |}.

Record DijkstraResult : Type := mkDijkstraResult {
  dijkstra_AlgorithmResult : option AlgorithmResult;
  ShortestPath : option (list Z);
  TotalCost : Z;
  PathDetails : option (list (option smap))
}.

Definition NewDijkstraResult (base : option AlgorithmResult)
    (shortestPath : option (list Z)) (totalCost : Z)
    (pathDetails : option (list (option smap))) : DijkstraResult :=
  let shortestPath := match shortestPath with None => Some [] | Some l => Some l end in
  let pathDetails := match pathDetails with None => Some [] | Some l => Some l end in
  {| dijkstra_AlgorithmResult := base; ShortestPath := shortestPath;
     TotalCost := totalCost; PathDetails := pathDetails |}.

Record PageRankResult : Type := mkPageRankResult {
  pagerank_AlgorithmResult : option AlgorithmResult;
  NodeScores : option (gmap Z Z);
  Iterations : Z;
  Convergence : bool
}.

Definition NewPageRankResult (base : option AlgorithmResult)
    (nodeScores : option (gmap Z Z)) (iterations : Z) (convergence : bool)
    : PageRankResult :=
  let nodeScores := match nodeScores with None => Some ∅ | Some m => Some m end in
  {| pagerank_AlgorithmResult := base; NodeScores := nodeScores;
     Iterations := iterations; Convergence := convergence |}.

(** [IsValidPropertyValue]: the nil test, then the switch on the kind. *)
Definition IsValidPropertyValue (value : iface) : bool :=
  match value with
  | None => true
  | Some v =>
      match kind_of v with
      | reflect.String
      | reflect.Int | reflect.Int8 | reflect.Int16 | reflect.Int32 | reflect.Int64
      | reflect.Uint | reflect.Uint8 | reflect.Uint16 | reflect.Uint32 | reflect.Uint64
      | reflect.Float32 | reflect.Float64 | reflect.Bool => true
      | _ => false
      end
  end.

End types.

(** ** Package [client] *)

Module client.
Import Go.
Import errors.

(** *** The standard library, as far as the client relies on it *)

Inductive result (A : Type) : Type :=
| Ok (a : A)
| Err (text : string).
Arguments Ok {A} a.
Arguments Err {A} text.

(** The pure library functions whose results the client only passes on.
    They are kept abstract: every theorem holds for any choice of them. *)
Record Runtime : Type := mkRuntime {
  (** [fmt.Sprintf("%v", m)] for a detail map *)
  fmt_map : smap -> string;
  (** [url.Parse]: the error text, if parsing fails *)
  url_Parse : string -> option string;
  (** the URL re-assembled with the given query parameters set *)
  url_with_query : string -> gmap string string -> string;
  (** [json.Marshal] *)
  json_Marshal : Value -> result string;
  (** [http.NewRequestWithContext]: the error text for a bad method or URL *)
  http_NewRequest : string -> string -> option string;
  (** the URL of a request as the [*url.Error] of [Do] prints it, with [%q] *)
  quote_URL : string -> string;
  (** [json.Unmarshal] into a nil [map[string]interface{}], which the JSON
      [null] leaves nil *)
  json_Unmarshal_map : string -> result (option smap);
  (** [json.Unmarshal] into an [interface{}] *)
  json_Unmarshal_iface : string -> result iface;
  (** [json.Unmarshal] into a zero value of the struct *)
  json_Unmarshal_GraphNode : string -> result types.GraphNode;
  json_Unmarshal_GraphEdge : string -> result types.GraphEdge;
  json_Unmarshal_BFSResult : string -> result types.BFSResult;
  json_Unmarshal_DijkstraResult : string -> result types.DijkstraResult;
  json_Unmarshal_PageRankResult : string -> result types.PageRankResult
}.

Definition Nanosecond : Z := 1.
Definition Millisecond : Z := 1000000.
Definition Second : Z := 1000000000.

(** [strings.TrimRight], on bytes (exact for an ASCII cutset). *)
Fixpoint in_cutset (cutset : string) (a : ascii) : bool :=
  match cutset with
  | EmptyString => false
  | String b rest => Ascii.eqb a b || in_cutset rest a
  end.

Fixpoint TrimRight (s cutset : string) : string :=
  match s with
  | EmptyString => EmptyString
  | String a rest =>
      match TrimRight rest cutset with
      | EmptyString =>
          if in_cutset cutset a then EmptyString else String a EmptyString
      | t => String a t
      end
  end.

(** A [context.Context], by the instant at which it is done (never, for
    [None]) and the error it then reports. *)
Record Context : Type := mkContext {
  done_at : option Z;
  done_err : string
}.

Definition Background : Context :=
  {| done_at := None; done_err := EmptyString |}.

(** [context.WithTimeout(parent, timeout)], called at instant [now]. *)
Definition WithTimeout (parent : Context) (timeout now : Z) : Context :=
  let d := now + timeout in
  match done_at parent with
  | Some t =>
      if t <=? d then parent
      else {| done_at := Some d; done_err := "context deadline exceeded" |}
  | None => {| done_at := Some d; done_err := "context deadline exceeded" |}
  end.

(** [http.Client]: only its [Timeout] separates one client from another. *)
Record HTTPClient : Type := mkHTTPClient {
  http_Timeout : Z
}.

Record Request : Type := mkRequest {
  req_ctx : Context;
  req_method : string;
  req_url : string;
  req_body : option string;
  req_header : list (string * string)
}.

(** What the network does with one attempt, left to itself. *)
Inductive Answer : Type :=
| Unreachable (text : string)
| Truncated (code : Z) (status : string) (text : string)
| Complete (code : Z) (status : string) (body : string).

Record Reply : Type := mkReply {
  latency : Z;
  answer : Answer
}.

(** The script of the network: the reply to the attempt of a given number. *)
Definition Network : Type := Request -> Z -> Reply.

(** [urlErrorOp] of [net/http], the [Op] of the [*url.Error] of [Do]: the
    method with all but its first letter in lower case ("Get" for "GET");
    "Get" for the empty method; a method that is not printable ASCII as it
    is. *)
Definition printable (a : ascii) : bool :=
  (32 <=? nat_of_ascii a)%nat && (nat_of_ascii a <=? 126)%nat.

Definition to_lower (a : ascii) : ascii :=
  if (65 <=? nat_of_ascii a)%nat && (nat_of_ascii a <=? 90)%nat
  then ascii_of_nat (nat_of_ascii a + 32)
  else a.

Fixpoint ToLower (s : string) : string :=
  match s with
  | EmptyString => EmptyString
  | String a rest => String (to_lower a) (ToLower rest)
  end.

Definition urlErrorOp (method : string) : string :=
  match method with
  | EmptyString => "Get"
  | String a rest =>
      if forallb printable (String.list_ascii_of_string method)
      then String a (ToLower rest)
      else method
  end.

(** The instant at which [Do] gives up, with the cause it then reports:
    the error of the request's context, or the expiry of the client's own
    [Timeout] when that is positive. *)
Definition cutoff (h : HTTPClient) (ctx : Context) (now : Z) : option (Z * string) :=
  let own :=
    if 0 <? http_Timeout h
    then Some (now + http_Timeout h,
               "context deadline exceeded (Client.Timeout exceeded while awaiting headers)")
    else None in
  match done_at ctx, own with
  | Some t, Some (t', text') =>
      if t <=? t' then Some (t, done_err ctx) else Some (t', text')
  | Some t, None => Some (t, done_err ctx)
  | None, own => own
  end.

(** *** The client *)

Record ClientConfig : Type := mkClientConfig {
  BaseURL : string;
  Timeout : Z;
  MaxRetries : Z;
  RetryDelay : Z;
  SkipValidation : bool;
  HTTPClient_ : option HTTPClient
}.

Definition DefaultConfig : ClientConfig :=
  {| BaseURL := "http://localhost:8080";
     Timeout := 30 * Second;
     MaxRetries := 3;
     RetryDelay := 1 * Second;
     SkipValidation := false;
     HTTPClient_ := None |}.

Record NenDBClient : Type := mkNenDBClient {
  config : ClientConfig;
  httpClient : HTTPClient;
  baseURL : string
}.

(** What a call leaves behind: the clock, and in order the sleeps made and
    the attempts made, each with the answer [Do] gave. *)
Inductive Event : Type :=
| Slept (d : Z)
| Sent (attempt : Z) (ans : Answer).

Record World : Type := mkWorld {
  now : Z;
  log : list Event
}.

(** [time.Sleep(d)]: returns at once for [d <= 0]. *)
Definition Sleep (d : Z) (w : World) : World :=
  {| now := now w + Z.max 0 d; log := log w ++ [Slept d] |}.

Definition is_sent (e : Event) : bool :=
  match e with Sent _ _ => true | Slept _ => false end.

(** Number of attempts in a log. *)
Definition attempts (l : list Event) : nat := length (List.filter is_sent l).

(** Time spent in [time.Sleep] in a log. *)
Definition slept (l : list Event) : Z :=
  fold_right (fun e acc => match e with Slept d => Z.max 0 d + acc | Sent _ _ => acc end) 0 l.

Definition detail (key value : string) : smap := {[ key := Some (VString value) ]}.

Section WithRuntime.
Variable rt : Runtime.

Definition Error : error -> string := errors.Error (fmt_map rt).

(** The text of the [*url.Error] that [Do] returns when it gives a request
    up: the [Op], the URL quoted, and the cause. *)
Definition url_Error (req : Request) (cause : string) : string :=
  urlErrorOp (req_method req) +:+ " " +:+ quote_URL rt (req_url req) +:+ ": " +:+ cause.

(** [httpClient.Do(req)] followed by [io.ReadAll(resp.Body)], started at
    [now]: the answer and the instant at which it is there. *)
Definition Do (h : HTTPClient) (net : Network) (req : Request) (attempt now : Z)
    : Answer * Z :=
  let r := net req attempt in
  let arrival := now + Z.max 0 (latency r) in
  match cutoff h (req_ctx req) now with
  | Some (t, cause) =>
      if (t <=? now) || (t <? arrival)
      then (Unreachable (url_Error req cause), Z.max now t)
      else (answer r, arrival)
  | None => (answer r, arrival)
  end.

(** The request of [makeRequest], or the validation error that ends it. *)
Definition build_request (c : NenDBClient) (ctx : Context) (method endpoint : string)
    (data : iface) (params : gmap string string) (now : Z) : Request + error :=
  let requestURL := baseURL c +:+ endpoint in
  let parsed :=
    if 0 <? Z.of_nat (size params) then
      match url_Parse rt requestURL with
      | Some text =>
          inr (NewValidationError now "Invalid URL"
                 (Some (<["url" := Some (VString requestURL)]> (detail "error" text))))
      | None => inl (url_with_query rt requestURL params)
      end
    else inl requestURL in
  match parsed with
  | inr e => inr e
  | inl requestURL =>
      let marshalled :=
        match data with
        | Some v =>
            match json_Marshal rt v with
            | Err text =>
                inr (NewValidationError now "Failed to marshal request data"
                       (Some (detail "error" text)))
            | Ok jsonData => inl (Some jsonData)
            end
        | None => inl None
        end in
      match marshalled with
      | inr e => inr e
      | inl body =>
          match http_NewRequest rt method requestURL with
          | Some text =>
              inr (NewValidationError now "Failed to create request"
                     (Some (detail "error" text)))
          | None =>
              let content_type :=
                match data with
                | Some _ => [("Content-Type", "application/json")]
                | None => []
                end in
              inl {| req_ctx := ctx; req_method := method; req_url := requestURL;
                     req_body := body;
                     req_header := content_type ++ [("User-Agent", "nendb-go-driver/0.1.0")] |}
          end
      end
  end.

(** The error returned for a status of 400 and above. *)
Definition response_error (now code : Z) (status body : string) : error :=
  let synthesized := "HTTP " +:+ pretty code +:+ ": " +:+ status in
  match json_Unmarshal_map rt body with
  | Ok errorResp =>
      let message :=
        match errorResp ≫= (.!! "message") with
        | Some (Some (VString msg)) => msg
        | _ => synthesized
        end in
      NewResponseError now message errorResp
  | Err _ => NewResponseError now synthesized None
  end.

(** The code after the loop: "all retries exhausted". *)
Definition exhausted (lastErr : option error) (now : Z) : error :=
  match lastErr with
  | Some e => NewTimeoutError now "Request failed after all retries" (Some (detail "error" (Error e)))
  | None => NewTimeoutError now "Request failed after all retries" None
  end.

(** How the body of the retry loop ends: with [continue], after setting
    [lastErr], or with [return]. *)
Inductive Step : Type :=
| Continue (lastErr : error) (w : World)
| Return (r : option string * option error) (w : World).

(** The body of the retry loop, for the attempt of number [attempt]. *)
Definition iteration (c : NenDBClient) (net : Network) (req : Request)
    (attempt : Z) (w : World) : Step :=
  let w1 :=
    if 0 <? attempt
    then Sleep (GoInt.mul64 (RetryDelay (config c)) attempt) w
    else w in
  let '(ans, t) := Do (httpClient c) net req attempt (now w1) in
  let w2 := {| now := t; log := log w1 ++ [Sent attempt ans] |} in
  match ans with
  | Unreachable text => Continue (PlainError text) w2
  | Truncated _ _ text => Continue (PlainError text) w2
  | Complete code status respBody =>
      if (200 <=? code) && (code <? 300) then
        Return (Some respBody, None) w2
      else if 400 <=? code then
        Return (None, Some (response_error (now w2) code status respBody)) w2
      else
        Continue (PlainError ("unexpected status code: " +:+ pretty code)) w2
  end.

(** The loop [for attempt := 0; attempt <= MaxRetries; attempt++] as it is
    written, taken up at [attempt]: the counter is an int64, and [fuel]
    bounds the number of times the condition is tested ([None]: the loop is
    still running). With [MaxRetries] the largest int the condition never
    fails, and the loop ends only by a [return] of its body. *)
Fixpoint retry_loop_for (c : NenDBClient) (net : Network) (req : Request)
    (fuel : nat) (attempt : Z) (lastErr : option error) (w : World)
    : option ((option string * option error) * World) :=
  match fuel with
  | O => None
  | S fuel' =>
      if attempt <=? MaxRetries (config c) then
        match iteration c net req attempt w with
        | Continue e w' =>
            retry_loop_for c net req fuel' (GoInt.incr attempt) (Some e) w'
        | Return r w' => Some (r, w')
        end
      else Some ((None, Some (exhausted lastErr (now w))), w)
  end.

(** [(c *NenDBClient) makeRequest]: the result pair, the receiver and the
    world after the call; [None] when the retry loop is still running after
    [fuel] tests of its condition. *)
Definition makeRequest (fuel : nat) (net : Network) (c : NenDBClient) (ctx : Context)
    (method endpoint : string) (data : iface) (params : gmap string string)
    (w : World) : option ((option string * option error) * NenDBClient * World) :=
  match build_request c ctx method endpoint data params (now w) with
  | inr e => Some ((None, Some e), c, w)
  | inl req =>
      match retry_loop_for c net req fuel 0 None w with
      | Some (r, w') => Some (r, c, w')
      | None => None
      end
  end.

(** [(c *NenDBClient) Health] *)
Definition Health (fuel : nat) (net : Network) (c : NenDBClient) (w : World)
    : option (option error * NenDBClient * World) :=
  let ctx := WithTimeout Background (Timeout (config c)) (now w) in
  match makeRequest fuel net c ctx "GET" "/health" None ∅ w with
  | Some ((_, err), c', w') => Some (err, c', w')
  | None => None
  end.

(** [NewClient]; a nil [config] is [None]. *)
Definition NewClient (fuel : nat) (net : Network) (config : option ClientConfig)
    (w : World) : option ((option NenDBClient * option error) * World) :=
  let config := match config with None => DefaultConfig | Some cfg => cfg end in
  let baseURL := TrimRight (BaseURL config) "/" in
  let httpClient :=
    match HTTPClient_ config with
    | Some h => h
    | None => {| http_Timeout := Timeout config |}
    end in
  let client := {| config := config; httpClient := httpClient; baseURL := baseURL |} in
  if negb (SkipValidation config) then
    match Health fuel net client w with
    | Some (Some err, _, w') =>
        Some ((None,
               Some (NewConnectionError (now w')
                       ("Failed to connect to NenDB server at " +:+ baseURL)
                       (Some (detail "error" (Error err))))), w')
    | Some (None, client', w') => Some ((Some client', None), w')
    | None => None
    end
  else Some ((Some client, None), w).

(** The boxing of the arguments into the [map[string]interface{}] literal
    that an operation sends: a nil slice or map stays one of its kind. *)
Definition box_int (n : Z) : iface := Some (VInt Iword n).
Definition box_float64 (bits : Z) : iface := Some (VFloat F64 bits).
Definition box_string (s : string) : iface := Some (VString s).
Definition box_strings (l : option (list string)) : iface :=
  Some (VSlice (fmap (M := list) (fun s => Some (VString s)) <$> l)).
Definition box_map (m : option smap) : iface :=
  Some (VMap ((fun m : smap =>
                 (fun kv : string * iface => (VString (fst kv), snd kv))
                   <$> map_to_list m) <$> m)).
Definition literal (fields : list (string * iface)) : iface :=
  Some (VMap (Some ((fun kv : string * iface => (VString (fst kv), snd kv))
                      <$> fields))).

(** [(c *NenDBClient) GetNode] *)
Definition GetNode (fuel : nat) (net : Network) (c : NenDBClient) (ctx : Context) (nodeID : Z)
    (w : World)
    : option ((option types.GraphNode * option error) * NenDBClient * World) :=
  let endpoint := "/nodes/" +:+ pretty nodeID in
  match makeRequest fuel net c ctx "GET" endpoint None ∅ w with
  | None => None
  | Some ((_, Some err), c', w') => Some ((None, Some err), c', w')
  | Some ((respBody, None), c', w') =>
      match json_Unmarshal_GraphNode rt (default EmptyString respBody) with
      | Err text =>
          Some ((None, Some (NewResponseError (now w') "Failed to parse node response"
                               (Some (detail "error" text)))), c', w')
      | Ok node => Some ((Some node, None), c', w')
      end
  end.

(** [(c *NenDBClient) CreateNode] *)
Definition CreateNode (fuel : nat) (net : Network) (c : NenDBClient) (ctx : Context)
    (labels : option (list string)) (properties : option smap)
    (w : World)
    : option ((option types.GraphNode * option error) * NenDBClient * World) :=
  let data := literal [("labels", box_strings labels); ("properties", box_map properties)] in
  match makeRequest fuel net c ctx "POST" "/nodes" data ∅ w with
  | None => None
  | Some ((_, Some err), c', w') => Some ((None, Some err), c', w')
  | Some ((respBody, None), c', w') =>
      match json_Unmarshal_GraphNode rt (default EmptyString respBody) with
      | Err text =>
          Some ((None, Some (NewResponseError (now w') "Failed to parse node response"
                               (Some (detail "error" text)))), c', w')
      | Ok node => Some ((Some node, None), c', w')
      end
  end.

(** [(c *NenDBClient) UpdateNode] *)
Definition UpdateNode (fuel : nat) (net : Network) (c : NenDBClient) (ctx : Context) (nodeID : Z)
    (labels : option (list string)) (properties : option smap)
    (w : World)
    : option ((option types.GraphNode * option error) * NenDBClient * World) :=
  let endpoint := "/nodes/" +:+ pretty nodeID in
  let data := literal [("labels", box_strings labels); ("properties", box_map properties)] in
  match makeRequest fuel net c ctx "PUT" endpoint data ∅ w with
  | None => None
  | Some ((_, Some err), c', w') => Some ((None, Some err), c', w')
  | Some ((respBody, None), c', w') =>
      match json_Unmarshal_GraphNode rt (default EmptyString respBody) with
      | Err text =>
          Some ((None, Some (NewResponseError (now w') "Failed to parse node response"
                               (Some (detail "error" text)))), c', w')
      | Ok node => Some ((Some node, None), c', w')
      end
  end.

(** [(c *NenDBClient) DeleteNode] *)
Definition DeleteNode (fuel : nat) (net : Network) (c : NenDBClient) (ctx : Context) (nodeID : Z)
    (w : World)
    : option (option error * NenDBClient * World) :=
  let endpoint := "/nodes/" +:+ pretty nodeID in
  match makeRequest fuel net c ctx "DELETE" endpoint None ∅ w with
  | Some ((_, err), c', w') => Some (err, c', w')
  | None => None
  end.

(** [(c *NenDBClient) GetEdge] *)
Definition GetEdge (fuel : nat) (net : Network) (c : NenDBClient) (ctx : Context) (edgeID : Z)
    (w : World)
    : option ((option types.GraphEdge * option error) * NenDBClient * World) :=
  let endpoint := "/edges/" +:+ pretty edgeID in
  match makeRequest fuel net c ctx "GET" endpoint None ∅ w with
  | None => None
  | Some ((_, Some err), c', w') => Some ((None, Some err), c', w')
  | Some ((respBody, None), c', w') =>
      match json_Unmarshal_GraphEdge rt (default EmptyString respBody) with
      | Err text =>
          Some ((None, Some (NewResponseError (now w') "Failed to parse edge response"
                               (Some (detail "error" text)))), c', w')
      | Ok edge => Some ((Some edge, None), c', w')
      end
  end.

(** [(c *NenDBClient) CreateEdge] *)
Definition CreateEdge (fuel : nat) (net : Network) (c : NenDBClient) (ctx : Context)
    (source target : Z) (edgeType : string) (properties : option smap)
    (w : World)
    : option ((option types.GraphEdge * option error) * NenDBClient * World) :=
  let data :=
    literal [("source", box_int source); ("target", box_int target);
             ("type", box_string edgeType); ("properties", box_map properties)] in
  match makeRequest fuel net c ctx "POST" "/edges" data ∅ w with
  | None => None
  | Some ((_, Some err), c', w') => Some ((None, Some err), c', w')
  | Some ((respBody, None), c', w') =>
      match json_Unmarshal_GraphEdge rt (default EmptyString respBody) with
      | Err text =>
          Some ((None, Some (NewResponseError (now w') "Failed to parse edge response"
                               (Some (detail "error" text)))), c', w')
      | Ok edge => Some ((Some edge, None), c', w')
      end
  end.

(** [(c *NenDBClient) UpdateEdge] *)
Definition UpdateEdge (fuel : nat) (net : Network) (c : NenDBClient) (ctx : Context) (edgeID : Z)
    (edgeType : string) (properties : option smap)
    (w : World)
    : option ((option types.GraphEdge * option error) * NenDBClient * World) :=
  let endpoint := "/edges/" +:+ pretty edgeID in
  let data := literal [("type", box_string edgeType); ("properties", box_map properties)] in
  match makeRequest fuel net c ctx "PUT" endpoint data ∅ w with
  | None => None
  | Some ((_, Some err), c', w') => Some ((None, Some err), c', w')
  | Some ((respBody, None), c', w') =>
      match json_Unmarshal_GraphEdge rt (default EmptyString respBody) with
      | Err text =>
          Some ((None, Some (NewResponseError (now w') "Failed to parse edge response"
                               (Some (detail "error" text)))), c', w')
      | Ok edge => Some ((Some edge, None), c', w')
      end
  end.

(** [(c *NenDBClient) DeleteEdge] *)
Definition DeleteEdge (fuel : nat) (net : Network) (c : NenDBClient) (ctx : Context) (edgeID : Z)
    (w : World)
    : option (option error * NenDBClient * World) :=
  let endpoint := "/edges/" +:+ pretty edgeID in
  match makeRequest fuel net c ctx "DELETE" endpoint None ∅ w with
  | Some ((_, err), c', w') => Some (err, c', w')
  | None => None
  end.

(** [(c *NenDBClient) RunBFS] *)
Definition RunBFS (fuel : nat) (net : Network) (c : NenDBClient) (ctx : Context)
    (startNode targetNode maxDepth : Z)
    (w : World)
    : option ((option types.BFSResult * option error) * NenDBClient * World) :=
  let data :=
    literal [("start_node", box_int startNode); ("target_node", box_int targetNode);
             ("max_depth", box_int maxDepth)] in
  match makeRequest fuel net c ctx "POST" "/algorithms/bfs" data ∅ w with
  | None => None
  | Some ((_, Some err), c', w') => Some ((None, Some err), c', w')
  | Some ((respBody, None), c', w') =>
      match json_Unmarshal_BFSResult rt (default EmptyString respBody) with
      | Err text =>
          Some ((None, Some (NewResponseError (now w') "Failed to parse BFS result"
                               (Some (detail "error" text)))), c', w')
      | Ok result => Some ((Some result, None), c', w')
      end
  end.

(** [(c *NenDBClient) RunDijkstra] *)
Definition RunDijkstra (fuel : nat) (net : Network) (c : NenDBClient) (ctx : Context)
    (startNode targetNode : Z)
    (w : World)
    : option ((option types.DijkstraResult * option error) * NenDBClient * World) :=
  let data :=
    literal [("start_node", box_int startNode); ("target_node", box_int targetNode)] in
  match makeRequest fuel net c ctx "POST" "/algorithms/dijkstra" data ∅ w with
  | None => None
  | Some ((_, Some err), c', w') => Some ((None, Some err), c', w')
  | Some ((respBody, None), c', w') =>
      match json_Unmarshal_DijkstraResult rt (default EmptyString respBody) with
      | Err text =>
          Some ((None, Some (NewResponseError (now w') "Failed to parse Dijkstra result"
                               (Some (detail "error" text)))), c', w')
      | Ok result => Some ((Some result, None), c', w')
      end
  end.

(** [(c *NenDBClient) RunPageRank] *)
Definition RunPageRank (fuel : nat) (net : Network) (c : NenDBClient) (ctx : Context)
    (maxIterations tolerance : Z)
    (w : World)
    : option ((option types.PageRankResult * option error) * NenDBClient * World) :=
  let data :=
    literal [("max_iterations", box_int maxIterations);
             ("tolerance", box_float64 tolerance)] in
  match makeRequest fuel net c ctx "POST" "/algorithms/pagerank" data ∅ w with
  | None => None
  | Some ((_, Some err), c', w') => Some ((None, Some err), c', w')
  | Some ((respBody, None), c', w') =>
      match json_Unmarshal_PageRankResult rt (default EmptyString respBody) with
      | Err text =>
          Some ((None, Some (NewResponseError (now w') "Failed to parse PageRank result"
                               (Some (detail "error" text)))), c', w')
      | Ok result => Some ((Some result, None), c', w')
      end
  end.

(** [(c *NenDBClient) Query] *)
Definition Query (fuel : nat) (net : Network) (c : NenDBClient) (ctx : Context)
    (query : string) (params : option smap)
    (w : World)
    : option ((iface * option error) * NenDBClient * World) :=
  let data := literal [("query", box_string query); ("params", box_map params)] in
  match makeRequest fuel net c ctx "POST" "/query" data ∅ w with
  | None => None
  | Some ((_, Some err), c', w') => Some ((None, Some err), c', w')
  | Some ((respBody, None), c', w') =>
      match json_Unmarshal_iface rt (default EmptyString respBody) with
      | Err text =>
          Some ((None, Some (NewResponseError (now w') "Failed to parse query result"
                               (Some (detail "error" text)))), c', w')
      | Ok result => Some ((result, None), c', w')
      end
  end.

(** [(c *NenDBClient) GetStatistics] *)
Definition GetStatistics (fuel : nat) (net : Network) (c : NenDBClient) (ctx : Context)
    (w : World)
    : option ((option smap * option error) * NenDBClient * World) :=
  match makeRequest fuel net c ctx "GET" "/statistics" None ∅ w with
  | None => None
  | Some ((_, Some err), c', w') => Some ((None, Some err), c', w')
  | Some ((respBody, None), c', w') =>
      match json_Unmarshal_map rt (default EmptyString respBody) with
      | Err text =>
          Some ((None, Some (NewResponseError (now w') "Failed to parse statistics"
                               (Some (detail "error" text)))), c', w')
      | Ok stats => Some ((stats, None), c', w')
      end
  end.

(** *** Reading a run of the retry loop *)

(** The answers after which the loop body falls through to the next
    iteration: an error of [Do] or of [ReadAll], or a status that is
    neither in 200..299 nor at least 400. *)
Definition retried (a : Answer) : bool :=
  match a with
  | Unreachable _ | Truncated _ _ _ => true
  | Complete code _ _ =>
      negb ((200 <=? code) && (code <? 300)) && negb (400 <=? code)
  end.

Definition transport_failure (a : Answer) : bool :=
  match a with
  | Unreachable _ | Truncated _ _ _ => true
  | Complete _ _ _ => false
  end.


(** The value [lastErr] takes after a retried answer. *)
Definition retry_error (a : Answer) : error :=
  match a with
  | Unreachable text | Truncated _ _ text => PlainError text
  | Complete code _ _ => PlainError ("unexpected status code: " +:+ pretty code)
  end.

(** [lastErr] after a series of retried answers. *)
Definition last_error (lastErr : option error) (answers : list Answer) : option error :=
  match last answers with
  | Some a => Some (retry_error a)
  | None => lastErr
  end.

(** The message of the response error for a status of 400 and above. *)
Definition response_message (code : Z) (status body : string) : string :=
  match json_Unmarshal_map rt body with
  | Ok (Some errorResp) =>
      match errorResp !! "message" with
      | Some (Some (VString msg)) => msg
      | _ => "HTTP " +:+ pretty code +:+ ": " +:+ status
      end
  | _ => "HTTP " +:+ pretty code +:+ ": " +:+ status
  end.

(** The value of the loop counter [n] increments after it was [attempt]. *)
Fixpoint counter (attempt : Z) (n : nat) : Z :=
  match n with
  | O => attempt
  | S n' => counter (GoInt.incr attempt) n'
  end.

(** The number of iterations that the loop makes at most, when [MaxRetries]
    is below the largest int. *)
Definition budget (c : NenDBClient) : nat := Z.to_nat (MaxRetries (config c) + 1).

(** The events of consecutive iterations of the loop, the first with the
    counter at [k], given the answers to their attempts: a sleep of
    [RetryDelay * k], in int64, before each attempt with [k > 0]. *)
Fixpoint schedule (delay k : Z) (answers : list Answer) : list Event :=
  match answers with
  | [] => []
  | a :: rest =>
      (if 0 <? k then [Slept (GoInt.mul64 delay k)] else [])
      ++ Sent k a :: schedule delay (GoInt.incr k) rest
  end.

(** Each answer is what [Do] returned for the attempt of its number,
    started at some instant from [since] on. *)
Fixpoint from_network (c : NenDBClient) (net : Network) (req : Request)
    (since k : Z) (answers : list Answer) : Prop :=
  match answers with
  | [] => True
  | a :: rest =>
      (exists t, since <= t /\ a = fst (Do (httpClient c) net req k t))
      /\ from_network c net req since (GoInt.incr k) rest
  end.

(** The linear backoff in the words of the specification: no wait before
    attempt 0, a wait of [RetryDelay * k] before attempt [k > 0], with the
    product taken in the integers. *)
Definition linear_backoff (delay : Z) (answers : list Answer) : list Event :=
  concat (imap (fun i a =>
                  if decide (i = 0%nat) then [Sent 0 a]
                  else [Slept (delay * Z.of_nat i); Sent (Z.of_nat i) a])
               answers).

(** The client that [NewClient] assembles from a configuration. *)
Definition assemble (cfg : ClientConfig) : NenDBClient :=
  {| config := cfg;
     httpClient :=
       match HTTPClient_ cfg with
       | Some h => h
       | None => {| http_Timeout := Timeout cfg |}
       end;
     baseURL := TrimRight (BaseURL cfg) "/" |}.

End WithRuntime.

Definition last_byte (s : string) : option ascii :=
  last (String.list_ascii_of_string s).

Fixpoint repeat_byte (a : ascii) (n : nat) : string :=
  match n with
  | O => EmptyString
  | S n' => String a (repeat_byte a n')
  end.

End client.

(** ** Concrete runs *)

Module scenario.
Import Go.
Import errors.
Import client.

Definition quote : string := String "034"%char EmptyString.

(** The body [{"message":"not found"}]. *)
Definition not_found_body : string :=
  "{" +:+ quote +:+ "message" +:+ quote +:+ ":" +:+ quote +:+ "not found" +:+ quote +:+ "}".

(** A runtime in which every request can be built and the only body that
    parses is [not_found_body]. *)
Definition rt : Runtime :=
  {| fmt_map := fun _ => "map[...]";
     url_Parse := fun _ => None;
     url_with_query := fun u _ => u;
     json_Marshal := fun _ => Ok "{}";
     http_NewRequest := fun _ _ => None;
     quote_URL := fun url => quote +:+ url +:+ quote;
     json_Unmarshal_map := fun body =>
       if bool_decide (body = not_found_body)
       then Ok (Some {[ "message" := Some (VString "not found") ]})
       else Err "invalid character";
     json_Unmarshal_iface := fun _ => Err "invalid character";
     json_Unmarshal_GraphNode := fun _ => Err "invalid character";
     json_Unmarshal_GraphEdge := fun _ => Err "invalid character";
     json_Unmarshal_BFSResult := fun _ => Err "invalid character";
     json_Unmarshal_DijkstraResult := fun _ => Err "invalid character";
     json_Unmarshal_PageRankResult := fun _ => Err "invalid character" |}.

(** Nobody listens: every attempt is refused at once. *)
Definition refused : Network :=
  fun _ _ => {| latency := 0; answer := Unreachable "connection refused" |}.

(** A server that answers every request with 404 and [not_found_body]. *)
Definition not_found : Network :=
  fun _ _ => {| latency := 0; answer := Complete 404 "404 Not Found" not_found_body |}.

(** A server that answers 503 with a body that is not JSON. *)
Definition unavailable : Network :=
  fun _ _ => {| latency := 0; answer := Complete 503 "503 Service Unavailable" "busy" |}.

(** A server that answers every request with 101. *)
Definition switching : Network :=
  fun _ _ => {| latency := 0; answer := Complete 101 "101 Switching Protocols" EmptyString |}.

(** A server that answers 200 after one millisecond. *)
Definition healthy : Network :=
  fun _ _ => {| latency := Millisecond; answer := Complete 200 "200 OK" "ok" |}.

Definition settings (retries delay : Z) (skip : bool) : ClientConfig :=
  {| BaseURL := "http://localhost:9999/";
     Timeout := 1 * Second;
     MaxRetries := retries;
     RetryDelay := delay;
     SkipValidation := skip;
     HTTPClient_ := None |}.

Definition start : World := {| now := 0; log := [] |}.

(** A context that was cancelled before the call. *)
Definition cancelled : Context :=
  {| done_at := Some 0; done_err := "context canceled" |}.

(** The configuration of the test suite that sets nothing but the address
    and [SkipValidation]. *)
Definition zeroed : ClientConfig :=
  {| BaseURL := "http://localhost:9999";
     Timeout := 0;
     MaxRetries := 0;
     RetryDelay := 0;
     SkipValidation := true;
     HTTPClient_ := None |}.

(** A [GET /health] through [makeRequest], at instant 0. *)
Definition probe (fuel : nat) (net : Network) (cfg : ClientConfig) (ctx : Context)
    : option ((option string * option error) * NenDBClient * World) :=
  makeRequest rt fuel net (assemble cfg) ctx "GET" "/health" None ∅ start.

(** The request that [probe] builds. *)
Definition probe_request (ctx : Context) : Request :=
  {| req_ctx := ctx;
     req_method := "GET";
     req_url := "http://localhost:9999/health";
     req_body := None;
     req_header := [("User-Agent", "nendb-go-driver/0.1.0")] |}.

End scenario.

(** ** Command [nendb] *)

Module cli.
Import Go.
Import errors.
Import client.

Definition version : string := "0.1.0".

(** The library functions of the command, beside those of the client;
    they are kept abstract as well. *)
Record Formats : Type := mkFormats {
  (** [fmt.Sscanf(s, "%d", &n)] on an [int]: the value stored, or the error *)
  Sscanf_d : string -> result Z;
  (** [fmt.Sscanf(s, "%f", &x)] on a [float64] *)
  Sscanf_f : string -> result Z;
  (** [json.MarshalIndent(v, "", "  ")], by the static type of [v] *)
  MarshalIndent_GraphNode : option types.GraphNode -> result string;
  MarshalIndent_GraphEdge : option types.GraphEdge -> result string;
  MarshalIndent_BFSResult : option types.BFSResult -> result string;
  MarshalIndent_DijkstraResult : option types.DijkstraResult -> result string;
  MarshalIndent_PageRankResult : option types.PageRankResult -> result string;
  MarshalIndent_iface : iface -> result string;
  MarshalIndent_map : option smap -> result string
}.

(** The bit pattern of the [float64] constant [0.001]. *)
Definition tolerance_default : Z := 4562254508917369340.

Definition newline : string := String "010"%char EmptyString.
Definition dquote : string := String "034"%char EmptyString.

(** What [showHelp] prints. *)
Definition help_text : string :=
  String.concat newline
    ["NenDB Go Driver v" +:+ version;
     EmptyString;
     "Usage: nendb [flags] -command <command> [args...]";
     EmptyString;
     "Flags:";
     "  -url string        NenDB server base URL (default "
       +:+ dquote +:+ "http://localhost:8080" +:+ dquote +:+ ")";
     "  -timeout duration  Request timeout (default 30s)";
     "  -retries int       Maximum number of retries (default 3)";
     "  -skip-health       Skip health check on startup";
     "  -help              Show this help message";
     "  -version           Show version";
     EmptyString;
     "Commands:";
     "  health             Check server health";
     "  node <id>          Get node by ID";
     "  edge <id>          Get edge by ID";
     "  algorithm <type>   Run algorithm (bfs, dijkstra, pagerank)";
     "  query <query>      Execute custom query";
     "  stats              Get database statistics";
     EmptyString;
     "Examples:";
     "  nendb -command health";
     "  nendb -command node 1";
     "  nendb -command algorithm bfs -url http://localhost:9090";
     "  nendb -command query " +:+ dquote +:+ "MATCH (n) RETURN n LIMIT 5" +:+ dquote].

(** The command line that [flag.Parse()] accepted: the values of the flags
    (defaults included), the number of flags that were set, and the
    arguments that follow them. *)
Record CommandLine : Type := mkCommandLine {
  flag_baseURL : string;
  flag_timeout : Z;
  flag_maxRetries : Z;
  flag_skipHealth : bool;
  flag_command : string;
  flag_help : bool;
  flag_showVer : bool;
  NFlag : nat;
  Args : list string
}.

(** What [flag.Parse()] makes of the arguments of the process. The flag
    set is [flag.CommandLine], which handles errors by [ExitOnError]: for a
    flag that is not defined or a value that does not parse it writes a
    message and the usage to standard error and exits with status 2; for
    [-h], which is not defined here, it writes the usage to standard error
    and exits with status 0. The texts are those of package [flag]. *)
Inductive Parse : Type :=
| BadFlag (message usage : string)
| HelpFlag (usage : string)
| Parsed (cl : CommandLine).

(** What the process writes: to standard output ([fmt.Println],
    [fmt.Printf], without the final newline), or to standard error
    ([log.Fatalf], without the time stamp, and package [flag]). *)
Inductive Output : Type :=
| Stdout (text : string)
| Stderr (text : string).


Section WithLibrary.
Variable rt : Runtime.
Variable fm : Formats.

(** The result of a command function: the error, the receiver and the
    world after the call, and the lines on standard output so far. *)
Definition Outcome : Type := option error * NenDBClient * World * list string.

(** [return fmt.Errorf(text)] *)
Definition fail (text : string) (c : NenDBClient) (w : World) (out : list string)
    : Outcome :=
  (Some (PlainError text), c, w, out).

(** [executeHealth]: the context it is given is not used. *)
Definition executeHealth (fuel : nat) (net : Network) (c : NenDBClient) (ctx : Context)
    (w : World) (out : list string) : option Outcome :=
  let out := out ++ ["Checking NenDB server health..."] in
  match Health rt fuel net c w with
  | None => None
  | Some (Some err, c', w') => Some (fail ("health check failed: " +:+ Error rt err) c' w' out)
  | Some (None, c', w') => Some (None, c', w', out ++ ["✓ Server is healthy"])
  end.

(** [executeGetNode] *)
Definition executeGetNode (fuel : nat) (net : Network) (c : NenDBClient) (ctx : Context)
    (nodeIDStr : string) (w : World) (out : list string) : option Outcome :=
  match Sscanf_d fm nodeIDStr with
  | Err _ => Some (fail ("invalid node ID: " +:+ nodeIDStr) c w out)
  | Ok nodeID =>
      let out := out ++ ["Getting node " +:+ pretty nodeID +:+ "..."] in
      match GetNode rt fuel net c ctx nodeID w with
      | None => None
      | Some ((_, Some err), c', w') => Some (fail ("failed to get node: " +:+ Error rt err) c' w' out)
      | Some ((node, None), c', w') =>
          match MarshalIndent_GraphNode fm node with
          | Err text => Some (fail ("failed to marshal node: " +:+ text) c' w' out)
          | Ok output => Some (None, c', w', out ++ [output])
          end
      end
  end.

(** [executeGetEdge] *)
Definition executeGetEdge (fuel : nat) (net : Network) (c : NenDBClient) (ctx : Context)
    (edgeIDStr : string) (w : World) (out : list string) : option Outcome :=
  match Sscanf_d fm edgeIDStr with
  | Err _ => Some (fail ("invalid edge ID: " +:+ edgeIDStr) c w out)
  | Ok edgeID =>
      let out := out ++ ["Getting edge " +:+ pretty edgeID +:+ "..."] in
      match GetEdge rt fuel net c ctx edgeID w with
      | None => None
      | Some ((_, Some err), c', w') => Some (fail ("failed to get edge: " +:+ Error rt err) c' w' out)
      | Some ((edge, None), c', w') =>
          match MarshalIndent_GraphEdge fm edge with
          | Err text => Some (fail ("failed to marshal edge: " +:+ text) c' w' out)
          | Ok output => Some (None, c', w', out ++ [output])
          end
      end
  end.

(** [executeAlgorithm]; [len(args) < 2] is the case of a list without a
    second element. *)
Definition executeAlgorithm (fuel : nat) (net : Network) (c : NenDBClient) (ctx : Context)
    (algoType : string) (args : list string) (w : World) (out : list string)
    : option Outcome :=
  let out := out ++ ["Running " +:+ algoType +:+ " algorithm..."] in
  if bool_decide (algoType = "bfs") then
    match args with
    | args0 :: args1 :: rest =>
        match Sscanf_d fm args0 with
        | Err _ => Some (fail ("invalid start node ID: " +:+ args0) c w out)
        | Ok startNode =>
            match Sscanf_d fm args1 with
            | Err _ => Some (fail ("invalid target node ID: " +:+ args1) c w out)
            | Ok targetNode =>
                let scanned :=
                  match rest with
                  | args2 :: _ =>
                      match Sscanf_d fm args2 with
                      | Err _ => inr args2
                      | Ok maxDepth => inl maxDepth
                      end
                  | [] => inl 10
                  end in
                match scanned with
                | inr args2 => Some (fail ("invalid max depth: " +:+ args2) c w out)
                | inl maxDepth =>
                    match RunBFS rt fuel net c ctx startNode targetNode maxDepth w with
                    | None => None
                    | Some ((_, Some err), c', w') =>
                        Some (fail ("bfs algorithm failed: " +:+ Error rt err) c' w' out)
                    | Some ((result, None), c', w') =>
                        match MarshalIndent_BFSResult fm result with
                        | Err text => Some (fail ("failed to marshal result: " +:+ text) c' w' out)
                        | Ok output => Some (None, c', w', out ++ [output])
                        end
                    end
                end
            end
        end
    | _ => Some (fail "bfs algorithm requires start and target node IDs" c w out)
    end
  else if bool_decide (algoType = "dijkstra") then
    match args with
    | args0 :: args1 :: _ =>
        match Sscanf_d fm args0 with
        | Err _ => Some (fail ("invalid start node ID: " +:+ args0) c w out)
        | Ok startNode =>
            match Sscanf_d fm args1 with
            | Err _ => Some (fail ("invalid target node ID: " +:+ args1) c w out)
            | Ok targetNode =>
                match RunDijkstra rt fuel net c ctx startNode targetNode w with
                | None => None
                | Some ((_, Some err), c', w') =>
                    Some (fail ("dijkstra algorithm failed: " +:+ Error rt err) c' w' out)
                | Some ((result, None), c', w') =>
                    match MarshalIndent_DijkstraResult fm result with
                    | Err text => Some (fail ("failed to marshal result: " +:+ text) c' w' out)
                    | Ok output => Some (None, c', w', out ++ [output])
                    end
                end
            end
        end
    | _ => Some (fail "dijkstra algorithm requires start and target node IDs" c w out)
    end
  else if bool_decide (algoType = "pagerank") then
    let iterations :=
      match args with
      | args0 :: _ =>
          match Sscanf_d fm args0 with
          | Err _ => inr args0
          | Ok maxIterations => inl maxIterations
          end
      | [] => inl 100
      end in
    match iterations with
    | inr args0 => Some (fail ("invalid max iterations: " +:+ args0) c w out)
    | inl maxIterations =>
        let scanned :=
          match args with
          | _ :: args1 :: _ =>
              match Sscanf_f fm args1 with
              | Err _ => inr args1
              | Ok tolerance => inl tolerance
              end
          | _ => inl tolerance_default
          end in
        match scanned with
        | inr args1 => Some (fail ("invalid tolerance: " +:+ args1) c w out)
        | inl tolerance =>
            match RunPageRank rt fuel net c ctx maxIterations tolerance w with
            | None => None
            | Some ((_, Some err), c', w') =>
                Some (fail ("pagerank algorithm failed: " +:+ Error rt err) c' w' out)
            | Some ((result, None), c', w') =>
                match MarshalIndent_PageRankResult fm result with
                | Err text => Some (fail ("failed to marshal result: " +:+ text) c' w' out)
                | Ok output => Some (None, c', w', out ++ [output])
                end
            end
        end
    end
  else Some (fail ("unknown algorithm type: " +:+ algoType) c w out).

(** [executeQuery]: the query is sent with nil parameters. *)
Definition executeQuery (fuel : nat) (net : Network) (c : NenDBClient) (ctx : Context)
    (query : string) (w : World) (out : list string) : option Outcome :=
  let out := out ++ ["Executing query: " +:+ query] in
  match Query rt fuel net c ctx query None w with
  | None => None
  | Some ((_, Some err), c', w') => Some (fail ("query failed: " +:+ Error rt err) c' w' out)
  | Some ((result, None), c', w') =>
      match MarshalIndent_iface fm result with
      | Err text => Some (fail ("failed to marshal result: " +:+ text) c' w' out)
      | Ok output => Some (None, c', w', out ++ [output])
      end
  end.

(** [executeStats] *)
Definition executeStats (fuel : nat) (net : Network) (c : NenDBClient) (ctx : Context)
    (w : World) (out : list string) : option Outcome :=
  let out := out ++ ["Getting database statistics..."] in
  match GetStatistics rt fuel net c ctx w with
  | None => None
  | Some ((_, Some err), c', w') => Some (fail ("failed to get statistics: " +:+ Error rt err) c' w' out)
  | Some ((stats, None), c', w') =>
      match MarshalIndent_map fm stats with
      | Err text => Some (fail ("failed to marshal statistics: " +:+ text) c' w' out)
      | Ok output => Some (None, c', w', out ++ [output])
      end
  end.

(** [executeCommand] *)
Definition executeCommand (fuel : nat) (net : Network) (c : NenDBClient) (command : string)
    (args : list string) (w : World) (out : list string) : option Outcome :=
  let ctx := Background in
  if bool_decide (command = "health") then executeHealth fuel net c ctx w out
  else if bool_decide (command = "node") then
    match args with
    | [] => Some (fail "node command requires an ID" c w out)
    | args0 :: _ => executeGetNode fuel net c ctx args0 w out
    end
  else if bool_decide (command = "edge") then
    match args with
    | [] => Some (fail "edge command requires an ID" c w out)
    | args0 :: _ => executeGetEdge fuel net c ctx args0 w out
    end
  else if bool_decide (command = "algorithm") then
    match args with
    | [] => Some (fail "algorithm command requires a type" c w out)
    | args0 :: rest => executeAlgorithm fuel net c ctx args0 rest w out
    end
  else if bool_decide (command = "query") then
    match args with
    | [] => Some (fail "query command requires a query string" c w out)
    | args0 :: _ => executeQuery fuel net c ctx args0 w out
    end
  else if bool_decide (command = "stats") then executeStats fuel net c ctx w out
  else Some (fail ("unknown command: " +:+ command) c w out).

(** [main]: the exit status of the process, the world it leaves, and what
    it wrote; [None] when a retry loop is still running after [fuel] tests.
    [flag.Parse()] ends the process itself when it refuses the arguments or
    meets [-h]. A client that is nil without an error, which [NewClient]
    never returns, would make the first method call panic (exit status 2). *)
Definition main (fuel : nat) (net : Network) (args : Parse) (w : World)
    : option (Z * World * list Output) :=
  match args with
  | BadFlag message usage => Some (2, w, [Stderr message; Stderr usage])
  | HelpFlag usage => Some (0, w, [Stderr usage])
  | Parsed cl =>
      if flag_showVer cl then
        Some (0, w, [Stdout ("nendb-go-driver version " +:+ version)])
      else if flag_help cl || (NFlag cl =? 0)%nat then
        Some (0, w, [Stdout help_text])
      else
        let config :=
          {| BaseURL := flag_baseURL cl;
             Timeout := flag_timeout cl;
             MaxRetries := flag_maxRetries cl;
             RetryDelay := 0;
             SkipValidation := flag_skipHealth cl;
             HTTPClient_ := None |} in
        match NewClient rt fuel net (Some config) w with
        | None => None
        | Some ((_, Some err), w') =>
            Some (1, w', [Stderr ("Failed to create client: " +:+ Error rt err)])
        | Some ((None, None), w') =>
            Some (2, w',
                  [Stderr "panic: runtime error: invalid memory address or nil pointer dereference"])
        | Some ((Some client, None), w') =>
            match executeCommand fuel net client (flag_command cl) (Args cl) w' [] with
            | None => None
            | Some (Some err, _, w'', out) =>
                Some (1, w'',
                      (Stdout <$> out) ++ [Stderr ("Command failed: " +:+ Error rt err)])
            | Some (None, _, w'', out) => Some (0, w'', Stdout <$> out)
            end
        end
  end.

(** *** Reading a command line *)

Definition scans (s : string) : bool :=
  match Sscanf_d fm s with Ok _ => true | Err _ => false end.

Definition scans_float (s : string) : bool :=
  match Sscanf_f fm s with Ok _ => true | Err _ => false end.

(** The command lines on which [executeCommand] gets as far as calling the
    driver: a known command, with the arguments it needs, each of them
    accepted by [Sscanf] where a number is expected. *)
Definition well_formed (command : string) (args : list string) : bool :=
  if bool_decide (command = "health") || bool_decide (command = "stats") then true
  else if bool_decide (command = "node") || bool_decide (command = "edge") then
    match args with a :: _ => scans a | [] => false end
  else if bool_decide (command = "query") then
    match args with _ :: _ => true | [] => false end
  else if bool_decide (command = "algorithm") then
    match args with
    | algoType :: rest =>
        if bool_decide (algoType = "bfs") then
          match rest with
          | a :: b :: more =>
              scans a && scans b
              && match more with d :: _ => scans d | [] => true end
          | _ => false
          end
        else if bool_decide (algoType = "dijkstra") then
          match rest with a :: b :: _ => scans a && scans b | _ => false end
        else if bool_decide (algoType = "pagerank") then
          match rest with
          | a :: more =>
              scans a && match more with t :: _ => scans_float t | [] => true end
          | [] => true
          end
        else false
    | [] => false
    end
  else false.

(** The number of leading arguments that a command can look at. *)
Definition arity (command : string) (args : list string) : nat :=
  if bool_decide (command = "node") || bool_decide (command = "edge")
     || bool_decide (command = "query") then 1
  else if bool_decide (command = "algorithm") then
    match args with
    | algoType :: _ =>
        if bool_decide (algoType = "bfs") then 4
        else if bool_decide (algoType = "dijkstra") then 3
        else if bool_decide (algoType = "pagerank") then 3
        else 1
    | [] => 0
    end
  else 0.

End WithLibrary.

End cli.

(** ** Concrete runs of the command *)

Module terminal.
Import Go.
Import errors.
Import client.
Import cli.

(** Formats that read the decimal numerals [1], [5] and [10], and render
    every value as [{}]. *)
Definition fm : Formats :=
  {| Sscanf_d := fun s =>
       if bool_decide (s = "1") then Ok 1
       else if bool_decide (s = "5") then Ok 5
       else if bool_decide (s = "10") then Ok 10
       else if bool_decide (s = "100") then Ok 100
       else Err "expected integer";
     Sscanf_f := fun s =>
       if bool_decide (s = "0.001") then Ok tolerance_default
       else Err "strconv.ParseFloat: parsing: invalid syntax";
     MarshalIndent_GraphNode := fun _ => Ok "{}";
     MarshalIndent_GraphEdge := fun _ => Ok "{}";
     MarshalIndent_BFSResult := fun _ => Ok "{}";
     MarshalIndent_DijkstraResult := fun _ => Ok "{}";
     MarshalIndent_PageRankResult := fun _ => Ok "{}";
     MarshalIndent_iface := fun _ => Ok "{}";
     MarshalIndent_map := fun _ => Ok "{}" |}.

(** [nendb -url http://localhost:9999 -retries 2 -command <command> args...] *)
Definition invocation (command : string) (args : list string) : CommandLine :=
  {| flag_baseURL := "http://localhost:9999";
     flag_timeout := 30 * Second;
     flag_maxRetries := 2;
     flag_skipHealth := false;
     flag_command := command;
     flag_help := false;
     flag_showVer := false;
     NFlag := 3;
     Args := args |}.

(** The client that [main] creates for [invocation]. *)
Definition driver : NenDBClient :=
  {| config :=
       {| BaseURL := "http://localhost:9999";
          Timeout := 30 * Second;
          MaxRetries := 2;
          RetryDelay := 0;
          SkipValidation := false;
          HTTPClient_ := None |};
     httpClient := {| http_Timeout := 30 * Second |};
     baseURL := "http://localhost:9999" |}.

End terminal.

(** ** More concrete runs of the driver *)

Module cases.
Import Go.
Import errors.
Import client.

(** A runtime as [scenario.rt], except that no request can be made for the
    address [http://[::1], whose bracket is not closed. *)
Definition fussy : Runtime :=
  {| fmt_map := fmt_map scenario.rt;
     url_Parse := url_Parse scenario.rt;
     url_with_query := url_with_query scenario.rt;
     json_Marshal := json_Marshal scenario.rt;
     http_NewRequest := fun _ url =>
       if bool_decide (url = "http://[::1/health")
       then Some "missing ']' in host"
       else None;
     quote_URL := quote_URL scenario.rt;
     json_Unmarshal_map := json_Unmarshal_map scenario.rt;
     json_Unmarshal_iface := json_Unmarshal_iface scenario.rt;
     json_Unmarshal_GraphNode := json_Unmarshal_GraphNode scenario.rt;
     json_Unmarshal_GraphEdge := json_Unmarshal_GraphEdge scenario.rt;
     json_Unmarshal_BFSResult := json_Unmarshal_BFSResult scenario.rt;
     json_Unmarshal_DijkstraResult := json_Unmarshal_DijkstraResult scenario.rt;
     json_Unmarshal_PageRankResult := json_Unmarshal_PageRankResult scenario.rt |}.

Definition bad_address : ClientConfig :=
  {| BaseURL := "http://[::1";
     Timeout := 1 * Second;
     MaxRetries := 3;
     RetryDelay := 1 * Second;
     SkipValidation := true;
     HTTPClient_ := None |}.



(** The text of the error of [Do] for a [GET /health] that is given up for
    the cause given. *)
Definition given_up_text (cause : string) : string :=
  "Get " +:+ scenario.quote +:+ "http://localhost:9999/health" +:+ scenario.quote
  +:+ ": " +:+ cause.

(** A delay of [2^62] ns, whose double does not fit an int64. *)
Definition overflowing : ClientConfig :=
  {| BaseURL := "http://localhost:9999";
     Timeout := 1 * Second;
     MaxRetries := 2;
     RetryDelay := 2 ^ 62;
     SkipValidation := true;
     HTTPClient_ := None |}.

(** [nendb -url http://localhost:9999 -retries 9223372036854775807
    -command health] *)
Definition forever : cli.CommandLine :=
  {| cli.flag_baseURL := "http://localhost:9999";
     cli.flag_timeout := 30 * Second;
     cli.flag_maxRetries := GoInt.max_int64;
     cli.flag_skipHealth := false;
     cli.flag_command := "health";
     cli.flag_help := false;
     cli.flag_showVer := false;
     cli.NFlag := 3;
     cli.Args := [] |}.

(** What package [flag] writes for [nendb -x], in short. *)
Definition not_defined : string := "flag provided but not defined: -x".
Definition usage : string := "Usage of nendb:".


End cases.

(** ** Reading the result of an operation *)

Module reading.
Import errors.
Import client.





(** The receiver comes back from a call as it went in. *)
Definition hands_back {A : Type} (c : NenDBClient)
    (o : option (A * NenDBClient * World)) : Prop :=
  forall r c' w', o = Some (r, c', w') -> c' = c.


(** The operation that gave [o] went through the call [call] of
    [makeRequest] and did nothing else in the world: it is still running
    when the call is, and it returns when the call does, with the receiver
    and the world that the call left, and with the error of the call, if
    any, and then no value. *)
Definition through {A : Type}
    (call : option ((option string * option error) * NenDBClient * World))
    (o : option ((option A * option error) * NenDBClient * World)) : Prop :=
  match call with
  | None => o = None
  | Some ((_, err), c0, w0) =>
      exists r, o = Some (r, c0, w0) /\ forall e, err = Some e -> r = (None, Some e)
  end.

(** The same for an operation that returns an error only: the error is the
    one of the call, or none when the call had none. *)
Definition through_error
    (call : option ((option string * option error) * NenDBClient * World))
    (o : option (option error * NenDBClient * World)) : Prop :=
  match call with
  | None => o = None
  | Some ((_, err), c0, w0) => o = Some (err, c0, w0)
  end.

(** The world [w'] left by at most one run of the retry loop made by [c]
    in [w]: the schedule of a series of attempts is appended to the log (of
    at most [budget c] attempts when [MaxRetries] is below the largest int),
    and the clock has not gone back. *)
Definition at_most_one_call (c : NenDBClient) (w w' : World) : Prop :=
  exists answers,
    log w' = log w ++ schedule (RetryDelay (config c)) 0 answers
    /\ (MaxRetries (config c) < GoInt.max_int64 -> (length answers <= budget c)%nat)
    /\ now w <= now w'.




End reading.

(** * Properties *)

(** ** Domain types and validation *)

Section TypesProperties.
Import Go.
Import errors.
Import types.

(** C8. [IsValidPropertyValue] accepts nil and every value whose kind is
    string, a signed or unsigned integer of any width, a float of either
    width or bool, and rejects every value whose kind is slice, map,
    struct or func. *)
Theorem IsValidPropertyValue_by_kind :
  IsValidPropertyValue None = true
  /\ (forall v : Value,
        In (kind_of v)
           [reflect.String;
            reflect.Int; reflect.Int8; reflect.Int16; reflect.Int32; reflect.Int64;
            reflect.Uint; reflect.Uint8; reflect.Uint16; reflect.Uint32; reflect.Uint64;
            reflect.Float32; reflect.Float64; reflect.Bool] ->
        IsValidPropertyValue (Some v) = true)
  /\ (forall v : Value,
        In (kind_of v) [reflect.Slice; reflect.Map; reflect.Struct; reflect.Func] ->
        IsValidPropertyValue (Some v) = false).
Proof.
  split; [reflexivity | split]; intros v Hk; unfold IsValidPropertyValue;
    destruct (kind_of v); simpl in Hk; try reflexivity;
    repeat (destruct Hk as [Hk | Hk]; [discriminate Hk |]); destruct Hk.
Qed.

(** The values of the test suite: [42], [uint8(8)], [float32(3.14)], [true]
    are accepted; [[]int{1, 2, 3}] and [func() {}] are not. *)
Lemma IsValidPropertyValue_by_kind_witness :
  IsValidPropertyValue (Some (VInt Iword 42)) = true
  /\ IsValidPropertyValue (Some (VUint U8 8)) = true
  /\ IsValidPropertyValue (Some (VFloat F32 1078523331)) = true
  /\ IsValidPropertyValue (Some (VBool true)) = true
  /\ IsValidPropertyValue
       (Some (VSlice (Some [Some (VInt Iword 1); Some (VInt Iword 2); Some (VInt Iword 3)]))) = false
  /\ IsValidPropertyValue (Some (VFunc (Some 1%positive))) = false.
Proof.
  destruct IsValidPropertyValue_by_kind as (_ & Hyes & Hno).
  repeat split; (apply Hyes || apply Hno); simpl; tauto.
Defined.

(** C4, as stated, fails: the error for a negative node id is the plain
    error of [fmt.Errorf], not one of validation kind. *)
Lemma NewGraphNode_error_not_validation_kind :
  NewGraphNode (-1) (Some ["Person"]) (Some ∅)
    = (None, Some (PlainError "node ID must be a non-negative integer"))
  /\ ~ (exists err,
          snd (NewGraphNode (-1) (Some ["Person"]) (Some ∅)) = Some err
          /\ errors.kind err = Some ValidationKind).
Proof.
  split; [reflexivity |].
  intros (err & Herr & Hkind). simpl in Herr.
  injection Herr as <-. discriminate Hkind.
Qed.

(** C4, amended. A negative node id, edge id, source or target, an empty
    edge type, an empty algorithm name or an empty message makes the
    constructor return no object, together with an unclassified error (of
    no kind) whose text names the violated rule: the first one that is
    violated, in the order in which the constructor tests them. *)
Theorem constructors_reject_with_plain_error :
  (forall id labels properties,
      id < 0 ->
      NewGraphNode id labels properties
        = (None, Some (PlainError "node ID must be a non-negative integer")))
  /\ (forall id source target edgeType properties,
        (id < 0 ->
         NewGraphEdge id source target edgeType properties
           = (None, Some (PlainError "edge ID must be a non-negative integer")))
        /\ (0 <= id -> source < 0 ->
            NewGraphEdge id source target edgeType properties
              = (None, Some (PlainError "source node ID must be a non-negative integer")))
        /\ (0 <= id -> 0 <= source -> target < 0 ->
            NewGraphEdge id source target edgeType properties
              = (None, Some (PlainError "target node ID must be a non-negative integer")))
        /\ (0 <= id -> 0 <= source -> 0 <= target -> edgeType = EmptyString ->
            NewGraphEdge id source target edgeType properties
              = (None, Some (PlainError "edge type cannot be empty"))))
  /\ (forall algorithm status message metadata,
        (algorithm = EmptyString ->
         NewAlgorithmResult algorithm status message metadata
           = (None, Some (PlainError "algorithm name cannot be empty")))
        /\ (algorithm <> EmptyString -> message = EmptyString ->
            NewAlgorithmResult algorithm status message metadata
              = (None, Some (PlainError "message cannot be empty"))))
  /\ (forall text, errors.kind (PlainError text) = None).
Proof.
  split; [| split; [| split]].
  - intros id labels properties Hneg. unfold NewGraphNode.
    destruct (Z.ltb_spec id 0); [reflexivity | lia].
  - intros id source target edgeType properties. unfold NewGraphEdge.
    repeat split; intros;
      repeat match goal with
             | |- context [?a <? 0] => destruct (Z.ltb_spec a 0); try lia
             end;
      try reflexivity.
    case_bool_decide; [reflexivity | contradiction].
  - intros algorithm status message metadata. unfold NewAlgorithmResult.
    split; intros; repeat (case_bool_decide; try contradiction); reflexivity.
  - reflexivity.
Qed.

(** The calls of the test suite that must fail, and an edge with two
    faults, for which the text names the first. *)
Lemma constructors_reject_with_plain_error_witness :
  NewGraphNode (-1) None None
    = (None, Some (PlainError "node ID must be a non-negative integer"))
  /\ NewGraphEdge 1 1 (-1) "KNOWS" None
     = (None, Some (PlainError "target node ID must be a non-negative integer"))
  /\ NewGraphEdge 1 (-1) 2 EmptyString None
     = (None, Some (PlainError "source node ID must be a non-negative integer"))
  /\ NewAlgorithmResult "BFS" StatusCompleted EmptyString None
     = (None, Some (PlainError "message cannot be empty")).
Proof.
  destruct constructors_reject_with_plain_error as (Hnode & Hedge & Halg & _).
  split; [apply Hnode; lia |].
  split; [apply (Hedge 1 1 (-1) "KNOWS" None); lia |].
  split; [apply (Hedge 1 (-1) 2 EmptyString None); lia |].
  apply (Halg "BFS" StatusCompleted EmptyString None); [discriminate | reflexivity].
Defined.

(** C5, as stated, fails: with a nil label list and a nil property map the
    constructor succeeds, while [Validate] rejects the node with these
    fields. *)
Lemma Validate_rejects_nil_collections :
  snd (NewGraphNode 1 None None) = None
  /\ GraphNode_Validate {| ID := 1; Labels := None; Properties := None |}
       = Some (PlainError "labels cannot be nil")
  /\ ~ (snd (NewGraphNode 1 None None) = None
        <-> GraphNode_Validate {| ID := 1; Labels := None; Properties := None |} = None).
Proof.
  split; [reflexivity | split; [reflexivity |]].
  intros [Hok _]. specialize (Hok eq_refl). discriminate Hok.
Qed.

(** C5, amended. The rules on identifiers and required strings are the same
    at construction and at re-validation. A nil label list, property map or
    metadata map is replaced by an empty one by the constructor, and is
    rejected by [Validate]. Hence a constructor succeeds exactly when
    [Validate] accepts the object with the collections normalised (which is
    the object it returns), and, on collections that are not nil, exactly
    when [Validate] accepts the object with the arguments as its fields. *)
Theorem construction_and_validation_rules :
  (forall id labels properties,
      (snd (NewGraphNode id labels properties) = None <-> 0 <= id)
      /\ (snd (NewGraphNode id labels properties) = None ->
          let n := {| ID := id;
                      Labels := Some (default [] labels);
                      Properties := Some (default ∅ properties) |} in
          NewGraphNode id labels properties = (Some n, None)
          /\ GraphNode_Validate n = None)
      /\ (snd (NewGraphNode id labels properties) <> None ->
          fst (NewGraphNode id labels properties) = None))
  /\ (forall n,
        GraphNode_Validate n = None
        <-> 0 <= ID n /\ Labels n <> None /\ Properties n <> None)
  /\ (forall id source target edgeType properties,
        (snd (NewGraphEdge id source target edgeType properties) = None
         <-> 0 <= id /\ 0 <= source /\ 0 <= target /\ edgeType <> EmptyString)
        /\ (snd (NewGraphEdge id source target edgeType properties) = None ->
            let e := {| edge_ID := id; Source := source; Target := target;
                        Type_ := edgeType;
                        edge_Properties := Some (default ∅ properties) |} in
            NewGraphEdge id source target edgeType properties = (Some e, None)
            /\ GraphEdge_Validate e = None)
        /\ (snd (NewGraphEdge id source target edgeType properties) <> None ->
            fst (NewGraphEdge id source target edgeType properties) = None))
  /\ (forall e,
        GraphEdge_Validate e = None
        <-> 0 <= edge_ID e /\ 0 <= Source e /\ 0 <= Target e
            /\ Type_ e <> EmptyString /\ edge_Properties e <> None)
  /\ (forall algorithm status message metadata,
        (snd (NewAlgorithmResult algorithm status message metadata) = None
         <-> algorithm <> EmptyString /\ message <> EmptyString)
        /\ (snd (NewAlgorithmResult algorithm status message metadata) = None ->
            let r := {| Algorithm := algorithm; Status := status;
                        result_Message := message;
                        Metadata := Some (default ∅ metadata) |} in
            NewAlgorithmResult algorithm status message metadata = (Some r, None)
            /\ AlgorithmResult_Validate r = None)
        /\ (snd (NewAlgorithmResult algorithm status message metadata) <> None ->
            fst (NewAlgorithmResult algorithm status message metadata) = None))
  /\ (forall r,
        AlgorithmResult_Validate r = None
        <-> Algorithm r <> EmptyString /\ result_Message r <> EmptyString
            /\ Metadata r <> None).
Proof.
  repeat apply conj.
  - intros id labels properties. unfold NewGraphNode, GraphNode_Validate.
    destruct (Z.ltb_spec id 0) as [Hneg | Hpos]; simpl.
    + repeat split; try reflexivity; try discriminate; try lia; intros; congruence.
    + rewrite (proj2 (Z.ltb_ge id 0) Hpos).
      destruct labels, properties; simpl;
        repeat split; try reflexivity; try lia; intros; congruence.
  - intros [id labels properties]. unfold GraphNode_Validate. simpl.
    destruct (Z.ltb_spec id 0);
      [split; [discriminate | intros (? & _); lia] |].
    destruct labels; simpl;
      [| split; [discriminate | intros (_ & ? & _); congruence]].
    destruct properties; simpl;
      [| split; [discriminate | intros (_ & _ & ?); congruence]].
    repeat split; try lia; discriminate.
  - intros id source target edgeType properties.
    unfold NewGraphEdge, GraphEdge_Validate. simpl.
    destruct (Z.ltb_spec id 0);
      [repeat split; try reflexivity; try discriminate;
       try (intros (? & _); lia); intros; congruence |].
    destruct (Z.ltb_spec source 0);
      [repeat split; try reflexivity; try discriminate;
       try (intros (_ & ? & _); lia); intros; congruence |].
    destruct (Z.ltb_spec target 0);
      [repeat split; try reflexivity; try discriminate;
       try (intros (_ & _ & ? & _); lia); intros; congruence |].
    case_bool_decide;
      [repeat split; try reflexivity; try discriminate;
       try (intros (_ & _ & _ & ?); congruence); intros; congruence |].
    destruct properties; simpl;
      repeat split; try reflexivity; try lia; try assumption; intros; congruence.
  - intros [id source target edgeType properties]. unfold GraphEdge_Validate. simpl.
    destruct (Z.ltb_spec id 0);
      [split; [discriminate | intros (? & _); lia] |].
    destruct (Z.ltb_spec source 0);
      [split; [discriminate | intros (_ & ? & _); lia] |].
    destruct (Z.ltb_spec target 0);
      [split; [discriminate | intros (_ & _ & ? & _); lia] |].
    case_bool_decide;
      [split; [discriminate | intros (_ & _ & _ & ? & _); congruence] |].
    destruct properties; simpl;
      [| split; [discriminate | intros (_ & _ & _ & _ & ?); congruence]].
    repeat split; try lia; try assumption; discriminate.
  - intros algorithm status message metadata.
    unfold NewAlgorithmResult, AlgorithmResult_Validate. simpl.
    case_bool_decide;
      [repeat split; try reflexivity; try discriminate;
       try (intros (? & _); congruence); intros; congruence |].
    case_bool_decide;
      [repeat split; try reflexivity; try discriminate;
       try (intros (_ & ?); congruence); intros; congruence |].
    destruct metadata; simpl;
      repeat split; try reflexivity; try assumption; intros; congruence.
  - intros [algorithm status message metadata]. unfold AlgorithmResult_Validate. simpl.
    case_bool_decide;
      [split; [discriminate | intros (? & _); congruence] |].
    case_bool_decide;
      [split; [discriminate | intros (_ & ? & _); congruence] |].
    destruct metadata; simpl;
      [| split; [discriminate | intros (_ & _ & ?); congruence]].
    repeat split; try assumption; discriminate.
Qed.

(** The node of the test suite is built and then passes [Validate]. *)
Lemma construction_and_validation_rules_witness :
  NewGraphNode 1 (Some ["Person"]) None
    = (Some {| ID := 1; Labels := Some ["Person"]; Properties := Some ∅ |}, None)
  /\ GraphNode_Validate
       {| ID := 1; Labels := Some ["Person"]; Properties := Some ∅ |} = None.
Proof.
  destruct construction_and_validation_rules as (Hnode & _).
  destruct (Hnode 1 (Some ["Person"]) None) as (_ & Hbuilt & _).
  apply Hbuilt. reflexivity.
Defined.

End TypesProperties.

(** ** The request pipeline *)

Section ClientProperties.
Import Go.
Import errors.
Import client.
Variable rt : Runtime.

Lemma backoff_world (k d : Z) (w : World) :
  let w1 := if 0 <? k then Sleep d w else w in
  log w1 = log w ++ (if 0 <? k then [Slept d] else [])
  /\ now w1 = now w + (if 0 <? k then Z.max 0 d else 0).
Proof.
  destruct (0 <? k); simpl; [split; reflexivity |].
  rewrite app_nil_r. split; [reflexivity | lia].
Qed.

Lemma last_error_cons lastErr a answers :
  last_error lastErr (a :: answers) = last_error (Some (retry_error a)) answers.
Proof.
  unfold last_error. rewrite last_cons. destruct (last answers); reflexivity.
Qed.

(** [Do] does not return before it was called. *)
Lemma Do_time h net req k t : t <= snd (Do rt h net req k t).
Proof.
  unfold Do. destruct (cutoff h (req_ctx req) t) as [[t' text] |]; [| simpl; lia].
  destruct ((t' <=? t) || (t' <? t + Z.max 0 (latency (net req k)))); simpl; lia.
Qed.

Lemma from_network_since c net req since answers :
  forall since' k,
    since' <= since ->
    from_network rt c net req since k answers ->
    from_network rt c net req since' k answers.
Proof.
  induction answers as [| a answers IH]; intros since' k Hle Hfrom; [exact Logic.I |].
  destruct Hfrom as [(t & Ht & Ha) Hrest]. split.
  - exists t. split; [lia | exact Ha].
  - apply (IH since' (GoInt.incr k) Hle Hrest).
Qed.

(** *** The loop counter *)

Lemma wrap64_id (z : Z) : GoInt.in_int64 z -> GoInt.wrap64 z = z.
Proof.
  unfold GoInt.in_int64, GoInt.min_int64, GoInt.max_int64, GoInt.wrap64.
  intros Hz. rewrite Z.mod_small; lia.
Qed.

Lemma wrap64_in_int64 (z : Z) : GoInt.in_int64 (GoInt.wrap64 z).
Proof.
  unfold GoInt.in_int64, GoInt.min_int64, GoInt.max_int64, GoInt.wrap64.
  pose proof (Z.mod_pos_bound (z + 2 ^ 63) (2 ^ 64) ltac:(lia)). lia.
Qed.

Lemma wrap64_0 : GoInt.wrap64 0 = 0.
Proof. reflexivity. Qed.

Lemma incr_below (k : Z) :
  GoInt.min_int64 <= k < GoInt.max_int64 -> GoInt.incr k = k + 1.
Proof.
  intros Hk. unfold GoInt.incr. apply wrap64_id.
  unfold GoInt.in_int64. lia.
Qed.

Lemma counter_S attempt n : counter attempt (S n) = GoInt.incr (counter attempt n).
Proof.
  revert attempt. induction n as [| n IH]; intros attempt; [reflexivity |].
  change (counter attempt (S (S n))) with (counter (GoInt.incr attempt) (S n)).
  rewrite IH. reflexivity.
Qed.

(** As long as it stays within int64, the counter counts. *)
Lemma counter_linear attempt n :
  GoInt.min_int64 <= attempt ->
  attempt + Z.of_nat n <= GoInt.max_int64 ->
  counter attempt n = attempt + Z.of_nat n.
Proof.
  intros Hmin. induction n as [| n IH]; intros Hmax; [simpl; lia |].
  rewrite counter_S, IH by lia. rewrite incr_below; lia.
Qed.

Lemma counter_in_int64 attempt n :
  GoInt.in_int64 attempt -> GoInt.in_int64 (counter attempt n).
Proof.
  destruct n as [| n]; [trivial |]. intros _.
  rewrite counter_S. apply wrap64_in_int64.
Qed.

(** *** The schedule of a run *)

Lemma schedule_cons delay k a rest :
  schedule delay k (a :: rest)
  = schedule delay k [a] ++ schedule delay (GoInt.incr k) rest.
Proof. cbn [schedule]. rewrite <- app_assoc. reflexivity. Qed.

Lemma schedule_app delay l1 l2 :
  forall k,
    schedule delay k (l1 ++ l2)
    = schedule delay k l1 ++ schedule delay (counter k (length l1)) l2.
Proof.
  induction l1 as [| a l1 IH]; intros k; [reflexivity |].
  cbn [app length counter]. rewrite schedule_cons, IH, (schedule_cons _ _ a l1).
  rewrite <- app_assoc. reflexivity.
Qed.

Lemma attempts_app l1 l2 : attempts (l1 ++ l2) = (attempts l1 + attempts l2)%nat.
Proof. unfold attempts. rewrite List.filter_app, length_app. reflexivity. Qed.

Lemma attempts_schedule delay answers :
  forall k, attempts (schedule delay k answers) = length answers.
Proof.
  induction answers as [| a answers IH]; intros k; [reflexivity |].
  rewrite schedule_cons, attempts_app, IH. cbn [schedule].
  destruct (0 <? k); reflexivity.
Qed.

(** The attempts of a schedule, by their place in it. *)
Lemma in_schedule_sent delay answers j a :
  forall k,
    In (Sent j a) (schedule delay k answers) ->
    exists i, answers !! i = Some a /\ j = counter k i.
Proof.
  induction answers as [| b answers IH]; intros k Hin; [destruct Hin |].
  cbn [schedule] in Hin. apply in_app_or in Hin as [Hin | Hin].
  - destruct (0 <? k); [destruct Hin as [Heq | []]; discriminate Heq | destruct Hin].
  - destruct Hin as [Heq | Hin].
    + injection Heq as <- <-. exists 0%nat. split; reflexivity.
    + destruct (IH (GoInt.incr k) Hin) as (i & Hi & Hj).
      exists (S i). split; [exact Hi | exact Hj].
Qed.

(** The sleeps of a schedule. *)
Lemma in_schedule_slept delay answers d :
  forall k,
    In (Slept d) (schedule delay k answers) ->
    exists i, (i < length answers)%nat /\ 0 < counter k i
              /\ d = GoInt.mul64 delay (counter k i).
Proof.
  induction answers as [| a answers IH]; intros k Hin; [destruct Hin |].
  cbn [schedule] in Hin. apply in_app_or in Hin as [Hin | Hin].
  - destruct (Z.ltb_spec 0 k) as [Hpos | _]; [| destruct Hin].
    destruct Hin as [Heq | []]. injection Heq as <-.
    exists 0%nat. simpl. split; [lia | split; [assumption | reflexivity]].
  - destruct Hin as [Heq | Hin]; [discriminate Heq |].
    destruct (IH (GoInt.incr k) Hin) as (i & Hi & Hpos & Hd).
    exists (S i). simpl. split; [lia | split; assumption].
Qed.

Lemma schedule_zero_delay answers :
  forall k,
    slept (schedule 0 k answers) = 0
    /\ forall d, In (Slept d) (schedule 0 k answers) -> d = 0.
Proof.
  induction answers as [| a answers IH]; intros k; [split; [reflexivity | intros d []] |].
  destruct (IH (GoInt.incr k)) as [Hs Hin]. cbn [schedule].
  unfold GoInt.mul64. rewrite Z.mul_0_l, wrap64_0.
  destruct (0 <? k); simpl; (split; [rewrite Hs; reflexivity |]).
  - intros d [Heq | [Heq | Hd]]; [congruence | discriminate Heq | apply Hin, Hd].
  - intros d [Heq | Hd]; [discriminate Heq | apply Hin, Hd].
Qed.

(** *** One iteration *)

(** One iteration: the answer it gets, and how it ends. *)
Lemma iteration_cases (c : NenDBClient) (net : Network) (req : Request)
    (attempt : Z) (w : World) :
  exists ans t,
    now w <= t
    /\ (exists t0, now w <= t0 /\ ans = fst (Do rt (httpClient c) net req attempt t0))
    /\ let w2 := {| now := t;
                    log := log w ++ schedule (RetryDelay (config c)) attempt [ans] |} in
       (retried ans = true
        /\ iteration rt c net req attempt w = Continue (retry_error ans) w2)
       \/ (exists code status body,
             ans = Complete code status body
             /\ ((200 <= code < 300
                  /\ iteration rt c net req attempt w = Return (Some body, None) w2)
                 \/ (400 <= code
                     /\ iteration rt c net req attempt w
                        = Return (None, Some (response_error rt t code status body)) w2))).
Proof.
  unfold iteration.
  destruct (backoff_world attempt (GoInt.mul64 (RetryDelay (config c)) attempt) w)
    as [Hlog Hnow].
  set (w1 := if 0 <? attempt then _ else w) in *. clearbody w1.
  destruct (Do rt (httpClient c) net req attempt (now w1)) as [ans t] eqn:HDo.
  assert (Hw1 : now w <= now w1) by (rewrite Hnow; destruct (0 <? attempt); lia).
  assert (Ht : now w1 <= t).
  { pose proof (Do_time (httpClient c) net req attempt (now w1)) as Hle.
    rewrite HDo in Hle. exact Hle. }
  exists ans, t. split; [lia |].
  split; [exists (now w1); rewrite HDo; split; [exact Hw1 | reflexivity] |].
  assert (Hw2 : {| now := t; log := log w1 ++ [Sent attempt ans] |}
                = {| now := t;
                     log := log w ++ schedule (RetryDelay (config c)) attempt [ans] |}).
  { f_equal. rewrite Hlog. cbn [schedule]. rewrite <- app_assoc. reflexivity. }
  rewrite Hw2. cbn [now]. cbv zeta.
  destruct ans as [text | code status text | code status body].
  - left. split; reflexivity.
  - left. split; reflexivity.
  - destruct ((200 <=? code) && (code <? 300)) eqn:H2xx.
    + apply andb_true_iff in H2xx as [H200 H300].
      apply Z.leb_le in H200. apply Z.ltb_lt in H300.
      right. exists code, status, body. split; [reflexivity |].
      left. split; [lia | reflexivity].
    + destruct (400 <=? code) eqn:H400.
      * apply Z.leb_le in H400.
        right. exists code, status, body. split; [reflexivity |].
        right. split; [lia | reflexivity].
      * left. split; [| reflexivity].
        simpl. rewrite H2xx, H400. reflexivity.
Qed.

(** *** A run of the loop that ends *)

(** What a run of the loop that has ended made and returned, whatever the
    configuration: the answers to its attempts, the last of which alone
    may be a status in 200..299 or of 400 and above; when none is, the run
    ended by the condition of the loop. Every iteration was made with the
    counter at most [MaxRetries]. *)
Lemma retry_loop_for_run (c : NenDBClient) (net : Network) (req : Request) :
  forall fuel attempt lastErr w r w',
    retry_loop_for rt c net req fuel attempt lastErr w = Some (r, w') ->
    exists answers,
      (length answers <= fuel)%nat
      /\ from_network rt c net req (now w) attempt answers
      /\ now w <= now w'
      /\ log w' = log w ++ schedule (RetryDelay (config c)) attempt answers
      /\ (forall i, (i < length answers)%nat ->
                    counter attempt i <= MaxRetries (config c))
      /\ ((Forall (fun a => retried a = true) answers
           /\ MaxRetries (config c) < counter attempt (length answers)
           /\ r = (None, Some (exhausted rt (last_error lastErr answers) (now w'))))
          \/ (exists init code status body,
                answers = init ++ [Complete code status body]
                /\ Forall (fun a => retried a = true) init
                /\ ((200 <= code < 300 /\ r = (Some body, None))
                    \/ (400 <= code
                        /\ r = (None,
                                Some (response_error rt (now w') code status body)))))).
Proof.
  induction fuel as [| fuel IH]; intros attempt lastErr w r w' Hrun; [discriminate Hrun |].
  cbn [retry_loop_for] in Hrun.
  destruct (Z.leb_spec attempt (MaxRetries (config c))) as [Hle | Hgt].
  - destruct (iteration_cases c net req attempt w)
      as (ans & t & Ht & Hfrom & Hcases).
    set (w2 := {| now := t;
                  log := log w ++ schedule (RetryDelay (config c)) attempt [ans] |})
      in Hcases.
    assert (Hw2 : now w2 = t) by reflexivity.
    destruct Hcases
      as [[Hre Hit] | (code & status & body & -> & [[Hcode Hit] | [Hcode Hit]])];
      rewrite Hit in Hrun.
    + destruct (IH _ _ _ _ _ Hrun)
        as (answers & Hlen & Hnet & Hmono & Hl & Hcount & Hrest).
      exists (ans :: answers). split; [simpl; lia |].
      split; [split; [exact Hfrom |];
              apply (from_network_since c net req (now w2)); [lia | exact Hnet] |].
      split; [lia |].
      split.
      { rewrite Hl, (schedule_cons _ _ ans answers). unfold w2. cbn [log].
        rewrite <- app_assoc. reflexivity. }
      split.
      { intros [| i] Hi; [exact Hle |]. apply Hcount. simpl in Hi. lia. }
      destruct Hrest as [(Hall & Hexit & Hres) | (init & code & status & body & -> & Hall & Hres)].
      * left. split; [constructor; assumption |].
        split; [exact Hexit |]. rewrite last_error_cons. exact Hres.
      * right. exists (ans :: init), code, status, body.
        split; [reflexivity |]. split; [constructor; assumption | exact Hres].
    + injection Hrun as <- <-.
      exists [Complete code status body]. split; [simpl; lia |].
      split; [split; [exact Hfrom | exact Logic.I] |].
      split; [simpl; lia |]. split; [reflexivity |].
      split; [intros [| i] Hi; [exact Hle | simpl in Hi; lia] |].
      right. exists [], code, status, body.
      split; [reflexivity |]. split; [constructor |].
      left. split; [exact Hcode | reflexivity].
    + injection Hrun as <- <-.
      exists [Complete code status body]. split; [simpl; lia |].
      split; [split; [exact Hfrom | exact Logic.I] |].
      split; [simpl; lia |]. split; [reflexivity |].
      split; [intros [| i] Hi; [exact Hle | simpl in Hi; lia] |].
      right. exists [], code, status, body.
      split; [reflexivity |]. split; [constructor |].
      right. split; [exact Hcode | reflexivity].
  - injection Hrun as <- <-. exists []. simpl. rewrite app_nil_r.
    split; [lia |]. split; [exact Logic.I |]. split; [lia |]. split; [reflexivity |].
    split; [intros i Hi; lia |].
    left. split; [constructor |]. split; [exact Hgt | reflexivity].
Qed.

(** With [MaxRetries] below the largest int, a run taken up with the
    counter not negative ends within [MaxRetries - attempt + 1] iterations:
    fuel for one more test of the condition is enough. *)
Lemma retry_loop_for_returns (c : NenDBClient) (net : Network) (req : Request) :
  MaxRetries (config c) < GoInt.max_int64 ->
  forall remaining attempt lastErr w fuel,
    0 <= attempt ->
    remaining = Z.to_nat (MaxRetries (config c) - attempt + 1) ->
    (remaining < fuel)%nat ->
    exists r w', retry_loop_for rt c net req fuel attempt lastErr w = Some (r, w').
Proof.
  intros Hmax.
  induction remaining as [| remaining IH]; intros attempt lastErr w fuel Hpos Hrem Hfuel;
    (destruct fuel as [| fuel]; [lia |]); cbn [retry_loop_for].
  - replace (attempt <=? MaxRetries (config c)) with false
      by (symmetry; apply Z.leb_gt; lia).
    eexists _, _. reflexivity.
  - replace (attempt <=? MaxRetries (config c)) with true
      by (symmetry; apply Z.leb_le; lia).
    destruct (iteration rt c net req attempt w) as [e w' | r w'];
      [| eexists _, _; reflexivity].
    rewrite incr_below by (unfold GoInt.min_int64; lia).
    apply IH; lia.
Qed.

(** More fuel does not change what a run returns. *)
Lemma retry_loop_for_more_fuel (c : NenDBClient) (net : Network) (req : Request) :
  forall fuel fuel' attempt lastErr w result,
    (fuel <= fuel')%nat ->
    retry_loop_for rt c net req fuel attempt lastErr w = Some result ->
    retry_loop_for rt c net req fuel' attempt lastErr w = Some result.
Proof.
  induction fuel as [| fuel IH]; intros fuel' attempt lastErr w result Hle Hrun;
    [discriminate Hrun |].
  destruct fuel' as [| fuel']; [lia |]. cbn [retry_loop_for] in *.
  destruct (attempt <=? MaxRetries (config c)); [| exact Hrun].
  destruct (iteration rt c net req attempt w) as [e w' | r w']; [| exact Hrun].
  apply (IH fuel'); [lia | exact Hrun].
Qed.

(** With [MaxRetries] the largest int, the loop never ends by its
    condition: as long as the iterations end with [continue], it is still
    running, whatever the fuel. *)
Lemma retry_loop_for_no_exit (c : NenDBClient) (net : Network) (req : Request) :
  MaxRetries (config c) = GoInt.max_int64 ->
  (forall attempt w, exists e w', iteration rt c net req attempt w = Continue e w') ->
  forall fuel attempt lastErr w,
    GoInt.in_int64 attempt ->
    retry_loop_for rt c net req fuel attempt lastErr w = None.
Proof.
  intros Hmax Hcont.
  induction fuel as [| fuel IH]; intros attempt lastErr w Hrange; [reflexivity |].
  cbn [retry_loop_for]. rewrite Hmax.
  replace (attempt <=? GoInt.max_int64) with true
    by (symmetry; apply Z.leb_le; apply Hrange).
  destruct (Hcont attempt w) as (e & w' & ->).
  apply IH, wrap64_in_int64.
Qed.

(** The length of a run whose iterations were all made with the counter at
    most [MaxRetries], when that is below the largest int. *)
Lemma bounded_run (c : NenDBClient) attempt (answers : list Answer) :
  MaxRetries (config c) < GoInt.max_int64 ->
  0 <= attempt <= GoInt.max_int64 ->
  (forall i, (i < length answers)%nat -> counter attempt i <= MaxRetries (config c)) ->
  (length answers <= Z.to_nat (MaxRetries (config c) - attempt + 1))%nat
  /\ (MaxRetries (config c) < counter attempt (length answers) ->
      length answers = Z.to_nat (MaxRetries (config c) - attempt + 1)).
Proof.
  intros Hmax Hpos Hcount.
  set (m := Z.to_nat (MaxRetries (config c) - attempt + 1)).
  assert (Hlen : (length answers <= m)%nat).
  { destruct (Nat.le_gt_cases (length answers) m) as [Hle | Hgt]; [exact Hle |].
    specialize (Hcount m Hgt).
    rewrite counter_linear in Hcount; unfold GoInt.min_int64, m in *; lia. }
  split; [exact Hlen |]. intros Hexit.
  rewrite counter_linear in Hexit; unfold GoInt.min_int64, m in *; lia.
Qed.

Lemma Do_transport_failure h net req k t :
  transport_failure (answer (net req k)) = true ->
  transport_failure (fst (Do rt h net req k t)) = true.
Proof.
  intros Hfail. unfold Do.
  destruct (cutoff h (req_ctx req) t) as [[t' text] |]; [| exact Hfail].
  destruct ((t' <=? t) || (t' <? t + Z.max 0 (latency (net req k))));
    [reflexivity | exact Hfail].
Qed.

Lemma Do_retried h net req k t :
  retried (answer (net req k)) = true ->
  retried (fst (Do rt h net req k t)) = true.
Proof.
  intros Hre. unfold Do.
  destruct (cutoff h (req_ctx req) t) as [[t' text] |]; [| exact Hre].
  destruct ((t' <=? t) || (t' <? t + Z.max 0 (latency (net req k))));
    [reflexivity | exact Hre].
Qed.

Lemma from_network_Forall c net req since (P : Answer -> Prop) :
  (forall k t, since <= t -> P (fst (Do rt (httpClient c) net req k t))) ->
  forall answers k,
    from_network rt c net req since k answers ->
    Forall P answers.
Proof.
  intros HP. induction answers as [| a answers IH]; intros k Hfrom.
  - constructor.
  - destruct Hfrom as [(t & Ht & ->) Hrest]. constructor.
    + apply HP, Ht.
    + apply (IH (GoInt.incr k)), Hrest.
Qed.

Lemma response_error_shape now code status body :
  exists e,
    response_error rt now code status body = NenDBResponseError e
    /\ Message e = response_message rt code status body
    /\ Time e = now.
Proof.
  unfold response_error, response_message.
  destruct (json_Unmarshal_map rt body) as [[errorResp |] | text];
    eexists; repeat split.
Qed.

Lemma response_message_cases code status body :
  (forall errorResp msg,
      json_Unmarshal_map rt body = Ok (Some errorResp) ->
      errorResp !! "message" = Some (Some (VString msg)) ->
      response_message rt code status body = msg)
  /\ ((exists text, json_Unmarshal_map rt body = Err text)
      \/ json_Unmarshal_map rt body = Ok None
      \/ (exists errorResp,
             json_Unmarshal_map rt body = Ok (Some errorResp)
             /\ forall msg, errorResp !! "message" <> Some (Some (VString msg))) ->
      response_message rt code status body
        = "HTTP " +:+ pretty code +:+ ": " +:+ status).
Proof.
  unfold response_message. split.
  - intros errorResp msg -> ->. reflexivity.
  - intros [[text ->] | [-> | (errorResp & -> & Hno)]]; [reflexivity | reflexivity |].
    destruct (errorResp !! "message") as [[[] |] |] eqn:Hm; try reflexivity.
    exfalso. eapply Hno. reflexivity.
Qed.

Lemma retried_cases a :
  retried a = true <->
  transport_failure a = true
  \/ exists code status body,
       a = Complete code status body /\ (code < 200 \/ 300 <= code < 400).
Proof.
  destruct a as [text | code status text | code status body]; simpl.
  - split; auto.
  - split; auto.
  - rewrite andb_true_iff, !negb_true_iff, andb_false_iff, Z.leb_gt, Z.ltb_ge, Z.leb_gt.
    split.
    + intros [H2 H4]. right. exists code, status, body. split; [reflexivity | lia].
    + intros [Hf | (code' & status' & body' & Heq & Hc)]; [discriminate |].
      injection Heq as -> -> ->. lia.
Qed.

Lemma retried_complete code status body :
  retried (Complete code status body) = true
  <-> ~ (200 <= code < 300) /\ code < 400.
Proof.
  simpl. rewrite andb_true_iff, !negb_true_iff, andb_false_iff, Z.leb_gt, Z.ltb_ge, Z.leb_gt.
  lia.
Qed.

(** *** Calls of [makeRequest] *)

(** The receiver comes back as it was. *)
Lemma makeRequest_receiver fuel net c ctx method endpoint data params w r c' w' :
  makeRequest rt fuel net c ctx method endpoint data params w = Some (r, c', w') ->
  c' = c.
Proof.
  unfold makeRequest.
  destruct (build_request rt c ctx method endpoint data params (now w)).
  - destruct (retry_loop_for rt c net _ fuel 0 None w) as [[res wd] |]; [| discriminate].
    intros Heq. injection Heq as _ <- _. reflexivity.
  - intros Heq. injection Heq as _ <- _. reflexivity.
Qed.

(** A call whose request could not be built. *)
Lemma makeRequest_unbuilt fuel net c ctx method endpoint data params w e :
  build_request rt c ctx method endpoint data params (now w) = inr e ->
  makeRequest rt fuel net c ctx method endpoint data params w = Some ((None, Some e), c, w).
Proof. intros Hbuild. unfold makeRequest. rewrite Hbuild. reflexivity. Qed.

(** A call that has returned, whatever the configuration and the fuel. *)
Lemma makeRequest_returned fuel net c ctx method endpoint data params w req r c' w' :
  build_request rt c ctx method endpoint data params (now w) = inl req ->
  makeRequest rt fuel net c ctx method endpoint data params w = Some (r, c', w') ->
  c' = c
  /\ exists answers,
       (length answers <= fuel)%nat
       /\ from_network rt c net req (now w) 0 answers
       /\ now w <= now w'
       /\ log w' = log w ++ schedule (RetryDelay (config c)) 0 answers
       /\ (forall i, (i < length answers)%nat -> counter 0 i <= MaxRetries (config c))
       /\ ((Forall (fun a => retried a = true) answers
            /\ MaxRetries (config c) < counter 0 (length answers)
            /\ r = (None, Some (exhausted rt (last_error None answers) (now w'))))
           \/ (exists init code status body,
                 answers = init ++ [Complete code status body]
                 /\ Forall (fun a => retried a = true) init
                 /\ ((200 <= code < 300 /\ r = (Some body, None))
                     \/ (400 <= code
                         /\ r = (None,
                                 Some (response_error rt (now w') code status body)))))).
Proof.
  intros Hbuild Hcall. split; [apply (makeRequest_receiver _ _ _ _ _ _ _ _ _ _ _ _ Hcall) |].
  unfold makeRequest in Hcall. rewrite Hbuild in Hcall.
  destruct (retry_loop_for rt c net req fuel 0 None w) as [[res wd] |] eqn:Hrun;
    [| discriminate Hcall].
  injection Hcall as <- _ <-.
  apply (retry_loop_for_run c net req _ _ _ _ _ _ Hrun).
Qed.

(** With [MaxRetries] below the largest int, a call returns as soon as
    the fuel exceeds the budget of the client. *)
Lemma makeRequest_returns fuel net c ctx method endpoint data params w :
  MaxRetries (config c) < GoInt.max_int64 ->
  (budget c < fuel)%nat ->
  exists r w',
    makeRequest rt fuel net c ctx method endpoint data params w = Some (r, c, w').
Proof.
  intros Hmax Hfuel. unfold makeRequest.
  destruct (build_request rt c ctx method endpoint data params (now w)) as [req | e];
    [| eexists _, _; reflexivity].
  destruct (retry_loop_for_returns c net req Hmax (budget c) 0 None w fuel)
    as (r & w' & ->); [lia | unfold budget; f_equal; lia | exact Hfuel |].
  eexists _, _. reflexivity.
Qed.

(** A call of [makeRequest] whose request could be built, by a client with
    [MaxRetries] below the largest int and with enough fuel. *)
Lemma makeRequest_run fuel net c ctx method endpoint data params w req :
  build_request rt c ctx method endpoint data params (now w) = inl req ->
  MaxRetries (config c) < GoInt.max_int64 ->
  (budget c < fuel)%nat ->
  exists answers r w',
    makeRequest rt fuel net c ctx method endpoint data params w = Some (r, c, w')
    /\ (length answers <= budget c)%nat
    /\ from_network rt c net req (now w) 0 answers
    /\ now w <= now w'
    /\ log w' = log w ++ schedule (RetryDelay (config c)) 0 answers
    /\ ((Forall (fun a => retried a = true) answers
         /\ length answers = budget c
         /\ r = (None, Some (exhausted rt (last_error None answers) (now w'))))
        \/ (exists init code status body,
              answers = init ++ [Complete code status body]
              /\ Forall (fun a => retried a = true) init
              /\ ((200 <= code < 300 /\ r = (Some body, None))
                  \/ (400 <= code
                      /\ r = (None, Some (response_error rt (now w') code status body)))))).
Proof.
  intros Hbuild Hmax Hfuel.
  destruct (makeRequest_returns fuel net c ctx method endpoint data params w Hmax Hfuel)
    as (r & w' & Hcall).
  destruct (makeRequest_returned _ _ _ _ _ _ _ _ _ _ _ _ _ Hbuild Hcall)
    as (_ & answers & _ & Hfrom & Hmono & Hlog & Hcount & Hcases).
  destruct (bounded_run c 0 answers Hmax) as [Hlen Hexit];
    [unfold GoInt.max_int64; lia | exact Hcount |].
  rewrite Z.sub_0_r in Hlen, Hexit. fold (budget c) in Hlen, Hexit.
  exists answers, r, w'. split; [exact Hcall |]. split; [exact Hlen |].
  split; [exact Hfrom |]. split; [exact Hmono |]. split; [exact Hlog |].
  destruct Hcases as [(Hall & Hout & Hr) | Hlast]; [left | right; exact Hlast].
  split; [exact Hall |]. split; [apply Hexit, Hout | exact Hr].
Qed.

(** With [MaxRetries] the largest int, a call in which every attempt is
    answered by a failure or by a status that is retried never returns. *)
Lemma makeRequest_never_returns fuel net c ctx method endpoint data params w req :
  build_request rt c ctx method endpoint data params (now w) = inl req ->
  MaxRetries (config c) = GoInt.max_int64 ->
  (forall k t, retried (fst (Do rt (httpClient c) net req k t)) = true) ->
  makeRequest rt fuel net c ctx method endpoint data params w = None.
Proof.
  intros Hbuild Hmax Hnet. unfold makeRequest. rewrite Hbuild.
  rewrite (retry_loop_for_no_exit c net req Hmax); [reflexivity | |].
  - intros attempt w0.
    destruct (iteration_cases c net req attempt w0)
      as (ans & t & _ & (t0 & _ & Hans) & Hcases).
    destruct Hcases as [[_ Hit] | (code & status & body & Heq & Hcode)].
    + eexists _, _. exact Hit.
    + specialize (Hnet attempt t0). rewrite <- Hans, Heq in Hnet.
      apply retried_complete in Hnet. destruct Hcode as [[Hc _] | [Hc _]]; lia.
  - unfold GoInt.in_int64, GoInt.min_int64, GoInt.max_int64. lia.
Qed.


(** C2, amended. In a call whose request could be built, an attempt that
    yields a status of 400 or more is the last one, and the call returns a
    response-kind error whose message is the string [message] of the body
    when the body parses as a JSON object with one, and "HTTP <code>:
    <status>" otherwise; an attempt that yields a status in 200..299 is the
    last one, and the call returns the body. An attempt is followed by
    another one only if it failed at transport level or yielded a status
    below 200 or in 300..399; and such an attempt is followed by another
    one as long as its number is below [MaxRetries]. This holds of every
    call that returns, whatever the configuration; and the call does return
    when [MaxRetries] is below the largest int. *)
Theorem makeRequest_status_dispatch fuel net c ctx method endpoint data params w req :
  build_request rt c ctx method endpoint data params (now w) = inl req ->
  (MaxRetries (config c) < GoInt.max_int64 ->
   (budget c < fuel)%nat ->
   exists r w',
     makeRequest rt fuel net c ctx method endpoint data params w = Some (r, c, w'))
  /\ forall r c' w',
       makeRequest rt fuel net c ctx method endpoint data params w = Some (r, c', w') ->
       c' = c
       /\ exists answers,
            log w' = log w ++ schedule (RetryDelay (config c)) 0 answers
            /\ (forall i code status body,
                  answers !! i = Some (Complete code status body) ->
                  (400 <= code ->
                     S i = length answers
                     /\ exists e,
                          r = (None, Some (NenDBResponseError e))
                          /\ Message e = response_message rt code status body
                          /\ (forall errorResp msg,
                                json_Unmarshal_map rt body = Ok (Some errorResp) ->
                                errorResp !! "message" = Some (Some (VString msg)) ->
                                Message e = msg)
                          /\ ((exists text, json_Unmarshal_map rt body = Err text)
                              \/ json_Unmarshal_map rt body = Ok None
                              \/ (exists errorResp,
                                     json_Unmarshal_map rt body = Ok (Some errorResp)
                                     /\ forall msg,
                                          errorResp !! "message"
                                          <> Some (Some (VString msg))) ->
                              Message e = "HTTP " +:+ pretty code +:+ ": " +:+ status))
                  /\ (200 <= code < 300 -> S i = length answers /\ r = (Some body, None)))
            /\ (forall i a,
                  answers !! i = Some a ->
                  (S i < length answers)%nat ->
                  transport_failure a = true
                  \/ exists code status body,
                       a = Complete code status body
                       /\ (code < 200 \/ 300 <= code < 400))
            /\ (forall i a,
                  answers !! i = Some a ->
                  (transport_failure a = true
                   \/ exists code status body,
                        a = Complete code status body
                        /\ (code < 200 \/ 300 <= code < 400)) ->
                  Z.of_nat i < MaxRetries (config c) ->
                  (S i < length answers)%nat).
Proof.
  intros Hbuild. split; [apply makeRequest_returns |].
  intros r c' w' Hcall.
  destruct (makeRequest_returned _ _ _ _ _ _ _ _ _ _ _ _ _ Hbuild Hcall)
    as (Hc & answers & _ & _ & _ & Hlog & Hcount & Hcases).
  split; [exact Hc |]. exists answers. split; [exact Hlog |].
  destruct Hcases as [(Hall & Hexit & Hr) | (init & code & status & body & -> & Hall & Hr)].
  - rewrite Forall_forall in Hall. split; [| split].
    + intros i code status body Hi.
      apply list_elem_of_lookup_2, Hall, retried_complete in Hi. lia.
    + intros i a Hi _. apply retried_cases, Hall. eapply list_elem_of_lookup_2, Hi.
    + intros i a Hi _ Hbudget.
      destruct (Nat.lt_ge_cases (S i) (length answers)) as [Hlt | Hge]; [exact Hlt |].
      exfalso. apply lookup_lt_Some in Hi.
      assert (Hrange : GoInt.in_int64 (MaxRetries (config c))).
      { pose proof (counter_in_int64 0 (length answers)) as Hin.
        specialize (Hcount i Hi).
        pose proof (counter_in_int64 0 i) as Hini.
        unfold GoInt.in_int64, GoInt.min_int64, GoInt.max_int64 in *. lia. }
      rewrite counter_linear in Hexit;
        unfold GoInt.in_int64, GoInt.min_int64, GoInt.max_int64 in *; lia.
  - rewrite Forall_forall in Hall. rewrite length_app. simpl.
    assert (Hinit : forall i a, (init ++ [Complete code status body]) !! i = Some a ->
              (i < length init)%nat -> retried a = true).
    { intros i a Hi Hlt. rewrite lookup_app_l in Hi by assumption.
      eapply Hall, list_elem_of_lookup_2, Hi. }
    assert (Hend : forall i a, (init ++ [Complete code status body]) !! i = Some a ->
              (i < length init)%nat \/ (i = length init /\ a = Complete code status body)).
    { intros i a Hi. destruct (Nat.lt_ge_cases i (length init)) as [Hlt | Hge]; [left; assumption |].
      right. rewrite lookup_app_r in Hi by assumption.
      destruct (i - length init)%nat as [| j] eqn:Hj; simpl in Hi; [| discriminate].
      injection Hi as <-. split; [lia | reflexivity]. }
    assert (Hlast : retried (Complete code status body) = false).
    { apply not_true_iff_false. rewrite retried_complete.
      destruct Hr as [[Hcd _] | [Hcd _]]; lia. }
    split; [| split].
    + intros i code' status' body' Hi.
      destruct (Hend _ _ Hi) as [Hlt | [-> Heq]].
      * apply (Hinit _ _ Hi), retried_complete in Hlt. lia.
      * injection Heq as -> -> ->. split.
        -- intros Hcode. split; [lia |].
           destruct Hr as [[Hcd _] | [_ ->]]; [lia |].
           destruct (response_error_shape (now w') code status body) as (e & -> & Hm & _).
           exists e. split; [reflexivity |]. split; [exact Hm |].
           rewrite Hm. apply response_message_cases.
        -- intros Hcode. split; [lia |].
           destruct Hr as [[_ ->] | [Hcd _]]; [reflexivity | lia].
    + intros i a Hi Hlt. apply retried_cases. apply (Hinit i a Hi). lia.
    + intros i a Hi Hre _. apply retried_cases in Hre.
      destruct (Hend _ _ Hi) as [Hlt | [-> ->]]; [lia | congruence].
Qed.


(** *** The backoff *)

(** Within int64 the attempts of a schedule are numbered in a row. *)
Lemma in_schedule_sent_linear delay answers j a k :
  0 <= k ->
  k + Z.of_nat (length answers) <= GoInt.max_int64 ->
  In (Sent j a) (schedule delay k answers) ->
  k <= j < k + Z.of_nat (length answers)
  /\ answers !! Z.to_nat (j - k) = Some a.
Proof.
  intros Hk Hmax Hin.
  destruct (in_schedule_sent _ _ _ _ _ Hin) as (i & Hi & ->).
  pose proof (lookup_lt_Some _ _ _ Hi) as Hlt.
  rewrite counter_linear by (unfold GoInt.min_int64; lia).
  split; [lia |]. replace (Z.to_nat (k + Z.of_nat i - k)) with i by lia. exact Hi.
Qed.

Lemma in_schedule_slept_linear delay answers d k :
  0 <= k ->
  k + Z.of_nat (length answers) <= GoInt.max_int64 ->
  In (Slept d) (schedule delay k answers) ->
  exists j, 0 < j /\ k <= j < k + Z.of_nat (length answers)
            /\ d = GoInt.mul64 delay j.
Proof.
  intros Hk Hmax Hin.
  destruct (in_schedule_slept _ _ _ _ Hin) as (i & Hi & Hpos & ->).
  rewrite counter_linear in * by (unfold GoInt.min_int64; lia).
  exists (k + Z.of_nat i). split; [exact Hpos |]. split; [lia | reflexivity].
Qed.

Lemma schedule_linear_from delay answers :
  forall k : nat,
    Z.of_nat k + Z.of_nat (length answers) <= GoInt.max_int64 ->
    (forall i, (i < length answers)%nat -> (0 < k + i)%nat ->
               GoInt.in_int64 (delay * Z.of_nat (k + i))) ->
    schedule delay (Z.of_nat k) answers
    = concat (imap (fun i a =>
                      if decide ((k + i)%nat = 0%nat) then [Sent 0 a]
                      else [Slept (delay * Z.of_nat (k + i)); Sent (Z.of_nat (k + i)) a])
                   answers).
Proof.
  induction answers as [| a answers IH]; intros k Hmax Hrange; [reflexivity |].
  cbn [schedule imap concat]. cbn [length] in Hmax.
  rewrite incr_below by (unfold GoInt.min_int64; lia).
  replace (Z.of_nat k + 1) with (Z.of_nat (S k)) by lia.
  rewrite IH.
  - rewrite Nat.add_0_r.
    assert (Hrest :
      imap (fun i a0 =>
              if decide ((S k + i)%nat = 0%nat) then [Sent 0 a0]
              else [Slept (delay * Z.of_nat (S k + i)); Sent (Z.of_nat (S k + i)) a0])
           answers
      = imap ((fun i a0 =>
                 if decide ((k + i)%nat = 0%nat) then [Sent 0 a0]
                 else [Slept (delay * Z.of_nat (k + i)); Sent (Z.of_nat (k + i)) a0]) ∘ S)
             answers).
    { apply imap_ext. intros i x _. unfold compose.
      replace (S k + i)%nat with (k + S i)%nat by lia. reflexivity. }
    rewrite Hrest.
    destruct k as [| k].
    + reflexivity.
    + replace (0 <? Z.of_nat (S k)) with true by (symmetry; apply Z.ltb_lt; lia).
      destruct (decide (S k = 0%nat)) as [Hk | _]; [discriminate Hk |].
      unfold GoInt.mul64. rewrite wrap64_id; [reflexivity |].
      specialize (Hrange 0%nat). rewrite Nat.add_0_r in Hrange.
      apply Hrange; simpl; lia.
  - lia.
  - intros i Hi Hpos. replace (S k + i)%nat with (k + S i)%nat by lia.
    apply Hrange; simpl; lia.
Qed.

Lemma schedule_linear delay answers :
  Z.of_nat (length answers) <= GoInt.max_int64 ->
  (forall k, 0 < k < Z.of_nat (length answers) -> GoInt.in_int64 (delay * k)) ->
  schedule delay 0 answers = linear_backoff delay answers.
Proof.
  intros Hmax Hrange. unfold linear_backoff.
  change 0 with (Z.of_nat 0). rewrite schedule_linear_from; [reflexivity | lia |].
  intros i Hi Hpos. apply Hrange. lia.
Qed.

Lemma budget_bound c :
  MaxRetries (config c) < GoInt.max_int64 ->
  Z.of_nat (budget c) = Z.max (MaxRetries (config c) + 1) 0
  /\ Z.of_nat (budget c) <= GoInt.max_int64.
Proof. unfold budget, GoInt.max_int64. lia. Qed.

(** C7, amended. In a call whose request could be built, by a client with
    [MaxRetries] below the largest int, the attempts are numbered 0, 1, 2,
    ... and there are at most [max (MaxRetries + 1) 0] of them; nothing
    precedes attempt 0; right before each attempt [k > 0] the call sleeps
    once, for [RetryDelay * k] computed in int64; this is a wait of exactly
    [RetryDelay * k] when that product lies between 0 and the largest
    int64, and the whole schedule is then the linear backoff of the
    specification. *)
Theorem makeRequest_backoff fuel net c ctx method endpoint data params w req :
  build_request rt c ctx method endpoint data params (now w) = inl req ->
  MaxRetries (config c) < GoInt.max_int64 ->
  (budget c < fuel)%nat ->
  exists answers r w',
    makeRequest rt fuel net c ctx method endpoint data params w = Some (r, c, w')
    /\ log w' = log w ++ schedule (RetryDelay (config c)) 0 answers
    /\ Z.of_nat (attempts (schedule (RetryDelay (config c)) 0 answers))
       <= Z.max (MaxRetries (config c) + 1) 0
    /\ (forall a rest,
          answers = a :: rest ->
          schedule (RetryDelay (config c)) 0 answers
          = Sent 0 a :: schedule (RetryDelay (config c)) 1 rest)
    /\ (forall k a,
          0 < k ->
          In (Sent k a) (schedule (RetryDelay (config c)) 0 answers) ->
          exists before after,
            schedule (RetryDelay (config c)) 0 answers
            = before
              ++ [Slept (GoInt.mul64 (RetryDelay (config c)) k); Sent k a]
              ++ after
            /\ Z.of_nat (attempts before) = k)
    /\ (forall d,
          In (Slept d) (schedule (RetryDelay (config c)) 0 answers) ->
          exists k,
            0 < k < Z.of_nat (length answers)
            /\ d = GoInt.mul64 (RetryDelay (config c)) k)
    /\ (forall k w0,
          0 <= RetryDelay (config c) * k <= GoInt.max_int64 ->
          now (Sleep (GoInt.mul64 (RetryDelay (config c)) k) w0)
          = now w0 + RetryDelay (config c) * k)
    /\ ((forall k, 0 < k < Z.of_nat (length answers) ->
                   GoInt.in_int64 (RetryDelay (config c) * k)) ->
        schedule (RetryDelay (config c)) 0 answers
        = linear_backoff (RetryDelay (config c)) answers).
Proof.
  intros Hbuild Hmax Hfuel.
  destruct (makeRequest_run fuel net c ctx method endpoint data params w req
              Hbuild Hmax Hfuel)
    as (answers & r & w' & Hcall & Hlen & _ & _ & Hlog & _).
  destruct (budget_bound c Hmax) as [Hbudget Hfits].
  assert (Hanswers : 0 + Z.of_nat (length answers) <= GoInt.max_int64) by lia.
  exists answers, r, w'. split; [exact Hcall |]. split; [exact Hlog |].
  split; [rewrite attempts_schedule; lia |].
  split; [intros a rest ->; reflexivity |].
  split; [| split; [| split; [| apply schedule_linear; lia]]].
  - intros k a Hk Hin.
    destruct (in_schedule_sent_linear _ _ _ _ 0 ltac:(lia) Hanswers Hin)
      as [Hrange Hlookup].
    rewrite Z.sub_0_r in Hlookup.
    pose proof (take_drop_middle _ _ _ Hlookup) as Hsplit.
    exists (schedule (RetryDelay (config c)) 0 (take (Z.to_nat k) answers)),
           (schedule (RetryDelay (config c)) (GoInt.incr k)
              (drop (S (Z.to_nat k)) answers)).
    assert (Htake : Z.of_nat (length (take (Z.to_nat k) answers)) = k).
    { rewrite length_take. apply lookup_lt_Some in Hlookup. lia. }
    split; [| rewrite attempts_schedule; exact Htake].
    rewrite <- Hsplit at 1. rewrite schedule_app. cbn [schedule].
    rewrite counter_linear by (unfold GoInt.min_int64; lia).
    rewrite Htake, Z.add_0_l.
    replace (0 <? k) with true by (symmetry; apply Z.ltb_lt; lia).
    reflexivity.
  - intros d Hin.
    destruct (in_schedule_slept_linear _ _ _ 0 ltac:(lia) Hanswers Hin)
      as (j & Hj & Hjr & Hd).
    exists j. split; [lia | exact Hd].
  - intros k w0 Hk. unfold Sleep, GoInt.mul64. cbn [now].
    rewrite wrap64_id; [lia |].
    unfold GoInt.in_int64, GoInt.min_int64, GoInt.max_int64 in *. lia.
Qed.

(** Every call that returns leaves a schedule behind (an empty one, if
    the request could not be built). *)
Lemma makeRequest_log fuel net c ctx method endpoint data params w r c' w' :
  makeRequest rt fuel net c ctx method endpoint data params w = Some (r, c', w') ->
  c' = c
  /\ exists answers,
       log w' = log w ++ schedule (RetryDelay (config c)) 0 answers
       /\ (MaxRetries (config c) < GoInt.max_int64 -> (length answers <= budget c)%nat)
       /\ now w <= now w'.
Proof.
  intros Hcall.
  destruct (build_request rt c ctx method endpoint data params (now w))
    as [req | e] eqn:Hbuild.
  - destruct (makeRequest_returned _ _ _ _ _ _ _ _ _ _ _ _ _ Hbuild Hcall)
      as (Hc & answers & _ & _ & Hmono & Hlog & Hcount & _).
    split; [exact Hc |]. exists answers. split; [exact Hlog |]. split; [| exact Hmono].
    intros Hmax. destruct (bounded_run c 0 answers Hmax) as [Hlen _];
      [unfold GoInt.max_int64; lia | exact Hcount |].
    rewrite Z.sub_0_r in Hlen. exact Hlen.
  - rewrite (makeRequest_unbuilt _ _ _ _ _ _ _ _ _ _ Hbuild) in Hcall.
    injection Hcall as <- <- <-. split; [reflexivity |].
    exists []. simpl. rewrite app_nil_r. split; [reflexivity |]. split; [lia | lia].
Qed.

(** *** [Health] and [NewClient] *)

(** The context that [Health] makes for its request, at instant [t]. *)
Lemma Health_makeRequest fuel net c w :
  Health rt fuel net c w
  = match makeRequest rt fuel net c
            {| done_at := Some (now w + Timeout (config c));
               done_err := "context deadline exceeded" |}
            "GET" "/health" None ∅ w with
    | Some ((_, err), c', w') => Some (err, c', w')
    | None => None
    end.
Proof. reflexivity. Qed.

Lemma Health_returns fuel net c w :
  MaxRetries (config c) < GoInt.max_int64 ->
  (budget c < fuel)%nat ->
  exists err w', Health rt fuel net c w = Some (err, c, w').
Proof.
  intros Hmax Hfuel. rewrite Health_makeRequest.
  destruct (makeRequest_returns fuel net c
              {| done_at := Some (now w + Timeout (config c));
                 done_err := "context deadline exceeded" |}
              "GET" "/health" None ∅ w Hmax Hfuel) as ([body err] & w' & ->).
  eexists _, _. reflexivity.
Qed.

Lemma Health_receiver fuel net c w err c' w' :
  Health rt fuel net c w = Some (err, c', w') -> c' = c.
Proof.
  rewrite Health_makeRequest.
  destruct (makeRequest rt fuel net c _ "GET" "/health" None ∅ w)
    as [[[[body err0] c0] w0] |] eqn:Hcall; [| discriminate].
  intros Heq. injection Heq as _ <- _.
  apply (makeRequest_receiver _ _ _ _ _ _ _ _ _ _ _ _ Hcall).
Qed.

Lemma NewClient_cases fuel net cfg w :
  let given := match cfg with None => DefaultConfig | Some given => given end in
  NewClient rt fuel net cfg w
  = if negb (SkipValidation given) then
      match Health rt fuel net (assemble given) w with
      | Some (Some err, _, w') =>
          Some ((None,
                 Some (NewConnectionError (now w')
                         ("Failed to connect to NenDB server at "
                          +:+ baseURL (assemble given))
                         (Some (detail "error" (Error rt err))))), w')
      | Some (None, client', w') => Some ((Some client', None), w')
      | None => None
      end
    else Some ((Some (assemble given), None), w).
Proof. reflexivity. Qed.

Lemma NewClient_assembles fuel net cfg w c w' :
  NewClient rt fuel net cfg w = Some ((Some c, None), w') ->
  c = assemble (match cfg with None => DefaultConfig | Some cfg => cfg end).
Proof.
  rewrite NewClient_cases. cbv zeta.
  set (given := match cfg with None => DefaultConfig | Some cfg => cfg end).
  destruct (negb (SkipValidation given)).
  - destruct (Health rt fuel net (assemble given) w) as [[[[cause |] c0] w0] |] eqn:Hprobe;
      try discriminate.
    intros Heq. injection Heq as <- _.
    apply (Health_receiver _ _ _ _ _ _ _ Hprobe).
  - intros Heq. injection Heq as <- _. reflexivity.
Qed.

(** C10. [NewClient] takes the defaults for a nil configuration only: the
    client it returns for a non-nil configuration holds that very
    configuration, zero-valued fields included. With [MaxRetries] 0 a call of
    the request primitive makes exactly one attempt; with [RetryDelay] 0
    every sleep is of length zero; with [Timeout] 0 and no HTTP client given,
    the HTTP client is made with [Timeout] 0, under which [Do] has no
    deadline of its own. *)
Theorem zero_valued_fields_kept fuel net cfg w c w' :
  NewClient rt fuel net cfg w = Some ((Some c, None), w') ->
  config c = match cfg with None => DefaultConfig | Some given => given end
  /\ (HTTPClient_ (config c) = None ->
      httpClient c = {| http_Timeout := Timeout (config c) |})
  /\ (MaxRetries (config c) = 0 ->
      forall fuel1 net' ctx method endpoint data params w1 req,
        (1 < fuel1)%nat ->
        build_request rt c ctx method endpoint data params (now w1) = inl req ->
        exists a r w2,
          makeRequest rt fuel1 net' c ctx method endpoint data params w1
            = Some (r, c, w2)
          /\ log w2 = log w1 ++ [Sent 0 a])
  /\ (RetryDelay (config c) = 0 ->
      forall fuel1 net' ctx method endpoint data params w1,
        (MaxRetries (config c) < GoInt.max_int64 ->
         (budget c < fuel1)%nat ->
         exists r w2,
           makeRequest rt fuel1 net' c ctx method endpoint data params w1
             = Some (r, c, w2))
        /\ forall r c' w2,
             makeRequest rt fuel1 net' c ctx method endpoint data params w1
               = Some (r, c', w2) ->
             exists evs,
               log w2 = log w1 ++ evs
               /\ slept evs = 0
               /\ forall d, In (Slept d) evs -> d = 0)
  /\ (Timeout (config c) = 0 -> HTTPClient_ (config c) = None ->
      http_Timeout (httpClient c) = 0
      /\ forall ctx t,
           cutoff (httpClient c) ctx t
           = match done_at ctx with
             | Some d => Some (d, done_err ctx)
             | None => None
             end).
Proof.
  intros Hnew. apply NewClient_assembles in Hnew. subst c.
  set (given := match cfg with None => DefaultConfig | Some given => given end).
  cbn [assemble config httpClient].
  split; [reflexivity |]. split; [intros ->; reflexivity |].
  split; [| split].
  - intros Hzero fuel1 net' ctx method endpoint data params w1 req Hfuel Hbuild.
    destruct (makeRequest_run fuel1 net' (assemble given) ctx method endpoint data params
                w1 req Hbuild)
      as (answers & r & w2 & Hcall & Hlen & _ & _ & Hlog & Hcases).
    { cbn [assemble config]. rewrite Hzero. unfold GoInt.max_int64. lia. }
    { unfold budget. cbn [assemble config]. rewrite Hzero. simpl. lia. }
    unfold budget in Hlen, Hcases.
    cbn [assemble config] in Hlen, Hcases, Hlog. rewrite Hzero in Hlen, Hcases.
    change (Z.to_nat (0 + 1)) with 1%nat in Hlen, Hcases.
    assert (Hone : exists a, answers = [a]).
    { destruct Hcases as [(_ & Hn & _) | (init & code & status & body & -> & _)].
      - destruct answers as [| a [| b rest]]; try discriminate Hn. exists a. reflexivity.
      - rewrite length_app in Hlen. simpl in Hlen.
        destruct init; [| simpl in Hlen; lia]. eexists. reflexivity. }
    destruct Hone as [a ->]. exists a, r, w2. split; [exact Hcall | exact Hlog].
  - intros Hzero fuel1 net' ctx method endpoint data params w1.
    split;
      [intros Hmax Hfuel;
       exact (makeRequest_returns fuel1 net' (assemble given) ctx method endpoint data
                params w1 Hmax Hfuel) |].
    intros r c' w2 Hcall.
    destruct (makeRequest_log _ _ _ _ _ _ _ _ _ _ _ _ Hcall)
      as (_ & answers & Hlog & _).
    cbn [assemble config] in Hlog. rewrite Hzero in Hlog.
    destruct (schedule_zero_delay answers 0) as [Hs Hin].
    exists (schedule 0 0 answers). auto.
  - intros Hzero ->. cbn [http_Timeout]. split; [exact Hzero |].
    intros ctx t. unfold cutoff. cbn [http_Timeout]. rewrite Hzero.
    change (0 <? 0) with false. cbv iota. destruct (done_at ctx); reflexivity.
Qed.



Lemma append_nil_l (s : string) : EmptyString +:+ s = s.
Proof. reflexivity. Qed.

Lemma append_cons (a : ascii) (t s : string) : String a t +:+ s = String a (t +:+ s).
Proof. reflexivity. Qed.

Lemma TrimRight_slash s :
  exists n,
    s = TrimRight s "/" +:+ repeat_byte "/" n
    /\ last_byte (TrimRight s "/") <> Some "/"%char.
Proof.
  unfold last_byte.
  induction s as [| a s (n & Hs & Hlast)].
  - exists 0%nat. split; [reflexivity | discriminate].
  - cbn [TrimRight].
    destruct (TrimRight s "/") as [| b t] eqn:Ht; rewrite ?Ht in Hs, Hlast.
    + cbn [in_cutset]. rewrite orb_false_r. rewrite append_nil_l in Hs.
      destruct (Ascii.eqb_spec a "/") as [-> | Hne].
      * exists (S n). split; [rewrite append_nil_l; cbn [repeat_byte]; congruence | discriminate].
      * exists n. split; [rewrite append_cons, append_nil_l; congruence |].
        cbn. intros Heq. injection Heq as ->. apply Hne. reflexivity.
    + exists n. split; [rewrite append_cons; congruence |].
      cbn [String.list_ascii_of_string] in *. rewrite last_cons.
      destruct (last (b :: String.list_ascii_of_string t)) as [z |] eqn:Hz;
        [exact Hlast |].
      rewrite last_cons in Hz. destruct (last (String.list_ascii_of_string t)); discriminate Hz.
Qed.

(** An operation built on [makeRequest] hands back the receiver that
    [makeRequest] handed back. *)
Lemma makeRequest_hands_back fuel net c ctx method endpoint data params w :
  reading.hands_back c (makeRequest rt fuel net c ctx method endpoint data params w).
Proof. intros r c' w' Hcall. apply (makeRequest_receiver _ _ _ _ _ _ _ _ _ _ _ _ Hcall). Qed.

Ltac receiver_of_makeRequest :=
  intros ? ? ?;
  match goal with
  | |- context [makeRequest ?r ?fuel ?net ?c ?ctx ?m ?e ?d ?p ?w] =>
      let Hcall := fresh "Hcall" in
      destruct (makeRequest r fuel net c ctx m e d p w) as [[[[? [? |]] ?] ?] |] eqn:Hcall;
      try discriminate;
      apply makeRequest_receiver in Hcall; subst;
      repeat match goal with
             | |- context [match ?x with Ok _ => _ | Err _ => _ end] => destruct x
             end;
      intros Heq; injection Heq as _ <- _; reflexivity
  end.

Lemma GetNode_receiver fuel net c ctx nodeID w :
  reading.hands_back c (GetNode rt fuel net c ctx nodeID w).
Proof. unfold GetNode. receiver_of_makeRequest. Qed.

Lemma CreateNode_receiver fuel net c ctx labels properties w :
  reading.hands_back c (CreateNode rt fuel net c ctx labels properties w).
Proof. unfold CreateNode. receiver_of_makeRequest. Qed.

Lemma UpdateNode_receiver fuel net c ctx nodeID labels properties w :
  reading.hands_back c (UpdateNode rt fuel net c ctx nodeID labels properties w).
Proof. unfold UpdateNode. receiver_of_makeRequest. Qed.

Lemma DeleteNode_receiver fuel net c ctx nodeID w :
  reading.hands_back c (DeleteNode rt fuel net c ctx nodeID w).
Proof. unfold DeleteNode. receiver_of_makeRequest. Qed.

Lemma GetEdge_receiver fuel net c ctx edgeID w :
  reading.hands_back c (GetEdge rt fuel net c ctx edgeID w).
Proof. unfold GetEdge. receiver_of_makeRequest. Qed.

Lemma CreateEdge_receiver fuel net c ctx source target edgeType properties w :
  reading.hands_back c (CreateEdge rt fuel net c ctx source target edgeType properties w).
Proof. unfold CreateEdge. receiver_of_makeRequest. Qed.

Lemma UpdateEdge_receiver fuel net c ctx edgeID edgeType properties w :
  reading.hands_back c (UpdateEdge rt fuel net c ctx edgeID edgeType properties w).
Proof. unfold UpdateEdge. receiver_of_makeRequest. Qed.

Lemma DeleteEdge_receiver fuel net c ctx edgeID w :
  reading.hands_back c (DeleteEdge rt fuel net c ctx edgeID w).
Proof. unfold DeleteEdge. receiver_of_makeRequest. Qed.

Lemma RunBFS_receiver fuel net c ctx startNode targetNode maxDepth w :
  reading.hands_back c (RunBFS rt fuel net c ctx startNode targetNode maxDepth w).
Proof. unfold RunBFS. receiver_of_makeRequest. Qed.

Lemma RunDijkstra_receiver fuel net c ctx startNode targetNode w :
  reading.hands_back c (RunDijkstra rt fuel net c ctx startNode targetNode w).
Proof. unfold RunDijkstra. receiver_of_makeRequest. Qed.

Lemma RunPageRank_receiver fuel net c ctx maxIterations tolerance w :
  reading.hands_back c (RunPageRank rt fuel net c ctx maxIterations tolerance w).
Proof. unfold RunPageRank. receiver_of_makeRequest. Qed.

Lemma Query_receiver fuel net c ctx query params w :
  reading.hands_back c (Query rt fuel net c ctx query params w).
Proof. unfold Query. receiver_of_makeRequest. Qed.

Lemma GetStatistics_receiver fuel net c ctx w :
  reading.hands_back c (GetStatistics rt fuel net c ctx w).
Proof. unfold GetStatistics. receiver_of_makeRequest. Qed.

Lemma Health_hands_back fuel net c w :
  reading.hands_back c (Health rt fuel net c w).
Proof. intros err c' w' Hcall. apply (Health_receiver _ _ _ _ _ _ _ Hcall). Qed.

(** C9. The base address of the client that [NewClient] returns is the
    configured one without its trailing slashes: the configured address is
    the stored one followed by slashes only, and the stored one does not end
    in a slash. Every operation hands the receiver, and so its base
    address, back as it got it. *)
Theorem baseURL_trimmed fuel net cfg w c w' :
  NewClient rt fuel net cfg w = Some ((Some c, None), w') ->
  let given := match cfg with None => DefaultConfig | Some given => given end in
  baseURL c = TrimRight (BaseURL given) "/"
  /\ (exists n, BaseURL given = baseURL c +:+ repeat_byte "/" n)
  /\ last_byte (baseURL c) <> Some "/"%char
  /\ (forall fuel1 net' ctx method endpoint data params w1,
        reading.hands_back c
          (makeRequest rt fuel1 net' c ctx method endpoint data params w1))
  /\ (forall fuel1 net' w1, reading.hands_back c (Health rt fuel1 net' c w1))
  /\ (forall fuel1 net' ctx w1 nodeID labels properties,
        reading.hands_back c (GetNode rt fuel1 net' c ctx nodeID w1)
        /\ reading.hands_back c (CreateNode rt fuel1 net' c ctx labels properties w1)
        /\ reading.hands_back c
             (UpdateNode rt fuel1 net' c ctx nodeID labels properties w1)
        /\ reading.hands_back c (DeleteNode rt fuel1 net' c ctx nodeID w1))
  /\ (forall fuel1 net' ctx w1 edgeID source target edgeType properties,
        reading.hands_back c (GetEdge rt fuel1 net' c ctx edgeID w1)
        /\ reading.hands_back c
             (CreateEdge rt fuel1 net' c ctx source target edgeType properties w1)
        /\ reading.hands_back c
             (UpdateEdge rt fuel1 net' c ctx edgeID edgeType properties w1)
        /\ reading.hands_back c (DeleteEdge rt fuel1 net' c ctx edgeID w1))
  /\ (forall fuel1 net' ctx w1 startNode targetNode maxDepth maxIterations tolerance,
        reading.hands_back c
          (RunBFS rt fuel1 net' c ctx startNode targetNode maxDepth w1)
        /\ reading.hands_back c (RunDijkstra rt fuel1 net' c ctx startNode targetNode w1)
        /\ reading.hands_back c
             (RunPageRank rt fuel1 net' c ctx maxIterations tolerance w1))
  /\ (forall fuel1 net' ctx w1 query params,
        reading.hands_back c (Query rt fuel1 net' c ctx query params w1)
        /\ reading.hands_back c (GetStatistics rt fuel1 net' c ctx w1)).
Proof.
  intros Hnew given. apply NewClient_assembles in Hnew. fold given in Hnew. subst c.
  cbn [assemble baseURL].
  destruct (TrimRight_slash (BaseURL given)) as (n & Hs & Hlast).
  split; [reflexivity |]. split; [exists n; exact Hs |]. split; [exact Hlast |].
  split; [intros; apply makeRequest_hands_back |].
  split; [intros; apply Health_hands_back |].
  split; [intros; repeat split |].
  { apply GetNode_receiver. }
  { apply CreateNode_receiver. }
  { apply UpdateNode_receiver. }
  { apply DeleteNode_receiver. }
  split; [intros; repeat split |].
  { apply GetEdge_receiver. }
  { apply CreateEdge_receiver. }
  { apply UpdateEdge_receiver. }
  { apply DeleteEdge_receiver. }
  split; intros; repeat split.
  - apply RunBFS_receiver.
  - apply RunDijkstra_receiver.
  - apply RunPageRank_receiver.
  - apply Query_receiver.
  - apply GetStatistics_receiver.
Qed.

Lemma build_request_ctx c ctx method endpoint data params t req :
  build_request rt c ctx method endpoint data params t = inl req ->
  req_ctx req = ctx.
Proof.
  unfold build_request.
  destruct (0 <? Z.of_nat (size params));
    [destruct (url_Parse rt (baseURL c +:+ endpoint)); [discriminate |] |];
    (destruct data as [v |];
     [destruct (json_Marshal rt v); [| discriminate] |]);
    (destruct (http_NewRequest rt method _); [discriminate |]);
    intros Heq; injection Heq as <-; reflexivity.
Qed.

End ClientProperties.

(** ** Concrete runs *)

Section ConcreteRuns.
Import Go.
Import errors.
Import client.
Import scenario.
Import cases.

Lemma probe_request_built (retries delay : Z) (ctx : Context) :
  build_request rt (assemble (settings retries delay true)) ctx
    "GET" "/health" None ∅ (now start) = inl (probe_request ctx).
Proof. reflexivity. Qed.

Lemma refused_is_retried h req k t : retried (fst (Do rt h refused req k t)) = true.
Proof.
  apply retried_cases. left. apply Do_transport_failure. reflexivity.
Qed.



(** C2, as stated, fails: a status of 101 is neither a transport-level
    failure nor a 3xx status, and it is followed by another attempt. *)
Lemma status_101_is_retried :
  probe 3 switching (settings 1 0 true) Background
  = Some ((None,
           Some (NenDBTimeoutError
                   {| Message := "Request failed after all retries";
                      Details := detail "error" "unexpected status code: 101";
                      Time := 0 |})),
          assemble (settings 1 0 true),
          {| now := 0;
             log := [Sent 0 (Complete 101 "101 Switching Protocols" EmptyString);
                     Slept 0;
                     Sent 1 (Complete 101 "101 Switching Protocols" EmptyString)] |})
  /\ transport_failure (Complete 101 "101 Switching Protocols" EmptyString) = false
  /\ ~ (300 <= 101 < 400).
Proof. split; [reflexivity | split; [reflexivity | lia]]. Qed.

(** The run of the specification: 404 with [{"message":"not found"}]. *)
Lemma makeRequest_status_dispatch_witness :
  build_request rt (assemble (settings 3 Second true)) Background
    "GET" "/health" None ∅ (now start) = inl (probe_request Background)
  /\ exists answers r w',
       probe 5 not_found (settings 3 Second true) Background
         = Some (r, assemble (settings 3 Second true), w')
       /\ log w' = log start ++ schedule Second 0 answers
       /\ forall i code status body,
            answers !! i = Some (Complete code status body) ->
            400 <= code ->
            S i = length answers
            /\ exists e,
                 r = (None, Some (NenDBResponseError e))
                 /\ Message e = response_message rt code status body.
Proof.
  assert (Hbuild : build_request rt (assemble (settings 3 Second true)) Background
                     "GET" "/health" None ∅ (now start) = inl (probe_request Background))
    by reflexivity.
  assert (Hmax : MaxRetries (config (assemble (settings 3 Second true)))
                 < GoInt.max_int64) by reflexivity.
  assert (Hfuel : (budget (assemble (settings 3 Second true)) < 5)%nat)
    by (vm_compute; lia).
  split; [exact Hbuild |].
  destruct (makeRequest_status_dispatch rt 5 not_found (assemble (settings 3 Second true))
              Background "GET" "/health" None ∅ start (probe_request Background) Hbuild)
    as [Hreturns Hdispatch].
  destruct (Hreturns Hmax Hfuel) as (r & w' & Hcall).
  destruct (Hdispatch r _ w' Hcall) as (_ & answers & Hlog & Hstatus & _).
  exists answers, r, w'. split; [exact Hcall |]. split; [exact Hlog |].
  intros i code status body Hi Hcode.
  destruct (Hstatus i code status body Hi) as [Herr _].
  destruct (Herr Hcode) as (Hlast & e & Hr & Hm & _).
  split; [exact Hlast |]. exists e. split; [exact Hr | exact Hm].
Defined.

(** On that run: one attempt, and the error carries "not found". *)
Lemma not_found_run :
  probe 5 not_found (settings 3 Second true) Background
  = Some ((None,
           Some (NenDBResponseError
                   {| Message := "not found";
                      Details := {[ "message" := Some (VString "not found") ]};
                      Time := 0 |})),
          assemble (settings 3 Second true),
          {| now := 0; log := [Sent 0 (Complete 404 "404 Not Found" not_found_body)] |}).
Proof. reflexivity. Qed.

(** C3: under a context cancelled before the call, with two retries a
    second apart and a server that would answer after a millisecond, every
    attempt is given up at once, and yet the call sleeps one and then two
    seconds, and returns three seconds after the cancellation. *)
Lemma backoff_sleep_ignores_cancellation :
  done_at cancelled = Some 0
  /\ now start = 0
  /\ probe 4 healthy (settings 2 Second true) cancelled
     = Some ((None,
              Some (NenDBTimeoutError
                      {| Message := "Request failed after all retries";
                         Details := detail "error" (given_up_text "context canceled");
                         Time := 3 * Second |})),
             assemble (settings 2 Second true),
             {| now := 3 * Second;
                log := [Sent 0 (Unreachable (given_up_text "context canceled"));
                        Slept (1 * Second);
                        Sent 1 (Unreachable (given_up_text "context canceled"));
                        Slept (2 * Second);
                        Sent 2 (Unreachable (given_up_text "context canceled"))] |}).
Proof. repeat split. Qed.



(** C7, as stated, fails. With a [RetryDelay] of [2^62] ns and two retries
    the wait before attempt 2 should last [2^63] ns: the int64 product is
    [-2^63], and the call does not wait at all before that attempt. With a
    [RetryDelay] of minus one second the call does not wait before the
    retry either, where [RetryDelay * 1] is not zero. With
    [MaxRetries = -2] the zero attempts made are more than
    [MaxRetries + 1]. With [MaxRetries] the largest int the attempts have
    no end: whatever the fuel, the loop is still running. *)
Lemma backoff_claim_fails_on_overflow_and_negatives :
  (0 < RetryDelay overflowing /\ 0 < MaxRetries overflowing
   /\ snd <$> probe 4 refused overflowing Background
      = Some {| now := 2 ^ 62;
                log := [Sent 0 (Unreachable "connection refused");
                        Slept (2 ^ 62);
                        Sent 1 (Unreachable "connection refused");
                        Slept (- 2 ^ 63);
                        Sent 2 (Unreachable "connection refused")] |}
   /\ RetryDelay overflowing * 2 <> - 2 ^ 63
   /\ now (Sleep (- 2 ^ 63) start) = now start)
  /\ (snd <$> probe 3 refused (settings 1 (- Second) true) Background
      = Some {| now := 0;
                log := [Sent 0 (Unreachable "connection refused");
                        Slept (- Second);
                        Sent 1 (Unreachable "connection refused")] |}
      /\ RetryDelay (settings 1 (- Second) true) * 1 <> 0)
  /\ (snd <$> probe 1 refused (settings (-2) Second true) Background = Some start
      /\ attempts (log start) = 0%nat
      /\ ~ (Z.of_nat 0 <= MaxRetries (settings (-2) Second true) + 1))
  /\ (forall fuel,
        probe fuel refused (settings GoInt.max_int64 Second true) Background = None).
Proof.
  split; [repeat split; try discriminate; vm_compute; reflexivity |].
  split; [split; [vm_compute; reflexivity | discriminate] |].
  split; [split; [reflexivity | split; [reflexivity | simpl; lia]] |].
  intros fuel.
  apply (makeRequest_never_returns rt fuel refused
           (assemble (settings GoInt.max_int64 Second true)) Background
           "GET" "/health" None ∅ start (probe_request Background)).
  - reflexivity.
  - reflexivity.
  - intros k t. apply refused_is_retried.
Qed.

Lemma makeRequest_backoff_witness :
  build_request rt (assemble (settings 2 Second true)) Background
    "GET" "/health" None ∅ (now start) = inl (probe_request Background)
  /\ MaxRetries (config (assemble (settings 2 Second true))) < GoInt.max_int64
  /\ (budget (assemble (settings 2 Second true)) < 4)%nat
  /\ exists answers r w',
       probe 4 refused (settings 2 Second true) Background
         = Some (r, assemble (settings 2 Second true), w')
       /\ log w' = log start ++ schedule Second 0 answers
       /\ Z.of_nat (attempts (schedule Second 0 answers)) <= 3.
Proof.
  assert (Hbuild : build_request rt (assemble (settings 2 Second true)) Background
                     "GET" "/health" None ∅ (now start) = inl (probe_request Background))
    by reflexivity.
  assert (Hmax : MaxRetries (config (assemble (settings 2 Second true)))
                 < GoInt.max_int64) by reflexivity.
  assert (Hfuel : (budget (assemble (settings 2 Second true)) < 4)%nat)
    by (vm_compute; lia).
  split; [exact Hbuild |]. split; [exact Hmax |]. split; [exact Hfuel |].
  destruct (makeRequest_backoff rt 4 refused (assemble (settings 2 Second true))
              Background "GET" "/health" None ∅ start (probe_request Background)
              Hbuild Hmax Hfuel)
    as (answers & r & w' & Hcall & Hlog & Hn & _).
  exists answers, r, w'. split; [exact Hcall |]. split; [exact Hlog | exact Hn].
Defined.

(** The schedule of that run, with its waits of one and two seconds. *)
Lemma refused_run_schedule :
  snd <$> probe 4 refused (settings 2 Second true) Background
  = Some {| now := 3 * Second;
            log := linear_backoff Second
                     [Unreachable "connection refused";
                      Unreachable "connection refused";
                      Unreachable "connection refused"] |}.
Proof. reflexivity. Qed.

(** The test of the trailing slash. *)
Lemma baseURL_trimmed_witness :
  NewClient rt 1 refused (Some (settings 1 Second true)) start
  = Some ((Some (assemble (settings 1 Second true)), None), start)
  /\ BaseURL (settings 1 Second true) = "http://localhost:9999/"
  /\ baseURL (assemble (settings 1 Second true)) = "http://localhost:9999"
  /\ last_byte (baseURL (assemble (settings 1 Second true))) <> Some "/"%char.
Proof.
  assert (Hnew : NewClient rt 1 refused (Some (settings 1 Second true)) start
                 = Some ((Some (assemble (settings 1 Second true)), None), start))
    by reflexivity.
  split; [exact Hnew |]. split; [reflexivity |].
  destruct (baseURL_trimmed rt 1 refused (Some (settings 1 Second true)) start
              (assemble (settings 1 Second true)) start Hnew)
    as (Htrim & _ & Hlast & _).
  split; [rewrite Htrim; reflexivity | exact Hlast].
Defined.

(** A configuration with nothing set but the address: the client keeps
    the zeros, and a call makes one attempt. *)
Lemma zero_valued_fields_kept_witness :
  NewClient rt 1 healthy (Some zeroed) start = Some ((Some (assemble zeroed), None), start)
  /\ config (assemble zeroed) = zeroed
  /\ http_Timeout (httpClient (assemble zeroed)) = 0
  /\ exists a r w2,
       makeRequest rt 2 refused (assemble zeroed) Background "GET" "/health" None ∅ start
       = Some (r, assemble zeroed, w2)
       /\ log w2 = log start ++ [Sent 0 a].
Proof.
  assert (Hnew : NewClient rt 1 healthy (Some zeroed) start
                 = Some ((Some (assemble zeroed), None), start)) by reflexivity.
  split; [exact Hnew |].
  destruct (zero_valued_fields_kept rt 1 healthy (Some zeroed) start
              (assemble zeroed) start Hnew)
    as (Hcfg & _ & Hone & _ & Hzero).
  split; [exact Hcfg |].
  split; [apply (Hzero eq_refl eq_refl) |].
  assert (Hbuild : build_request rt (assemble zeroed) Background
                     "GET" "/health" None ∅ (now start)
                   = inl {| req_ctx := Background;
                            req_method := "GET";
                            req_url := "http://localhost:9999/health";
                            req_body := None;
                            req_header := [("User-Agent", "nendb-go-driver/0.1.0")] |})
    by reflexivity.
  assert (Hfuel : (1 < 2)%nat) by lia.
  apply (Hone eq_refl 2%nat refused Background "GET" "/health" None ∅ start _ Hfuel Hbuild).
Defined.

End ConcreteRuns.

(** ** More on errors and domain types *)

Section MoreTypesProperties.
Import Go.
Import errors.
Import types.

(** X1. The text of an error made by one of the five constructors is its
    message alone when the details given are nil or empty, and otherwise the
    message, then [" - Details: "], then the rendering of the details; the
    kind and the time stamp do not show. *)
Theorem Error_of_constructed (fmt_map : smap -> string) :
  Forall (fun mk : Z -> string -> option smap -> error =>
            forall t message details,
              Error fmt_map (mk t message details)
              = match details with
                | Some m => if decide (m = ∅) then message
                            else message +:+ " - Details: " +:+ fmt_map m
                | None => message
                end)
         [NewConnectionError; NewTimeoutError; NewValidationError;
          NewAlgorithmError; NewResponseError].
Proof.
  assert (Hnew : forall t message details,
             NenDBError_Error fmt_map (New t message details)
             = match details with
               | Some m => if decide (m = ∅) then message
                           else message +:+ " - Details: " +:+ fmt_map m
               | None => message
               end).
  { intros t message [m |]; unfold NenDBError_Error, New; cbn [Details Message default from_option id].
    - destruct (decide (m = ∅)) as [-> | Hne].
      + reflexivity.
      + assert (Hsize : size m <> 0%nat) by (rewrite map_size_empty_iff; exact Hne).
        destruct (Z.ltb_spec 0 (Z.of_nat (size m))); [reflexivity | lia].
    - reflexivity. }
  repeat constructor; intros t message details; apply Hnew.
Qed.

(** X2. An object that [Validate] accepts is a fixed point of its
    constructor: built again from its own fields, it comes back unchanged
    and without an error. *)
Theorem validated_objects_rebuild :
  (forall n, GraphNode_Validate n = None ->
             NewGraphNode (ID n) (Labels n) (Properties n) = (Some n, None))
  /\ (forall e, GraphEdge_Validate e = None ->
                NewGraphEdge (edge_ID e) (Source e) (Target e) (Type_ e) (edge_Properties e)
                = (Some e, None))
  /\ (forall r, AlgorithmResult_Validate r = None ->
                NewAlgorithmResult (Algorithm r) (Status r) (result_Message r) (Metadata r)
                = (Some r, None)).
Proof.
  split; [| split].
  - intros [id labels properties]. unfold GraphNode_Validate, NewGraphNode. cbn.
    destruct (id <? 0); [discriminate |].
    destruct labels; [| discriminate]. destruct properties; [| discriminate].
    reflexivity.
  - intros [id source target edgeType properties].
    unfold GraphEdge_Validate, NewGraphEdge. cbn.
    destruct (id <? 0); [discriminate |].
    destruct (source <? 0); [discriminate |].
    destruct (target <? 0); [discriminate |].
    case_bool_decide; [discriminate |].
    destruct properties; [| discriminate]. reflexivity.
  - intros [algorithm status message metadata].
    unfold AlgorithmResult_Validate, NewAlgorithmResult. cbn.
    case_bool_decide; [discriminate |]. case_bool_decide; [discriminate |].
    destruct metadata; [| discriminate]. reflexivity.
Qed.

Lemma validated_objects_rebuild_witness :
  NewGraphNode 1 (Some ["Person"]) (Some ∅)
  = (Some {| ID := 1; Labels := Some ["Person"]; Properties := Some ∅ |}, None).
Proof.
  destruct validated_objects_rebuild as (Hnode & _).
  apply (Hnode {| ID := 1; Labels := Some ["Person"]; Properties := Some ∅ |}).
  reflexivity.
Defined.

(** X3. The constructors of the three algorithm results never fail and
    never leave a collection nil; they take the embedded result as it is,
    even nil, and applied to the fields of a result they built they return
    that result. *)
Theorem result_constructors_normalise :
  (forall base visited path depth,
      let r := NewBFSResult base visited path depth in
      VisitedNodes r = Some (default [] visited)
      /\ Path r = Some (default [] path)
      /\ bfs_AlgorithmResult r = base /\ Depth r = depth
      /\ NewBFSResult (bfs_AlgorithmResult r) (VisitedNodes r) (Path r) (Depth r) = r)
  /\ (forall base shortest cost details,
        let r := NewDijkstraResult base shortest cost details in
        ShortestPath r = Some (default [] shortest)
        /\ PathDetails r = Some (default [] details)
        /\ dijkstra_AlgorithmResult r = base /\ TotalCost r = cost
        /\ NewDijkstraResult (dijkstra_AlgorithmResult r) (ShortestPath r) (TotalCost r)
             (PathDetails r) = r)
  /\ (forall base scores iterations convergence,
        let r := NewPageRankResult base scores iterations convergence in
        NodeScores r = Some (default ∅ scores)
        /\ pagerank_AlgorithmResult r = base
        /\ Iterations r = iterations /\ Convergence r = convergence
        /\ NewPageRankResult (pagerank_AlgorithmResult r) (NodeScores r) (Iterations r)
             (Convergence r) = r).
Proof.
  split; [| split].
  - intros base [visited |] [path |] depth; repeat split.
  - intros base [shortest |] cost [details |]; repeat split.
  - intros base [scores |] iterations convergence; repeat split.
Qed.

(** X4. [IsValidPropertyValue] accepts a value exactly when it is nil or
    its kind is one of the fourteen listed: so it rejects also complex
    numbers, [uintptr], arrays, channels and pointers of either sort. *)
Theorem IsValidPropertyValue_exact (value : iface) :
  IsValidPropertyValue value = true
  <-> value = None
      \/ exists v, value = Some v
           /\ In (kind_of v)
                [reflect.String;
                 reflect.Int; reflect.Int8; reflect.Int16; reflect.Int32; reflect.Int64;
                 reflect.Uint; reflect.Uint8; reflect.Uint16; reflect.Uint32; reflect.Uint64;
                 reflect.Float32; reflect.Float64; reflect.Bool].
Proof.
  destruct value as [v |]; [| split; [left; reflexivity | reflexivity]].
  unfold IsValidPropertyValue. split.
  - intros Hok. right. exists v. split; [reflexivity |].
    destruct (kind_of v); try discriminate Hok; simpl; tauto.
  - intros [Hnil | (v' & Heq & Hin)]; [discriminate Hnil |].
    injection Heq as <-.
    destruct (kind_of v); simpl in Hin; try reflexivity;
      repeat (destruct Hin as [Hin | Hin]; [discriminate Hin |]); destruct Hin.
Qed.

(** X5. Neither the constructors nor [Validate] look into the labels or
    the property map: whether an object is accepted does not depend on what
    these collections hold, so a property value that
    [IsValidPropertyValue] rejects passes both. *)
Theorem validation_ignores_contents :
  (forall id labels labels' properties properties',
      GraphNode_Validate {| ID := id; Labels := Some labels; Properties := Some properties |}
      = GraphNode_Validate {| ID := id; Labels := Some labels'; Properties := Some properties' |}
      /\ snd (NewGraphNode id (Some labels) (Some properties))
         = snd (NewGraphNode id (Some labels') (Some properties')))
  /\ (forall id source target edgeType properties properties',
        GraphEdge_Validate {| edge_ID := id; Source := source; Target := target;
                              Type_ := edgeType; edge_Properties := Some properties |}
        = GraphEdge_Validate {| edge_ID := id; Source := source; Target := target;
                                Type_ := edgeType; edge_Properties := Some properties' |}
        /\ snd (NewGraphEdge id source target edgeType (Some properties))
           = snd (NewGraphEdge id source target edgeType (Some properties')))
  /\ (forall key value,
        IsValidPropertyValue value = false ->
        exists n,
          NewGraphNode 0 None (Some {[ key := value ]}) = (Some n, None)
          /\ GraphNode_Validate n = None
          /\ Properties n = Some {[ key := value ]}).
Proof.
  split; [| split].
  - intros id labels labels' properties properties'.
    unfold GraphNode_Validate, NewGraphNode. cbn.
    destruct (id <? 0); split; reflexivity.
  - intros id source target edgeType properties properties'.
    unfold GraphEdge_Validate, NewGraphEdge. cbn.
    destruct (id <? 0); [split; reflexivity |].
    destruct (source <? 0); [split; reflexivity |].
    destruct (target <? 0); [split; reflexivity |].
    case_bool_decide; split; reflexivity.
  - intros key value _. eexists. split; [reflexivity |]. split; reflexivity.
Qed.

Lemma validation_ignores_contents_witness :
  exists n,
    NewGraphNode 0 None (Some {[ "callback" := Some (VFunc (Some 1%positive)) ]})
    = (Some n, None)
    /\ GraphNode_Validate n = None
    /\ Properties n = Some {[ "callback" := Some (VFunc (Some 1%positive)) ]}.
Proof.
  destruct validation_ignores_contents as (_ & _ & Hprop).
  apply (Hprop "callback" (Some (VFunc (Some 1%positive)))). reflexivity.
Defined.

End MoreTypesProperties.

(** ** More on the request pipeline *)

Section MoreClientProperties.
Import Go.
Import errors.
Import client.
Import reading.
Variable rt : Runtime.

Lemma slept_app l1 l2 : slept (l1 ++ l2) = slept l1 + slept l2.
Proof.
  induction l1 as [| e l1 IH]; [reflexivity |].
  simpl. destruct e; simpl in IH; rewrite IH; lia.
Qed.

Lemma slept_nonneg l : 0 <= slept l.
Proof.
  induction l as [| e l IH]; simpl; [lia |]. destruct e; simpl in IH; lia.
Qed.

Lemma cutoff_bounds h ctx t :
  (forall d, done_at ctx = Some d ->
             exists t' text, cutoff h ctx t = Some (t', text) /\ t' <= d)
  /\ (0 < http_Timeout h ->
      exists t' text, cutoff h ctx t = Some (t', text) /\ t' <= t + http_Timeout h).
Proof.
  unfold cutoff. split.
  - intros d ->. destruct (0 <? http_Timeout h).
    + destruct (Z.leb_spec d (t + http_Timeout h)); eexists _, _; split; try reflexivity; lia.
    + eexists _, _; split; [reflexivity | lia].
  - intros Hpos. replace (0 <? http_Timeout h) with true by (symmetry; apply Z.ltb_lt; lia).
    destruct (done_at ctx) as [d |].
    + destruct (Z.leb_spec d (t + http_Timeout h)); eexists _, _; split; try reflexivity; lia.
    + eexists _, _; split; [reflexivity | lia].
Qed.

Lemma Do_cut h net req k t t' text :
  cutoff h (req_ctx req) t = Some (t', text) ->
  snd (Do rt h net req k t) <= Z.max t t'.
Proof.
  intros Hcut. unfold Do. rewrite Hcut.
  destruct (Z.leb_spec t' t); cbn [orb snd]; [lia |].
  destruct (Z.ltb_spec t' (t + Z.max 0 (latency (net req k)))); cbn [snd]; lia.
Qed.

(** How long [Do] takes at most. *)
Lemma Do_bounds h net req k t :
  (forall d, done_at (req_ctx req) = Some d -> snd (Do rt h net req k t) <= Z.max t d)
  /\ (0 < http_Timeout h -> snd (Do rt h net req k t) <= t + http_Timeout h).
Proof.
  destruct (cutoff_bounds h (req_ctx req) t) as [Hctx Hown]. split.
  - intros d Hd. destruct (Hctx d Hd) as (t' & text & Hcut & Hle).
    pose proof (Do_cut h net req k t t' text Hcut). lia.
  - intros Hpos. destruct (Hown Hpos) as (t' & text & Hcut & Hle).
    pose proof (Do_cut h net req k t t' text Hcut). lia.
Qed.

(** One iteration of the loop and the clock. *)
Lemma iteration_time c net req attempt w :
  exists ans t,
    let evs := schedule (RetryDelay (config c)) attempt [ans] in
    let w2 := {| now := t; log := log w ++ evs |} in
    (iteration rt c net req attempt w = Continue (retry_error ans) w2
     \/ exists r, iteration rt c net req attempt w = Return r w2)
    /\ now w + slept evs <= t
    /\ (forall d, done_at (req_ctx req) = Some d -> t <= Z.max (now w + slept evs) d)
    /\ (0 < http_Timeout (httpClient c) ->
        t <= now w + slept evs + http_Timeout (httpClient c)).
Proof.
  unfold iteration.
  destruct (backoff_world attempt (GoInt.mul64 (RetryDelay (config c)) attempt) w)
    as [Hlog Hnow].
  set (w1 := if 0 <? attempt then _ else w) in *. clearbody w1.
  destruct (Do rt (httpClient c) net req attempt (now w1)) as [ans t] eqn:HDo.
  pose proof (Do_time rt (httpClient c) net req attempt (now w1)) as Hlow.
  destruct (Do_bounds (httpClient c) net req attempt (now w1)) as [Hctx Hown].
  rewrite HDo in Hlow, Hctx, Hown. cbn [snd] in Hlow, Hctx, Hown.
  exists ans, t. cbv zeta.
  assert (Hsl : slept (schedule (RetryDelay (config c)) attempt [ans])
                = if 0 <? attempt
                  then Z.max 0 (GoInt.mul64 (RetryDelay (config c)) attempt) else 0).
  { cbn [schedule]. destruct (0 <? attempt); simpl; lia. }
  assert (Hw2 : {| now := t; log := log w1 ++ [Sent attempt ans] |}
                = {| now := t;
                     log := log w ++ schedule (RetryDelay (config c)) attempt [ans] |}).
  { f_equal. rewrite Hlog. cbn [schedule]. rewrite <- app_assoc. reflexivity. }
  rewrite Hw2, Hsl, <- Hnow.
  split; [| split; [exact Hlow | split; [exact Hctx | exact Hown]]].
  destruct ans as [text | code status text | code status body];
    [left; reflexivity | left; reflexivity |].
  destruct ((200 <=? code) && (code <? 300)); [right; eexists; reflexivity |].
  destruct (400 <=? code); [right; eexists; reflexivity | left; reflexivity].
Qed.

(** A run of the loop that returned, and the clock. *)
Lemma retry_loop_for_time c net req :
  forall fuel attempt lastErr w r w',
    retry_loop_for rt c net req fuel attempt lastErr w = Some (r, w') ->
    exists answers,
      let evs := schedule (RetryDelay (config c)) attempt answers in
      log w' = log w ++ evs
      /\ (forall i, (i < length answers)%nat ->
                    counter attempt i <= MaxRetries (config c))
      /\ now w + slept evs <= now w'
      /\ (forall d, done_at (req_ctx req) = Some d -> now w' <= Z.max (now w) d + slept evs)
      /\ (0 < http_Timeout (httpClient c) ->
          now w' <= now w + slept evs
                    + Z.of_nat (length answers) * http_Timeout (httpClient c)).
Proof.
  induction fuel as [| fuel IH]; intros attempt lastErr w r w' Hrun; [discriminate Hrun |].
  cbn [retry_loop_for] in Hrun.
  destruct (Z.leb_spec attempt (MaxRetries (config c))) as [Hle | Hgt].
  - destruct (iteration_time c net req attempt w)
      as (ans & t & Hstep & Hlow & Hctx & Hown).
    cbv zeta in Hstep, Hlow, Hctx, Hown.
    pose proof (slept_nonneg (schedule (RetryDelay (config c)) attempt [ans])) as Hs1.
    destruct Hstep as [Hit | [r0 Hit]]; rewrite Hit in Hrun.
    + destruct (IH _ _ _ _ _ Hrun) as (answers & Hlog' & Hcount & Hlow' & Hctx' & Hown').
      cbv zeta in Hlog', Hlow', Hctx', Hown'. cbn [now log] in *.
      pose proof (slept_nonneg
                    (schedule (RetryDelay (config c)) (GoInt.incr attempt) answers))
        as Hs2.
      exists (ans :: answers). cbv zeta.
      rewrite (schedule_cons _ _ ans answers), slept_app, Hlog', <- app_assoc.
      split; [reflexivity |].
      split; [intros [| i] Hi; [exact Hle | apply Hcount; simpl in Hi; lia] |].
      split; [lia |].
      split.
      * intros d Hd. specialize (Hctx d Hd). specialize (Hctx' d Hd). lia.
      * intros Hpos. specialize (Hown Hpos). specialize (Hown' Hpos).
        cbn [length]. nia.
    + injection Hrun as <- <-.
      exists [ans]. cbv zeta. cbn [now log length].
      split; [reflexivity |].
      split; [intros [| i] Hi; [exact Hle | simpl in Hi; lia] |].
      split; [lia |].
      split.
      * intros d Hd. specialize (Hctx d Hd). lia.
      * intros Hpos. specialize (Hown Hpos). lia.
  - injection Hrun as <- <-. exists []. cbn. rewrite app_nil_r.
    split; [reflexivity |]. split; [intros i Hi; lia |].
    repeat split; intros; lia.
Qed.

(** The log and the clock after a call of [makeRequest] that returned. *)
Lemma makeRequest_clock fuel net c ctx method endpoint data params w r c' w' :
  makeRequest rt fuel net c ctx method endpoint data params w = Some (r, c', w') ->
  c' = c
  /\ exists answers,
       let evs := schedule (RetryDelay (config c)) 0 answers in
       log w' = log w ++ evs
       /\ (MaxRetries (config c) < GoInt.max_int64 -> (length answers <= budget c)%nat)
       /\ now w + slept evs <= now w'
       /\ (forall d, done_at ctx = Some d -> now w' <= Z.max (now w) d + slept evs)
       /\ (0 < http_Timeout (httpClient c) ->
           now w' <= now w + slept evs
                     + Z.of_nat (length answers) * http_Timeout (httpClient c)).
Proof.
  unfold makeRequest.
  destruct (build_request rt c ctx method endpoint data params (now w))
    as [req | e] eqn:Hbuild.
  - destruct (retry_loop_for rt c net req fuel 0 None w) as [[r0 w0] |] eqn:Hrun;
      [| discriminate].
    intros Heq. injection Heq as <- <- <-. split; [reflexivity |].
    destruct (retry_loop_for_time c net req _ _ _ _ _ _ Hrun)
      as (answers & Hlog & Hcount & Hlow & Hctx & Hown).
    rewrite (build_request_ctx rt _ _ _ _ _ _ _ _ Hbuild) in Hctx.
    exists answers. cbv zeta in *.
    split; [exact Hlog |].
    split; [| split; [exact Hlow | split; [exact Hctx | exact Hown]]].
    intros Hmax.
    destruct (bounded_run c 0 answers Hmax) as [Hlen _];
      [unfold GoInt.max_int64; lia | exact Hcount |].
    unfold budget. rewrite Z.sub_0_r in Hlen. exact Hlen.
  - intros Heq. injection Heq as <- <- <-. split; [reflexivity |].
    exists []. cbn. rewrite app_nil_r.
    split; [reflexivity |]. split; [intros; lia |].
    repeat split; intros; lia.
Qed.





(** The error of a request that cannot be built. *)
Lemma build_request_error c ctx method endpoint data params t e :
  build_request rt c ctx method endpoint data params t = inr e ->
  exists b,
    e = NenDBValidationError b
    /\ Time b = t
    /\ ((Message b = "Invalid URL"
         /\ params <> ∅
         /\ exists text,
              url_Parse rt (baseURL c +:+ endpoint) = Some text
              /\ Details b
                 = <["url" := Some (VString (baseURL c +:+ endpoint))]> (detail "error" text))
        \/ (Message b = "Failed to marshal request data"
            /\ exists v text,
                 data = Some v /\ json_Marshal rt v = Err text
                 /\ Details b = detail "error" text)
        \/ (Message b = "Failed to create request"
            /\ exists text, Details b = detail "error" text)).
Proof.
  unfold build_request.
  destruct (Z.ltb_spec 0 (Z.of_nat (size params))) as [Hsome | Hnone].
  - destruct (url_Parse rt (baseURL c +:+ endpoint)) as [text |] eqn:Hparse.
    + intros Heq. injection Heq as <-. eexists. split; [reflexivity |].
      split; [reflexivity |]. left. split; [reflexivity |]. split.
      * intros ->. rewrite map_size_empty in Hsome. lia.
      * exists text. split; reflexivity.
    + destruct data as [v |]; [destruct (json_Marshal rt v) as [j | text] eqn:Hm |].
      * destruct (http_NewRequest rt method _) as [text |]; [| discriminate].
        intros Heq. injection Heq as <-. eexists. split; [reflexivity |].
        split; [reflexivity |]. right. right. split; [reflexivity |]. eexists. reflexivity.
      * intros Heq. injection Heq as <-. eexists. split; [reflexivity |].
        split; [reflexivity |]. right. left. split; [reflexivity |].
        exists v, text. repeat split. exact Hm.
      * destruct (http_NewRequest rt method _) as [text |]; [| discriminate].
        intros Heq. injection Heq as <-. eexists. split; [reflexivity |].
        split; [reflexivity |]. right. right. split; [reflexivity |]. eexists. reflexivity.
  - destruct data as [v |]; [destruct (json_Marshal rt v) as [j | text] eqn:Hm |].
    + destruct (http_NewRequest rt method _) as [text |]; [| discriminate].
      intros Heq. injection Heq as <-. eexists. split; [reflexivity |].
      split; [reflexivity |]. right. right. split; [reflexivity |]. eexists. reflexivity.
    + intros Heq. injection Heq as <-. eexists. split; [reflexivity |].
      split; [reflexivity |]. right. left. split; [reflexivity |].
      exists v, text. repeat split. exact Hm.
    + destruct (http_NewRequest rt method _) as [text |]; [| discriminate].
      intros Heq. injection Heq as <-. eexists. split; [reflexivity |].
      split; [reflexivity |]. right. right. split; [reflexivity |]. eexists. reflexivity.
Qed.

(** X8. When the request cannot be built, [makeRequest] returns at once,
    whatever the fuel, with a validation-kind error stamped with the time
    of the call: no attempt is made, nothing is slept and the clock does
    not move. The URL is checked first (only when there are query
    parameters), then the body, then the request itself. *)
Theorem unbuilt_request_sends_nothing fuel net c ctx method endpoint data params w e :
  build_request rt c ctx method endpoint data params (now w) = inr e ->
  makeRequest rt fuel net c ctx method endpoint data params w = Some ((None, Some e), c, w)
  /\ exists b,
       e = NenDBValidationError b
       /\ Time b = now w
       /\ ((Message b = "Invalid URL"
            /\ params <> ∅
            /\ exists text,
                 url_Parse rt (baseURL c +:+ endpoint) = Some text
                 /\ Details b
                    = <["url" := Some (VString (baseURL c +:+ endpoint))]>
                        (detail "error" text))
           \/ (Message b = "Failed to marshal request data"
               /\ exists v text,
                    data = Some v /\ json_Marshal rt v = Err text
                    /\ Details b = detail "error" text)
           \/ (Message b = "Failed to create request"
               /\ exists text, Details b = detail "error" text)).
Proof.
  intros Hbuild. split.
  - unfold makeRequest. rewrite Hbuild. reflexivity.
  - apply (build_request_error _ _ _ _ _ _ _ _ Hbuild).
Qed.




(** What [NewClient] returns. *)
Lemma NewClient_dichotomy fuel net cfg w r w' :
  let given := match cfg with None => DefaultConfig | Some given => given end in
  NewClient rt fuel net cfg w = Some (r, w') ->
  (r = (Some (assemble given), None)
   /\ (SkipValidation given = true -> w' = w)
   /\ (SkipValidation given = false ->
       Health rt fuel net (assemble given) w = Some (None, assemble given, w')))
  \/ (exists e cause,
        r = (None, Some (NenDBConnectionError e))
        /\ SkipValidation given = false
        /\ Health rt fuel net (assemble given) w = Some (Some cause, assemble given, w')
        /\ Message e
           = "Failed to connect to NenDB server at " +:+ TrimRight (BaseURL given) "/"
        /\ Details e = detail "error" (Error rt cause)
        /\ Time e = now w').
Proof.
  intros given. rewrite NewClient_cases. fold given.
  destruct (SkipValidation given); cbn [negb].
  - intros Heq. injection Heq as <- <-.
    left. split; [reflexivity |]. split; [reflexivity | discriminate].
  - destruct (Health rt fuel net (assemble given) w) as [[[err c0] w0] |] eqn:Hhealth;
      [| discriminate].
    apply Health_receiver in Hhealth as Hc. subst c0.
    destruct err as [cause |]; intros Heq; injection Heq as <- <-.
    + right. exists (New (now w0)
                       ("Failed to connect to NenDB server at " +:+ baseURL (assemble given))
                       (Some (detail "error" (Error rt cause)))), cause.
      repeat split.
    + left. split; [reflexivity |]. split; [discriminate | reflexivity].
Qed.

Lemma NewClient_returns fuel net cfg w :
  let given := match cfg with None => DefaultConfig | Some given => given end in
  MaxRetries given < GoInt.max_int64 ->
  (budget (assemble given) < fuel)%nat ->
  exists r w', NewClient rt fuel net cfg w = Some (r, w').
Proof.
  intros given Hmax Hfuel. rewrite NewClient_cases. fold given.
  destruct (SkipValidation given); cbn [negb]; [eexists _, _; reflexivity |].
  destruct (Health_returns rt fuel net (assemble given) w Hmax Hfuel)
    as (err & w' & ->).
  destruct err; eexists _, _; reflexivity.
Qed.

(** X10. [NewClient] returns when [MaxRetries] is below the largest int, and
    whenever the health probe is skipped. It returns a client or an error,
    never both and never neither. The client is the one assembled from the
    configuration; the error is of connection kind, arises only when the
    health probe was run and failed, names the trimmed address in its
    message and carries the text of the probe's error. *)
Theorem NewClient_client_xor_error fuel net cfg w :
  let given := match cfg with None => DefaultConfig | Some given => given end in
  (MaxRetries given < GoInt.max_int64 ->
   (budget (assemble given) < fuel)%nat ->
   exists r w', NewClient rt fuel net cfg w = Some (r, w'))
  /\ (SkipValidation given = true ->
      exists r w', NewClient rt fuel net cfg w = Some (r, w'))
  /\ forall r w',
       NewClient rt fuel net cfg w = Some (r, w') ->
       (r = (Some (assemble given), None)
        /\ (SkipValidation given = true -> w' = w)
        /\ (SkipValidation given = false ->
            Health rt fuel net (assemble given) w = Some (None, assemble given, w')))
       \/ (exists e cause,
             r = (None, Some (NenDBConnectionError e))
             /\ SkipValidation given = false
             /\ Health rt fuel net (assemble given) w
                = Some (Some cause, assemble given, w')
             /\ Message e
                = "Failed to connect to NenDB server at "
                  +:+ TrimRight (BaseURL given) "/"
             /\ Details e = detail "error" (Error rt cause)
             /\ Time e = now w').
Proof.
  intros given. split; [apply NewClient_returns |]. split.
  - intros Hskip. rewrite NewClient_cases. fold given. rewrite Hskip.
    eexists _, _. reflexivity.
  - intros r w' Hnew.
    destruct (NewClient_dichotomy fuel net cfg w r w' Hnew) as [Hclient | Herror].
    + left. exact Hclient.
    + right. exact Herror.
Qed.

(** An attempt that is answered within every deadline. *)
Lemma Do_in_time h net req k t :
  (forall d, done_at (req_ctx req) = Some d ->
             t < d /\ t + Z.max 0 (latency (net req k)) <= d) ->
  (http_Timeout h <= 0 \/ latency (net req k) <= http_Timeout h) ->
  Do rt h net req k t = (answer (net req k), t + Z.max 0 (latency (net req k))).
Proof.
  intros Hctx Hown. unfold Do.
  destruct (cutoff h (req_ctx req) t) as [[t' text] |] eqn:Hcut; [| reflexivity].
  assert (Hok : t < t' /\ t + Z.max 0 (latency (net req k)) <= t').
  { unfold cutoff in Hcut.
    destruct (done_at (req_ctx req)) as [d |].
    - destruct (Hctx d eq_refl) as [Hd1 Hd2].
      destruct (Z.ltb_spec 0 (http_Timeout h)).
      + destruct (Z.leb_spec d (t + http_Timeout h));
          injection Hcut as <- _; lia.
      + injection Hcut as <- _. lia.
    - destruct (Z.ltb_spec 0 (http_Timeout h)); [| discriminate Hcut].
      injection Hcut as <- _. lia. }
  replace (t' <=? t) with false by (symmetry; apply Z.leb_gt; lia).
  replace (t' <? t + Z.max 0 (latency (net req k))) with false
    by (symmetry; apply Z.ltb_ge; lia).
  reflexivity.
Qed.


(** X11. With the health probe on, a retry budget that is not negative and
    a positive timeout, [NewClient] returns the client as soon as the first
    attempt of [GET /health] is answered with a status in 200..299 within
    the timeouts: it makes that one attempt, sleeps nothing, and takes
    exactly the latency of the answer. *)
Theorem NewClient_connects fuel net cfg w code status body :
  let c := assemble cfg in
  let req :=
    {| req_ctx := {| done_at := Some (now w + Timeout cfg);
                     done_err := "context deadline exceeded" |};
       req_method := "GET";
       req_url := baseURL c +:+ "/health";
       req_body := None;
       req_header := [("User-Agent", "nendb-go-driver/0.1.0")] |} in
  (0 < fuel)%nat ->
  SkipValidation cfg = false ->
  0 <= MaxRetries cfg ->
  0 < Timeout cfg ->
  http_NewRequest rt "GET" (baseURL c +:+ "/health") = None ->
  answer (net req 0) = Complete code status body ->
  200 <= code < 300 ->
  latency (net req 0) <= Timeout cfg ->
  http_Timeout (httpClient c) <= 0 \/ latency (net req 0) <= http_Timeout (httpClient c) ->
  NewClient rt fuel net (Some cfg) w
  = Some ((Some c, None),
          {| now := now w + Z.max 0 (latency (net req 0));
             log := log w ++ [Sent 0 (Complete code status body)] |}).
Proof.
  intros c req Hfuel Hskip Hretries Htimeout Hnew Hans Hcode Hlat Hown.
  rewrite NewClient_cases. cbv zeta. rewrite Hskip. cbn [negb]. fold c.
  unfold Health, WithTimeout, Background. cbn [done_at].
  change (Timeout (config c)) with (Timeout cfg).
  unfold makeRequest.
  assert (Hbuild : build_request rt c
                     {| done_at := Some (now w + Timeout cfg);
                        done_err := "context deadline exceeded" |}
                     "GET" "/health" None ∅ (now w) = inl req).
  { unfold build_request. rewrite map_size_empty.
    change (0 <? Z.of_nat 0) with false. cbv iota. rewrite Hnew. reflexivity. }
  rewrite Hbuild.
  change (MaxRetries (config c)) with (MaxRetries cfg).
  destruct fuel as [| fuel]; [lia |].
  cbn [retry_loop_for].
  change (MaxRetries (config c)) with (MaxRetries cfg).
  replace (0 <=? MaxRetries cfg) with true by (symmetry; apply Z.leb_le; lia).
  unfold iteration. cbn [Z.ltb Z.compare].
  rewrite (Do_in_time (httpClient c) net req 0 (now w)).
  - rewrite Hans.
    replace ((200 <=? code) && (code <? 300)) with true
      by (symmetry; apply andb_true_iff; split; [apply Z.leb_le | apply Z.ltb_lt]; lia).
    reflexivity.
  - intros d Hd. cbn in Hd. injection Hd as <-. lia.
  - exact Hown.
Qed.





(** A run in which every attempt is answered by an answer that is
    retried. *)
Lemma retried_run fuel net c ctx method endpoint data params w req :
  build_request rt c ctx method endpoint data params (now w) = inl req ->
  0 <= MaxRetries (config c) ->
  (forall k, retried (answer (net req k)) = true) ->
  (MaxRetries (config c) < GoInt.max_int64 ->
   (budget c < fuel)%nat ->
   exists answers final e w',
     makeRequest rt fuel net c ctx method endpoint data params w
       = Some ((None, Some (NenDBTimeoutError e)), c, w')
     /\ log w' = log w ++ schedule (RetryDelay (config c)) 0 answers
     /\ Z.of_nat (length answers) = MaxRetries (config c) + 1
     /\ last answers = Some final
     /\ retried final = true
     /\ Message e = "Request failed after all retries"
     /\ Details e = detail "error" (Error rt (retry_error final))
     /\ (forall code status body,
           final = Complete code status body ->
           Details e = detail "error" ("unexpected status code: " +:+ pretty code))
     /\ Time e = now w')
  /\ (MaxRetries (config c) = GoInt.max_int64 ->
      makeRequest rt fuel net c ctx method endpoint data params w = None).
Proof.
  intros Hbuild Hretries Hnet. split.
  - intros Hmax Hfuel.
    destruct (makeRequest_run rt fuel net c ctx method endpoint data params w req
                Hbuild Hmax Hfuel)
      as (answers & r & w' & Hcall & _ & Hfrom & _ & Hlog & Hcases).
    assert (Hall : Forall (fun a => retried a = true) answers).
    { apply (from_network_Forall rt c net req (now w) (fun a => retried a = true))
        with (k := 0); [| exact Hfrom].
      intros k t _. apply Do_retried, Hnet. }
    destruct (budget_bound c Hmax) as [Hbudget _].
    destruct Hcases as [(_ & Hlen & ->) | (init & code & status & body & -> & _ & Hr)].
    + destruct (last answers) as [final |] eqn:Hlast.
      * assert (Hfinal : retried final = true).
        { rewrite Forall_forall in Hall. apply Hall.
          apply (last_Some_elem_of _ _ Hlast). }
        unfold exhausted, last_error in Hcall. rewrite Hlast in Hcall.
        exists answers, final. eexists _, w'. split; [exact Hcall |].
        split; [exact Hlog |]. split; [lia |]. split; [exact Hlast |].
        split; [exact Hfinal |]. split; [reflexivity |]. split; [reflexivity |].
        split; [| reflexivity].
        intros code status body ->. reflexivity.
      * apply last_None in Hlast. subst answers. simpl in Hlen. lia.
    + apply Forall_app in Hall as [_ Hlast]. inversion Hlast as [| ? ? Hre _].
      apply retried_complete in Hre. destruct Hr as [[Hc _] | [Hc _]]; lia.
  - intros Hmax.
    apply (makeRequest_never_returns rt fuel net c ctx method endpoint data params w req
             Hbuild Hmax).
    intros k t. apply Do_retried, Hnet.
Qed.

(** X13. When every attempt is answered by a failure of the transport or by
    a status below 200 or in 300..399, a call with a retry budget that is
    not negative and below the largest int makes [MaxRetries + 1] attempts
    and returns a timeout-kind error stamped with the end of the call,
    whose details carry the text of the failure of the last attempt: for a
    status, "unexpected status code:" and the code. With [MaxRetries] the
    largest int the call never returns. *)
Theorem exhaustion_reports_last_failure
    fuel net c ctx method endpoint data params w req :
  build_request rt c ctx method endpoint data params (now w) = inl req ->
  0 <= MaxRetries (config c) ->
  (forall k, retried (answer (net req k)) = true) ->
  (MaxRetries (config c) < GoInt.max_int64 ->
   (budget c < fuel)%nat ->
   exists answers final e w',
     makeRequest rt fuel net c ctx method endpoint data params w
       = Some ((None, Some (NenDBTimeoutError e)), c, w')
     /\ log w' = log w ++ schedule (RetryDelay (config c)) 0 answers
     /\ Z.of_nat (length answers) = MaxRetries (config c) + 1
     /\ last answers = Some final
     /\ retried final = true
     /\ Message e = "Request failed after all retries"
     /\ Details e = detail "error" (Error rt (retry_error final))
     /\ (forall code status body,
           final = Complete code status body ->
           Details e = detail "error" ("unexpected status code: " +:+ pretty code))
     /\ Time e = now w')
  /\ (MaxRetries (config c) = GoInt.max_int64 ->
      makeRequest rt fuel net c ctx method endpoint data params w = None).
Proof.
  intros Hbuild Hretries Hnet.
  destruct (retried_run fuel net c ctx method endpoint data params w req
              Hbuild Hretries Hnet) as [Hbounded Hnever].
  split; [exact Hbounded | exact Hnever].
Qed.

(** X14. An answer of status 400 or above to the first attempt ends the
    call there. When its body is a JSON object with a string under
    ["message"], the error returned is made of that message, of the whole
    object as details and of the time of the answer: the status code and
    the status line are not in it. *)
Theorem response_error_keeps_body_drops_status
    fuel net c ctx method endpoint data params w req code status body m msg :
  (0 < fuel)%nat ->
  build_request rt c ctx method endpoint data params (now w) = inl req ->
  0 <= MaxRetries (config c) ->
  fst (Do rt (httpClient c) net req 0 (now w)) = Complete code status body ->
  400 <= code ->
  json_Unmarshal_map rt body = Ok (Some m) ->
  m !! "message" = Some (Some (VString msg)) ->
  makeRequest rt fuel net c ctx method endpoint data params w
  = Some ((None,
           Some (NenDBResponseError
                   {| Message := msg; Details := m;
                      Time := snd (Do rt (httpClient c) net req 0 (now w)) |})),
          c,
          {| now := snd (Do rt (httpClient c) net req 0 (now w));
             log := log w ++ [Sent 0 (Complete code status body)] |}).
Proof.
  intros Hfuel Hbuild Hretries HDo Hcode Hbody Hmsg.
  unfold makeRequest. rewrite Hbuild.
  destruct fuel as [| fuel]; [lia |].
  cbn [retry_loop_for].
  replace (0 <=? MaxRetries (config c)) with true by (symmetry; apply Z.leb_le; lia).
  unfold iteration. cbn [Z.ltb Z.compare].
  destruct (Do rt (httpClient c) net req 0 (now w)) as [ans t]. cbn [fst snd] in *.
  subst ans.
  replace ((200 <=? code) && (code <? 300)) with false
    by (symmetry; apply andb_false_iff; right; apply Z.ltb_ge; lia).
  replace (400 <=? code) with true by (symmetry; apply Z.leb_le; lia).
  unfold response_error. rewrite Hbody. cbn [mbind option_bind]. rewrite Hmsg.
  reflexivity.
Qed.


Ltac through_of_makeRequest :=
  cbv zeta; unfold through, through_error;
  match goal with
  | |- context [makeRequest ?r ?fuel ?net ?c ?ctx ?m ?e ?d ?p ?w] =>
      destruct (makeRequest r fuel net c ctx m e d p w) as [[[[? [? |]] ?] ?] |];
      [ first [ reflexivity
              | eexists; split; [reflexivity |];
                let Heq := fresh "Heq" in
                intros ? Heq; injection Heq as <-; reflexivity ]
      | first [ reflexivity
              | repeat match goal with
                       | |- context [match ?x with Ok _ => _ | Err _ => _ end] =>
                           destruct x
                       end;
                eexists; (split; [reflexivity |]); intros ? ?; discriminate ]
      | reflexivity ]
  end.

Lemma GetNode_through fuel net c ctx nodeID w :
  through
    (makeRequest rt fuel net c ctx "GET" ("/nodes/" +:+ pretty nodeID) None ∅ w)
    (GetNode rt fuel net c ctx nodeID w).
Proof. unfold GetNode. through_of_makeRequest. Qed.

Lemma CreateNode_through fuel net c ctx labels properties w :
  exists data,
    through (makeRequest rt fuel net c ctx "POST" "/nodes" data ∅ w)
      (CreateNode rt fuel net c ctx labels properties w).
Proof.
  unfold CreateNode. cbv zeta.
  match goal with |- context [makeRequest _ _ _ _ _ _ _ ?d _ _] => exists d end.
  through_of_makeRequest.
Qed.

Lemma UpdateNode_through fuel net c ctx nodeID labels properties w :
  exists data,
    through
      (makeRequest rt fuel net c ctx "PUT" ("/nodes/" +:+ pretty nodeID) data ∅ w)
      (UpdateNode rt fuel net c ctx nodeID labels properties w).
Proof.
  unfold UpdateNode. cbv zeta.
  match goal with |- context [makeRequest _ _ _ _ _ _ _ ?d _ _] => exists d end.
  through_of_makeRequest.
Qed.

Lemma DeleteNode_through fuel net c ctx nodeID w :
  through_error
    (makeRequest rt fuel net c ctx "DELETE" ("/nodes/" +:+ pretty nodeID) None ∅ w)
    (DeleteNode rt fuel net c ctx nodeID w).
Proof. unfold DeleteNode. through_of_makeRequest. Qed.

Lemma GetEdge_through fuel net c ctx edgeID w :
  through
    (makeRequest rt fuel net c ctx "GET" ("/edges/" +:+ pretty edgeID) None ∅ w)
    (GetEdge rt fuel net c ctx edgeID w).
Proof. unfold GetEdge. through_of_makeRequest. Qed.

Lemma CreateEdge_through fuel net c ctx source target edgeType properties w :
  exists data,
    through (makeRequest rt fuel net c ctx "POST" "/edges" data ∅ w)
      (CreateEdge rt fuel net c ctx source target edgeType properties w).
Proof.
  unfold CreateEdge. cbv zeta.
  match goal with |- context [makeRequest _ _ _ _ _ _ _ ?d _ _] => exists d end.
  through_of_makeRequest.
Qed.

Lemma UpdateEdge_through fuel net c ctx edgeID edgeType properties w :
  exists data,
    through
      (makeRequest rt fuel net c ctx "PUT" ("/edges/" +:+ pretty edgeID) data ∅ w)
      (UpdateEdge rt fuel net c ctx edgeID edgeType properties w).
Proof.
  unfold UpdateEdge. cbv zeta.
  match goal with |- context [makeRequest _ _ _ _ _ _ _ ?d _ _] => exists d end.
  through_of_makeRequest.
Qed.

Lemma DeleteEdge_through fuel net c ctx edgeID w :
  through_error
    (makeRequest rt fuel net c ctx "DELETE" ("/edges/" +:+ pretty edgeID) None ∅ w)
    (DeleteEdge rt fuel net c ctx edgeID w).
Proof. unfold DeleteEdge. through_of_makeRequest. Qed.

Lemma RunBFS_through fuel net c ctx startNode targetNode maxDepth w :
  exists data,
    through (makeRequest rt fuel net c ctx "POST" "/algorithms/bfs" data ∅ w)
      (RunBFS rt fuel net c ctx startNode targetNode maxDepth w).
Proof.
  unfold RunBFS. cbv zeta.
  match goal with |- context [makeRequest _ _ _ _ _ _ _ ?d _ _] => exists d end.
  through_of_makeRequest.
Qed.

Lemma RunDijkstra_through fuel net c ctx startNode targetNode w :
  exists data,
    through (makeRequest rt fuel net c ctx "POST" "/algorithms/dijkstra" data ∅ w)
      (RunDijkstra rt fuel net c ctx startNode targetNode w).
Proof.
  unfold RunDijkstra. cbv zeta.
  match goal with |- context [makeRequest _ _ _ _ _ _ _ ?d _ _] => exists d end.
  through_of_makeRequest.
Qed.

Lemma RunPageRank_through fuel net c ctx maxIterations tolerance w :
  exists data,
    through (makeRequest rt fuel net c ctx "POST" "/algorithms/pagerank" data ∅ w)
      (RunPageRank rt fuel net c ctx maxIterations tolerance w).
Proof.
  unfold RunPageRank. cbv zeta.
  match goal with |- context [makeRequest _ _ _ _ _ _ _ ?d _ _] => exists d end.
  through_of_makeRequest.
Qed.

Lemma Query_through fuel net c ctx query params w :
  exists data,
    through (makeRequest rt fuel net c ctx "POST" "/query" data ∅ w)
      (Query rt fuel net c ctx query params w).
Proof.
  unfold Query. cbv zeta.
  match goal with |- context [makeRequest _ _ _ _ _ _ _ ?d _ _] => exists d end.
  through_of_makeRequest.
Qed.

Lemma GetStatistics_through fuel net c ctx w :
  through (makeRequest rt fuel net c ctx "GET" "/statistics" None ∅ w)
    (GetStatistics rt fuel net c ctx w).
Proof. unfold GetStatistics. through_of_makeRequest. Qed.

Lemma Health_through fuel net c w :
  through_error
    (makeRequest rt fuel net c (WithTimeout Background (Timeout (config c)) (now w))
       "GET" "/health" None ∅ w)
    (Health rt fuel net c w).
Proof. unfold Health. through_of_makeRequest. Qed.

(** What a call of [makeRequest] that returned left behind. *)
Lemma makeRequest_one_call fuel net c ctx method endpoint data params w r c' w' :
  makeRequest rt fuel net c ctx method endpoint data params w = Some (r, c', w') ->
  c' = c /\ at_most_one_call c w w'.
Proof.
  intros Hcall.
  destruct (makeRequest_log rt _ _ _ _ _ _ _ _ _ _ _ _ Hcall) as (Hc & Hone).
  split; [exact Hc | exact Hone].
Qed.

(** X16. Every operation of the client is one call of [makeRequest], with
    the context it was given, and nothing more: [GetNode] is
    [GET /nodes/<id>], [CreateNode] is [POST /nodes], [UpdateNode] is
    [PUT /nodes/<id>], [DeleteNode] is [DELETE /nodes/<id>], and likewise
    for edges; the algorithms are [POST /algorithms/bfs], [.../dijkstra] and
    [.../pagerank]; [Query] is [POST /query], [GetStatistics] is
    [GET /statistics] and [Health] is [GET /health] under a deadline of its
    own. The operation returns when that call does, with the client and the
    world the call left, and with the error of the call if there is one: a
    response that cannot be decoded is not asked for again. A call that
    returns leaves the client as it was and appends to the log the schedule
    of a series of attempts, of at most [MaxRetries + 1] when [MaxRetries]
    is below the largest int. *)
Theorem operations_make_one_call fuel net c ctx w :
  (forall nodeID,
      through
        (makeRequest rt fuel net c ctx "GET" ("/nodes/" +:+ pretty nodeID) None ∅ w)
        (GetNode rt fuel net c ctx nodeID w))
  /\ (forall labels properties,
        exists data,
          through (makeRequest rt fuel net c ctx "POST" "/nodes" data ∅ w)
            (CreateNode rt fuel net c ctx labels properties w))
  /\ (forall nodeID labels properties,
        exists data,
          through
            (makeRequest rt fuel net c ctx "PUT" ("/nodes/" +:+ pretty nodeID) data ∅ w)
            (UpdateNode rt fuel net c ctx nodeID labels properties w))
  /\ (forall nodeID,
        through_error
          (makeRequest rt fuel net c ctx "DELETE" ("/nodes/" +:+ pretty nodeID) None ∅ w)
          (DeleteNode rt fuel net c ctx nodeID w))
  /\ (forall edgeID,
        through
          (makeRequest rt fuel net c ctx "GET" ("/edges/" +:+ pretty edgeID) None ∅ w)
          (GetEdge rt fuel net c ctx edgeID w))
  /\ (forall source target edgeType properties,
        exists data,
          through (makeRequest rt fuel net c ctx "POST" "/edges" data ∅ w)
            (CreateEdge rt fuel net c ctx source target edgeType properties w))
  /\ (forall edgeID edgeType properties,
        exists data,
          through
            (makeRequest rt fuel net c ctx "PUT" ("/edges/" +:+ pretty edgeID) data ∅ w)
            (UpdateEdge rt fuel net c ctx edgeID edgeType properties w))
  /\ (forall edgeID,
        through_error
          (makeRequest rt fuel net c ctx "DELETE" ("/edges/" +:+ pretty edgeID) None ∅ w)
          (DeleteEdge rt fuel net c ctx edgeID w))
  /\ (forall startNode targetNode maxDepth,
        exists data,
          through (makeRequest rt fuel net c ctx "POST" "/algorithms/bfs" data ∅ w)
            (RunBFS rt fuel net c ctx startNode targetNode maxDepth w))
  /\ (forall startNode targetNode,
        exists data,
          through (makeRequest rt fuel net c ctx "POST" "/algorithms/dijkstra" data ∅ w)
            (RunDijkstra rt fuel net c ctx startNode targetNode w))
  /\ (forall maxIterations tolerance,
        exists data,
          through (makeRequest rt fuel net c ctx "POST" "/algorithms/pagerank" data ∅ w)
            (RunPageRank rt fuel net c ctx maxIterations tolerance w))
  /\ (forall query params,
        exists data,
          through (makeRequest rt fuel net c ctx "POST" "/query" data ∅ w)
            (Query rt fuel net c ctx query params w))
  /\ through (makeRequest rt fuel net c ctx "GET" "/statistics" None ∅ w)
       (GetStatistics rt fuel net c ctx w)
  /\ through_error
       (makeRequest rt fuel net c (WithTimeout Background (Timeout (config c)) (now w))
          "GET" "/health" None ∅ w)
       (Health rt fuel net c w)
  /\ (forall method endpoint data params r c' w',
        makeRequest rt fuel net c ctx method endpoint data params w = Some (r, c', w') ->
        c' = c /\ at_most_one_call c w w').
Proof.
  split; [intros; apply GetNode_through |].
  split; [intros; apply CreateNode_through |].
  split; [intros; apply UpdateNode_through |].
  split; [intros; apply DeleteNode_through |].
  split; [intros; apply GetEdge_through |].
  split; [intros; apply CreateEdge_through |].
  split; [intros; apply UpdateEdge_through |].
  split; [intros; apply DeleteEdge_through |].
  split; [intros; apply RunBFS_through |].
  split; [intros; apply RunDijkstra_through |].
  split; [intros; apply RunPageRank_through |].
  split; [intros; apply Query_through |].
  split; [apply GetStatistics_through |].
  split; [apply Health_through |].
  intros method endpoint data params r c' w' Hcall.
  apply (makeRequest_one_call _ _ _ _ _ _ _ _ _ _ _ _ Hcall).
Qed.

(** The probe and the clock. *)
Lemma Health_clock fuel net c w err c' w' :
  Health rt fuel net c w = Some (err, c', w') ->
  exists evs,
    log w' = log w ++ evs
    /\ (MaxRetries (config c) < GoInt.max_int64 ->
        Z.of_nat (attempts evs) <= Z.max (MaxRetries (config c) + 1) 0)
    /\ now w + slept evs <= now w'
    /\ now w' <= now w + Z.max 0 (Timeout (config c)) + slept evs.
Proof.
  rewrite Health_makeRequest.
  destruct (makeRequest rt fuel net c _ "GET" "/health" None ∅ w)
    as [[[[body err0] c0] w0] |] eqn:Hcall; [| discriminate].
  intros Heq. injection Heq as -> -> ->.
  destruct (makeRequest_clock _ _ _ _ _ _ _ _ _ _ _ _ Hcall)
    as (_ & answers & Hlog & Hlen & Hlow & Hctx & _).
  cbv zeta in *.
  exists (schedule (RetryDelay (config c)) 0 answers).
  split; [exact Hlog |]. rewrite attempts_schedule.
  split; [intros Hmax; specialize (Hlen Hmax); unfold budget in Hlen; lia |].
  split; [exact Hlow |].
  specialize (Hctx _ eq_refl). lia.
Qed.

(** X24. The health probe, and so [NewClient], returns when [MaxRetries] is
    below the largest int, and whenever it returns, it does so no later
    than [Timeout] after its start plus the time it slept between attempts:
    the deadline cuts the attempts short, but not the sleeps. *)
Theorem startup_duration fuel net cfg w :
  let c := assemble cfg in
  (MaxRetries cfg < GoInt.max_int64 ->
   (budget c < fuel)%nat ->
   (exists err w', Health rt fuel net c w = Some (err, c, w'))
   /\ exists r w', NewClient rt fuel net (Some cfg) w = Some (r, w'))
  /\ (forall err c' w',
        Health rt fuel net c w = Some (err, c', w') ->
        exists evs,
          log w' = log w ++ evs
          /\ (MaxRetries cfg < GoInt.max_int64 ->
              Z.of_nat (attempts evs) <= Z.max (MaxRetries cfg + 1) 0)
          /\ now w + slept evs <= now w'
          /\ now w' <= now w + Z.max 0 (Timeout cfg) + slept evs)
  /\ (forall r w',
        NewClient rt fuel net (Some cfg) w = Some (r, w') ->
        exists evs,
          log w' = log w ++ evs
          /\ (MaxRetries cfg < GoInt.max_int64 ->
              Z.of_nat (attempts evs) <= Z.max (MaxRetries cfg + 1) 0)
          /\ now w + slept evs <= now w'
          /\ now w' <= now w + Z.max 0 (Timeout cfg) + slept evs).
Proof.
  intros c. split; [| split].
  - intros Hmax Hfuel. split.
    + apply (Health_returns rt fuel net c w Hmax Hfuel).
    + apply (NewClient_returns fuel net (Some cfg) w Hmax Hfuel).
  - intros err c' w' Hhealth. apply (Health_clock _ _ _ _ _ _ _ Hhealth).
  - intros r w' Hnew.
    destruct (NewClient_dichotomy fuel net (Some cfg) w r w' Hnew)
      as [(_ & Hskip & Hhealth) | (e & cause & _ & _ & Hhealth & _)];
      cbv zeta in *; fold c in Hhealth.
    + destruct (SkipValidation cfg).
      * rewrite (Hskip eq_refl). exists []. rewrite app_nil_r. cbn.
        repeat split; intros; lia.
      * apply (Health_clock _ _ _ _ _ _ _ (Hhealth eq_refl)).
    + apply (Health_clock _ _ _ _ _ _ _ Hhealth).
Qed.


End MoreClientProperties.

(** ** The command *)

Section CliProperties.
Import Go.
Import errors.
Import client.
Import reading.
Import cli.
Variable rt : Runtime.
Variable fm : Formats.

Lemma at_most_one_call_refl c w : at_most_one_call c w w.
Proof. exists []. cbn. rewrite app_nil_r. repeat split; intros; lia. Qed.


Lemma through_error_frame fuel net c ctx method endpoint data params w
    (o : option (option error * NenDBClient * World)) :
  through_error (makeRequest rt fuel net c ctx method endpoint data params w) o ->
  (MaxRetries (config c) < GoInt.max_int64 -> (budget c < fuel)%nat -> is_Some o)
  /\ forall r c' w', o = Some (r, c', w') -> c' = c /\ at_most_one_call c w w'.
Proof.
  unfold through_error. intros Hthrough. split.
  - intros Hmax Hfuel.
    destruct (makeRequest_returns rt fuel net c ctx method endpoint data params w
                Hmax Hfuel) as (r0 & w0 & Hcall).
    rewrite Hcall in Hthrough. destruct r0 as [body err].
    rewrite Hthrough. eexists. reflexivity.
  - intros r c' w' ->.
    destruct (makeRequest rt fuel net c ctx method endpoint data params w)
      as [[[[body err] c0] w0] |] eqn:Hcall; [| discriminate Hthrough].
    injection Hthrough as -> -> ->.
    apply (makeRequest_one_call rt _ _ _ _ _ _ _ _ _ _ _ _ Hcall).
Qed.
















(** X18. On a command line that is not well formed (an unknown command or
    algorithm, a missing argument, or a number that [Sscanf] refuses),
    [executeCommand] returns an unclassified error without calling the
    driver: the world is as it was. Nothing is printed either, except the
    line "Running ... algorithm...", which [executeAlgorithm] prints before
    it looks at its arguments. *)
Theorem executeCommand_usage_error fuel net c command args w out :
  well_formed fm command args = false ->
  exists text out',
    executeCommand rt fm fuel net c command args w out
    = Some (Some (PlainError text), c, w, out')
    /\ (out' = out
        \/ exists algoType rest,
             command = "algorithm" /\ args = algoType :: rest
             /\ out' = out ++ ["Running " +:+ algoType +:+ " algorithm..."]).
Proof.
  unfold well_formed, executeCommand, executeGetNode, executeGetEdge, executeAlgorithm,
    executeQuery, scans, scans_float, fail.
  intros Hbad.
  repeat (first
    [ discriminate Hbad
    | progress (cbn [orb andb] in Hbad)
    | case_bool_decide; simplify_eq
    | match type of Hbad with
      | context [match ?l with [] => _ | _ :: _ => _ end] => is_var l; destruct l
      | context [match Sscanf_d fm ?s with Ok _ => _ | Err _ => _ end] =>
          destruct (Sscanf_d fm s)
      | context [match Sscanf_f fm ?s with Ok _ => _ | Err _ => _ end] =>
          destruct (Sscanf_f fm s)
      end ]);
    eexists _, _; (split; [reflexivity |]);
    first [ left; reflexivity | right; eexists _, _; repeat split ].
Qed.

(** X19. [executeCommand] looks at a bounded number of leading arguments:
    one for [node], [edge] and [query]; for [algorithm] the type and up to
    three, two and two more for [bfs], [dijkstra] and [pagerank]; none for
    [health] and [stats]. What follows them is ignored without a word. *)
Theorem executeCommand_surplus_arguments fuel net c command args w out :
  executeCommand rt fm fuel net c command args w out
  = executeCommand rt fm fuel net c command (take (arity command args) args) w out.
Proof.
  unfold executeCommand, arity, executeAlgorithm.
  repeat (first
    [ reflexivity
    | case_bool_decide; simplify_eq
    | progress cbn [orb take]
    | match goal with
      | |- context [match ?l with [] => _ | _ :: _ => _ end] => is_var l; destruct l
      end ]).
Qed.

(** X20. The defaults of the algorithms are those of the source: [bfs]
    without a third argument runs as with a maximal depth of 10, and
    [pagerank] runs with 100 iterations and a tolerance of 0.001 where these
    are not given. *)
Theorem executeAlgorithm_defaults fuel net c ctx a b d i t w out :
  (Sscanf_d fm d = Ok 10 ->
   executeAlgorithm rt fm fuel net c ctx "bfs" [a; b] w out
   = executeAlgorithm rt fm fuel net c ctx "bfs" [a; b; d] w out)
  /\ (Sscanf_d fm i = Ok 100 ->
      executeAlgorithm rt fm fuel net c ctx "pagerank" [] w out
      = executeAlgorithm rt fm fuel net c ctx "pagerank" [i] w out)
  /\ (Sscanf_d fm i = Ok 100 ->
      Sscanf_f fm t = Ok tolerance_default ->
      executeAlgorithm rt fm fuel net c ctx "pagerank" [] w out
      = executeAlgorithm rt fm fuel net c ctx "pagerank" [i; t] w out).
Proof.
  unfold executeAlgorithm.
  split; [| split].
  - intros Hd. rewrite Hd.
    rewrite (bool_decide_eq_true_2 ("bfs" = "bfs") eq_refl).
    destruct (Sscanf_d fm a); [| reflexivity].
    destruct (Sscanf_d fm b); reflexivity.
  - intros Hi. rewrite Hi. reflexivity.
  - intros Hi Ht. rewrite Hi, Ht. reflexivity.
Qed.

(** [NewClient] on a given configuration makes at most one call of the
    driver, the health probe. *)
Lemma NewClient_one_call fuel net cfg w :
  (MaxRetries cfg < GoInt.max_int64 ->
   (budget (assemble cfg) < fuel)%nat ->
   is_Some (NewClient rt fuel net (Some cfg) w))
  /\ forall r w1,
       NewClient rt fuel net (Some cfg) w = Some (r, w1) ->
       at_most_one_call (assemble cfg) w w1
       /\ ((exists e, r = (None, Some (NenDBConnectionError e)))
           \/ r = (Some (assemble cfg), None)).
Proof.
  split.
  - intros Hmax Hfuel.
    destruct (NewClient_returns rt fuel net (Some cfg) w Hmax Hfuel) as (r & w' & ->).
    eexists. reflexivity.
  - intros r w1 Hnew.
    destruct (through_error_frame _ _ _ _ _ _ _ _ _ _
                (Health_through rt fuel net (assemble cfg) w)) as [_ Hone].
    destruct (NewClient_dichotomy rt fuel net (Some cfg) w r w1 Hnew)
      as [(-> & Hskip & Hprobe) | (e & cause & -> & Hskip & Hprobe & _)];
      cbv zeta in *.
    + split; [| right; reflexivity].
      destruct (SkipValidation cfg).
      * rewrite (Hskip eq_refl). apply at_most_one_call_refl.
      * apply (Hone _ _ _ (Hprobe eq_refl)).
    + split; [| left; eexists; reflexivity].
      apply (Hone _ _ _ Hprobe).
Qed.


(** The configuration that [main] makes of the flags. *)
Lemma main_cases fuel net cl w :
  main rt fm fuel net (Parsed cl) w
  = if flag_showVer cl then
      Some (0, w, [Stdout ("nendb-go-driver version " +:+ version)])
    else if flag_help cl || (NFlag cl =? 0)%nat then
      Some (0, w, [Stdout help_text])
    else
      let cfg :=
        {| BaseURL := flag_baseURL cl;
           Timeout := flag_timeout cl;
           MaxRetries := flag_maxRetries cl;
           RetryDelay := 0;
           SkipValidation := flag_skipHealth cl;
           HTTPClient_ := None |} in
      match NewClient rt fuel net (Some cfg) w with
      | None => None
      | Some ((_, Some err), w') =>
          Some (1, w', [Stderr ("Failed to create client: " +:+ Error rt err)])
      | Some ((None, None), w') =>
          Some (2, w',
                [Stderr "panic: runtime error: invalid memory address or nil pointer dereference"])
      | Some ((Some client, None), w') =>
          match executeCommand rt fm fuel net client (flag_command cl) (Args cl) w' [] with
          | None => None
          | Some (Some err, _, w'', out) =>
              Some (1, w'',
                    (Stdout <$> out) ++ [Stderr ("Command failed: " +:+ Error rt err)])
          | Some (None, _, w'', out) => Some (0, w'', Stdout <$> out)
          end
      end.
Proof. reflexivity. Qed.





(** X23. A command that [executeCommand] does not know (the empty one
    that the flag has by default, say) is found out only after the client
    was created: the health probe is run first, unless it is skipped, and
    the process ends with status 1 either way, on the error of the probe or
    on "unknown command". *)
Theorem main_checks_command_after_connecting fuel net cl w :
  flag_showVer cl = false ->
  flag_help cl = false ->
  NFlag cl <> 0%nat ->
  ~ In (flag_command cl) ["health"; "node"; "edge"; "algorithm"; "query"; "stats"] ->
  main rt fm fuel net (Parsed cl) w
  = match NewClient rt fuel net
            (Some {| BaseURL := flag_baseURL cl;
                     Timeout := flag_timeout cl;
                     MaxRetries := flag_maxRetries cl;
                     RetryDelay := 0;
                     SkipValidation := flag_skipHealth cl;
                     HTTPClient_ := None |}) w with
    | None => None
    | Some ((_, Some err), w') =>
        Some (1, w', [Stderr ("Failed to create client: " +:+ Error rt err)])
    | Some ((_, None), w') =>
        Some (1, w', [Stderr ("Command failed: unknown command: " +:+ flag_command cl)])
    end.
Proof.
  intros Hver Hhelp Hflags Hcommand. rewrite main_cases. rewrite Hver, Hhelp.
  replace (NFlag cl =? 0)%nat with false by (symmetry; apply Nat.eqb_neq; exact Hflags).
  cbn [orb]. cbv zeta.
  match goal with
  | |- context [NewClient rt fuel net (Some ?cfg) w] =>
      destruct (NewClient_one_call fuel net cfg w) as [_ Hone];
      destruct (NewClient rt fuel net (Some cfg) w) as [[r w1] |]; [| reflexivity];
      destruct (Hone r w1 eq_refl) as [_ [[e ->] | ->]]
  end; [reflexivity |].
  unfold executeCommand.
  repeat (let Heq := fresh "Heq" in
          case_bool_decide as Heq;
          [exfalso; apply Hcommand; rewrite Heq; cbn; tauto |]).
  reflexivity.
Qed.

End CliProperties.

(** ** More concrete runs *)

Section MoreConcreteRuns.
Import Go.
Import errors.
Import client.
Import reading.
Import cli.
Import scenario.
Import cases.
Import terminal.


(** On that run the six seconds are slept, and the call ends after them. *)
Lemma refused_run_total :
  snd <$> probe 5 refused (settings 3 Second true) Background
  = Some {| now := 6 * Second;
            log := linear_backoff Second
                     [Unreachable "connection refused";
                      Unreachable "connection refused";
                      Unreachable "connection refused";
                      Unreachable "connection refused"] |}.
Proof. reflexivity. Qed.

(** The address [http://[::1]: the request cannot be made, and nothing is
    sent. *)
Lemma unbuilt_request_sends_nothing_witness :
  makeRequest fussy 0 refused (assemble bad_address) Background "GET" "/health" None ∅ start
  = Some ((None,
           Some (NewValidationError 0 "Failed to create request"
                   (Some (detail "error" "missing ']' in host")))),
          assemble bad_address, start).
Proof.
  assert (Hbuild : build_request fussy (assemble bad_address) Background
                     "GET" "/health" None ∅ (now start)
                   = inr (NewValidationError 0 "Failed to create request"
                            (Some (detail "error" "missing ']' in host"))))
    by reflexivity.
  exact (proj1 (unbuilt_request_sends_nothing fussy 0 refused (assemble bad_address)
                  Background "GET" "/health" None ∅ start _ Hbuild)).
Defined.

(** A healthy server that answers after a millisecond. *)
Lemma NewClient_connects_witness :
  NewClient rt 1 healthy (Some (settings 3 Second false)) start
  = Some ((Some (assemble (settings 3 Second false)), None),
          {| now := Millisecond; log := [Sent 0 (Complete 200 "200 OK" "ok")] |}).
Proof.
  apply (NewClient_connects rt 1 healthy (settings 3 Second false) start 200 "200 OK" "ok");
    first [ reflexivity
          | lia
          | vm_compute; discriminate
          | split; [vm_compute; discriminate | reflexivity]
          | right; vm_compute; discriminate ].
Defined.


(** A server that answers 101 to every attempt. *)
Lemma exhaustion_reports_last_failure_witness :
  exists answers final e w',
    probe 4 switching (settings 2 Second true) Background
      = Some ((None, Some (NenDBTimeoutError e)), assemble (settings 2 Second true), w')
    /\ log w' = log start ++ schedule Second 0 answers
    /\ Z.of_nat (length answers) = 2 + 1
    /\ last answers = Some final
    /\ retried final = true
    /\ Message e = "Request failed after all retries"
    /\ Details e = detail "error" (Error rt (retry_error final))
    /\ (forall code status body,
          final = Complete code status body ->
          Details e = detail "error" ("unexpected status code: " +:+ pretty code))
    /\ Time e = now w'.
Proof.
  assert (Hbuild : build_request rt (assemble (settings 2 Second true)) Background
                     "GET" "/health" None ∅ (now start)
                   = inl (probe_request Background)) by reflexivity.
  assert (Hretries : 0 <= MaxRetries (config (assemble (settings 2 Second true))))
    by (vm_compute; discriminate).
  assert (Hnet : forall k, retried (answer (switching (probe_request Background) k)) = true)
    by (intros k; reflexivity).
  assert (Hmax : MaxRetries (config (assemble (settings 2 Second true)))
                 < GoInt.max_int64) by reflexivity.
  assert (Hfuel : (budget (assemble (settings 2 Second true)) < 4)%nat)
    by (vm_compute; lia).
  destruct (exhaustion_reports_last_failure rt 4 switching
              (assemble (settings 2 Second true))
              Background "GET" "/health" None ∅ start (probe_request Background)
              Hbuild Hretries Hnet) as [Hbounded _].
  exact (Hbounded Hmax Hfuel).
Defined.

(** The same server and the largest retry budget: the call never returns. *)
Lemma switching_forever :
  forall fuel,
    probe fuel switching (settings GoInt.max_int64 0 true) Background = None.
Proof.
  intros fuel.
  apply (makeRequest_never_returns rt fuel switching
           (assemble (settings GoInt.max_int64 0 true)) Background
           "GET" "/health" None ∅ start (probe_request Background));
    [reflexivity | reflexivity |].
  intros k t. apply Do_retried. reflexivity.
Qed.

(** A 404 with the body [{"message":"not found"}]. *)
Lemma response_error_keeps_body_drops_status_witness :
  probe 1 not_found (settings 2 Second true) Background
  = Some ((None,
           Some (NenDBResponseError
                   {| Message := "not found";
                      Details := {[ "message" := Some (VString "not found") ]};
                      Time := 0 |})),
          assemble (settings 2 Second true),
          {| now := 0; log := [Sent 0 (Complete 404 "404 Not Found" not_found_body)] |}).
Proof.
  assert (Hfuel : (0 < 1)%nat) by lia.
  assert (Hbuild : build_request rt (assemble (settings 2 Second true)) Background
                     "GET" "/health" None ∅ (now start)
                   = inl (probe_request Background)) by reflexivity.
  assert (HDo : fst (Do rt (httpClient (assemble (settings 2 Second true))) not_found
                       (probe_request Background) 0 (now start))
                = Complete 404 "404 Not Found" not_found_body) by reflexivity.
  assert (Hbody : json_Unmarshal_map rt not_found_body
                  = Ok (Some {[ "message" := Some (VString "not found") ]}))
    by reflexivity.
  assert (Hmsg : ({[ "message" := Some (VString "not found") ]} : smap) !! "message"
                 = Some (Some (VString "not found"))) by reflexivity.
  assert (Hretries : 0 <= MaxRetries (config (assemble (settings 2 Second true))))
    by (vm_compute; discriminate).
  assert (Hcode : 400 <= 404) by (vm_compute; discriminate).
  exact (response_error_keeps_body_drops_status rt 1 not_found
           (assemble (settings 2 Second true)) Background "GET" "/health" None ∅ start
           (probe_request Background) 404 "404 Not Found" not_found_body
           {[ "message" := Some (VString "not found") ]} "not found"
           Hfuel Hbuild Hretries HDo Hcode Hbody Hmsg).
Defined.


(** [nendb ... -command node abc]: the identifier does not scan. *)
Lemma executeCommand_usage_error_witness :
  exists text out',
    executeCommand rt fm 0 refused driver "node" ["abc"] start []
      = Some (Some (PlainError text), driver, start, out')
    /\ (out' = []
        \/ exists algoType rest,
             "node" = "algorithm" /\ ["abc"] = algoType :: rest
             /\ out' = [] ++ ["Running " +:+ algoType +:+ " algorithm..."]).
Proof.
  apply (executeCommand_usage_error rt fm 0 refused driver "node" ["abc"] start []).
  reflexivity.
Defined.

(** [nendb -url http://localhost:9999 -retries 2] without [-command],
    against a server that cannot be reached: three attempts of the probe,
    then status 1. *)
Lemma main_checks_command_after_connecting_witness :
  exists e,
    main rt fm 4 refused (Parsed (invocation EmptyString [])) start
    = Some (1,
            {| now := 0;
               log := [Sent 0 (Unreachable "connection refused");
                       Slept 0; Sent 1 (Unreachable "connection refused");
                       Slept 0; Sent 2 (Unreachable "connection refused")] |},
            [Stderr ("Failed to create client: " +:+ Error rt e)])
    /\ kind e = Some ConnectionKind.
Proof.
  assert (Hver : flag_showVer (invocation EmptyString []) = false) by reflexivity.
  assert (Hhelp : flag_help (invocation EmptyString []) = false) by reflexivity.
  assert (Hflags : NFlag (invocation EmptyString []) <> 0%nat) by discriminate.
  assert (Hcommand : ~ In (flag_command (invocation EmptyString []))
                         ["health"; "node"; "edge"; "algorithm"; "query"; "stats"]).
  { cbn. intros [H | [H | [H | [H | [H | [H | []]]]]]]; discriminate H. }
  rewrite (main_checks_command_after_connecting rt fm 4 refused (invocation EmptyString [])
             start Hver Hhelp Hflags Hcommand).
  eexists. split; reflexivity.
Defined.

(** [bfs 1 5] runs as [bfs 1 5 10]. *)
Lemma executeAlgorithm_defaults_witness :
  executeAlgorithm rt fm 4 refused driver Background "bfs" ["1"; "5"] start []
  = executeAlgorithm rt fm 4 refused driver Background "bfs" ["1"; "5"; "10"] start [].
Proof.
  apply (proj1 (executeAlgorithm_defaults rt fm 4 refused driver Background
                  "1" "5" "10" "100" "0.001" start [])).
  reflexivity.
Defined.

(** What [flag.Parse] makes of [nendb -x] and of [nendb -h], and the
    command against a server that cannot be reached. *)
Lemma main_runs :
  main rt fm 0 refused (BadFlag not_defined usage) start
  = Some (2, start, [Stderr not_defined; Stderr usage])
  /\ main rt fm 0 refused (HelpFlag usage) start = Some (0, start, [Stderr usage])
  /\ (exists w', main rt fm 4 healthy (Parsed (invocation "health" [])) start
                 = Some (0, w',
                         [Stdout "Checking NenDB server health...";
                          Stdout "✓ Server is healthy"]))
  /\ forall fuel, main rt fm fuel refused (Parsed forever) start = None.
Proof.
  split; [reflexivity |]. split; [reflexivity |].
  split; [eexists; reflexivity |].
  intros fuel. rewrite main_cases. cbv zeta.
  change (flag_showVer forever) with false.
  change (flag_help forever || (NFlag forever =? 0)%nat) with false. cbv iota.
  rewrite NewClient_cases. cbv zeta.
  change (negb (SkipValidation _)) with true. cbv iota.
  rewrite Health_makeRequest.
  match goal with
  | |- context [makeRequest rt fuel refused ?c ?ctx "GET" "/health" None ∅ start] =>
      rewrite (makeRequest_never_returns rt fuel refused c ctx
                 "GET" "/health" None ∅ start
                 {| req_ctx := ctx;
                    req_method := "GET";
                    req_url := "http://localhost:9999/health";
                    req_body := None;
                    req_header := [("User-Agent", "nendb-go-driver/0.1.0")] |});
      [reflexivity | reflexivity | reflexivity |]
  end.
  intros k t. apply Do_retried. reflexivity.
Qed.

End MoreConcreteRuns.
